(** * Chat application back end: message, room and presence rules

    A shallow embedding of the Mongoose models ([models/User], [models/Room],
    [models/Message]), of the REST controllers ([messageController],
    [roomController], [userController]) and of the Socket.IO handlers
    ([chatHandlers], [roomHandlers], [socketHandlers]).

    - A JavaScript string is a Rocq [string], a sequence of the code units
      below 256; [ObjectId]s appear through their [toString()] rendering,
      the only way the code compares them.  Where nothing else is said, an
      id in a request is a string in that rendering, as the server hands it
      out.  The user id in the body of a request that removes a member or
      sets a role is a [Field]: a string of any content, or an array that
      holds one string, compared with [===], rendered with [toString()] and
      cast to an [ObjectId] where the code does each of these.
    - A [Date] is its number of milliseconds since the epoch, in [Z].
    - A collection is the list of its documents in insertion order.
    - A handler runs in a state-and-exception monad: the state carries the
      three collections and the events emitted so far, and survives a
      [throw], as a document saved before an exception stays saved.
    - Each handler reads the clock once ([now]); a fresh [ObjectId] is given
      to the handlers that create a document. *)

From Stdlib Require Import List String Ascii ZArith Bool Lia.
Import ListNotations.
Open Scope Z_scope.
Open Scope string_scope.
Open Scope list_scope.

Set Implicit Arguments.

(** ** JavaScript strings *)

(** [!s] for a string-valued field: the empty string is falsy, and so is a
    missing ([undefined]) field, which the payload records render as [""]. *)
Definition falsy (s : string) : bool := s =? "".

(** [list.includes(s)] for strings. *)
Definition includes (l : list string) (s : string) : bool :=
  existsb (String.eqb s) l.

(** A field of a JSON body or event that the code expects to hold an id: a
    string, or an array that holds one string. *)
Inductive Field : Type :=
| Str (s : string)
| Arr (s : string).       (* the array [[s]] *)

(** [v.toString()]: an array renders as its elements joined by commas. *)
Definition text (v : Field) : string :=
  match v with
  | Str s => s
  | Arr s => s
  end.

(** [s === v] for a string [s]: no array is identical to a string. *)
Definition identical (s : string) (v : Field) : bool :=
  match v with
  | Str s' => s =? s'
  | Arr _ => false
  end.

(** [!v]: of these values only the empty string is falsy. *)
Definition falsyField (v : Field) : bool :=
  match v with
  | Str s => falsy s
  | Arr _ => false
  end.

(** White space and line terminators removed by [String.prototype.trim],
    among the code units a Rocq character can hold. *)
Definition isWhiteSpace (c : ascii) : bool :=
  let n := nat_of_ascii c in
  ((9 <=? n)%nat && (n <=? 13)%nat) || (n =? 32)%nat || (n =? 160)%nat.

Fixpoint dropWhile {A : Type} (p : A -> bool) (l : list A) : list A :=
  match l with
  | [] => []
  | x :: l' => if p x then dropWhile p l' else l
  end.

Definition trimList (l : list ascii) : list ascii :=
  rev (dropWhile isWhiteSpace (rev (dropWhile isWhiteSpace l))).

Definition trim (s : string) : string :=
  string_of_list_ascii (trimList (list_ascii_of_string s)).

(** ** Exceptions and results *)

Inductive Exn : Type :=
| AlreadyMember      (* Error('User is already a member of this room') *)
| MemberLimit        (* Error('Room has reached maximum member limit') *)
| NotAMember         (* Error('User is not a member of this room') *)
| NotSender          (* Error('Only the sender can edit this message') *)
| ValidationError    (* a schema validator refused the document *)
| DuplicateKey       (* E11000: a unique index refused the write *)
| DocumentNotFound   (* save() of a document that is not in the collection *)
| TypeError          (* property access on null *)
| CastError.         (* a value that is no ObjectId where one is needed *)

Inductive result (A : Type) : Type :=
| Ok (a : A)
| Throw (e : Exn).
Arguments Ok {A} a.
Arguments Throw {A} e.

(** ** Collections *)

Section Collection.
Variable D : Type.
Variable key : D -> string.

Definition findById (id : string) (c : list D) : option D :=
  find (fun d => key d =? id) c.

(** The write of an existing document: the stored document with the same
    [_id] is replaced. *)
Fixpoint replaceById (d : D) (c : list D) : list D :=
  match c with
  | [] => []
  | x :: c' => if key x =? key d then d :: c' else x :: replaceById d c'
  end.

(** A field update applied to the first element a predicate selects, as
    [const x = arr.find(p); x.field = v] does on the array in place. *)
Fixpoint updateFirst (p : D -> bool) (f : D -> D) (c : list D) : list D :=
  match c with
  | [] => []
  | x :: c' => if p x then f x :: c' else x :: updateFirst p f c'
  end.
End Collection.

(** ** models/User *)

Module User.
Record t : Type := mk {
  _id : string;
  username : string;
  status : string;
  lastSeen : Z;
  isActive : bool;
  joinedRooms : list string
}.

Definition statusEnum : list string := ["online"; "offline"; "away"; "busy"].

Definition validate (u : t) : bool := includes statusEnum (status u).

Definition save (c : list t) (u : t) : result (list t * t) :=
  if negb (validate u) then Throw ValidationError
  else match findById _id (_id u) c with
       | None => Throw DocumentNotFound
       | Some _ => Ok (replaceById _id u c, u)
       end.

Definition updateStatus (now : Z) (c : list t) (u : t) (status' : string)
  : result (list t * t) :=
  let u1 := mk (_id u) (username u) status' (lastSeen u) (isActive u)
               (joinedRooms u) in
  let u2 := if status' =? "offline"
            then mk (_id u1) (username u1) (status u1) now (isActive u1)
                    (joinedRooms u1)
            else u1 in
  save c u2.

(** [User.findByIdAndUpdate(id, { $addToSet: { joinedRooms: roomId } })] *)
Definition addJoinedRoom (roomId : string) (u : t) : t :=
  if includes (joinedRooms u) roomId then u
  else mk (_id u) (username u) (status u) (lastSeen u) (isActive u)
          (joinedRooms u ++ [roomId]).

(** [User.findByIdAndUpdate(id, { $pull: { joinedRooms: roomId } })] *)
Definition pullJoinedRoom (roomId : string) (u : t) : t :=
  mk (_id u) (username u) (status u) (lastSeen u) (isActive u)
     (filter (fun r => negb (r =? roomId)) (joinedRooms u)).

Definition findByIdAndUpdate (id : string) (f : t -> t) (c : list t)
  : list t :=
  updateFirst (fun u => _id u =? id) f c.
End User.

(** ** models/Room *)

Module Room.
Record Member : Type := mkMember {
  user : string;
  role : string;
  joinedAt : Z;
  lastReadAt : Z
}.

Record Settings : Type := mkSettings {
  isPrivate : bool;
  allowInvites : bool;
  maxMembers : Z
}.

Record t : Type := mk {
  _id : string;
  name : string;
  description : string;
  type : string;
  avatar : option string;
  creator : string;
  members : list Member;
  settings : Settings;
  lastMessage : option string;
  lastActivity : Z;
  isActive : bool
}.

Definition with_members (r : t) (ms : list Member) : t :=
  mk (_id r) (name r) (description r) (type r) (avatar r) (creator r) ms
     (settings r) (lastMessage r) (lastActivity r) (isActive r).

Definition with_settings (r : t) (s : Settings) : t :=
  mk (_id r) (name r) (description r) (type r) (avatar r) (creator r)
     (members r) s (lastMessage r) (lastActivity r) (isActive r).

Definition with_lastActivity (r : t) (d : Z) : t :=
  mk (_id r) (name r) (description r) (type r) (avatar r) (creator r)
     (members r) (settings r) (lastMessage r) d (isActive r).

Definition with_lastMessage (r : t) (messageId : string) : t :=
  mk (_id r) (name r) (description r) (type r) (avatar r) (creator r)
     (members r) (settings r) (Some messageId) (lastActivity r) (isActive r).

Definition with_isActive (r : t) (b : bool) : t :=
  mk (_id r) (name r) (description r) (type r) (avatar r) (creator r)
     (members r) (settings r) (lastMessage r) (lastActivity r) b.

Definition with_profile (r : t) (n d : string) (a : option string) : t :=
  mk (_id r) n d (type r) a (creator r) (members r) (settings r)
     (lastMessage r) (lastActivity r) (isActive r).

Definition typeEnum : list string := ["direct"; "group"; "public"].
Definition roleEnum : list string := ["admin"; "moderator"; "member"].

(** The schema validators run by [save()]. *)
Definition validate (r : t) : bool :=
  (1 <=? String.length (name r))%nat
  && (String.length (name r) <=? 50)%nat
  && (String.length (description r) <=? 200)%nat
  && includes typeEnum (type r)
  && forallb (fun m => includes roleEnum (role m)) (members r)
  && (2 <=? maxMembers (settings r))%Z
  && (maxMembers (settings r) <=? 1000)%Z.

(** Keys a room contributes to the unique index
    [{ type: 1, 'members.user': 1 }], partial on [type = 'direct']: one key
    per member of a direct room. *)
Definition directKeys (r : t) : list string :=
  if type r =? "direct" then map user (members r) else [].

(** A unique multikey index compares keys across documents only. *)
Definition indexConflict (others : list t) (keys : list string) : bool :=
  existsb (fun o => existsb (includes (directKeys o)) keys) others.

Definition otherRooms (id : string) (c : list t) : list t :=
  filter (fun o => negb (_id o =? id)) c.

(** [room.save()], with the pre-save hook that stamps [lastActivity].
    [isNew] separates the insert of [new Room(...)] from the write of a
    document that was read from the collection; the latter adds to the
    index only the keys the stored document did not have. *)
Definition save (isNew : bool) (now : Z) (c : list t) (r : t)
  : result (list t * t) :=
  if negb (validate r) then Throw ValidationError
  else
    let r' := with_lastActivity r now in
    match findById _id (_id r) c with
    | None =>
        if isNew then
          if indexConflict c (directKeys r') then Throw DuplicateKey
          else Ok (c ++ [r'], r')
        else Throw DocumentNotFound
    | Some old =>
        if isNew then Throw DuplicateKey
        else
          let added :=
            filter (fun k => negb (includes (directKeys old) k))
                   (directKeys r') in
          if indexConflict (otherRooms (_id r) c) added
          then Throw DuplicateKey
          else Ok (replaceById _id r' c, r')
    end.

Definition findMember (r : t) (userId : string) : option Member :=
  find (fun m => user m =? userId) (members r).

Definition addMember (now : Z) (c : list t) (r : t) (userId role' : string)
  : result (list t * t) :=
  match findMember r userId with
  | Some _ => Throw AlreadyMember
  | None =>
      if (Z.of_nat (List.length (members r)) >=? maxMembers (settings r))%Z
      then Throw MemberLimit
      else save false now c
             (with_members r (members r ++ [mkMember userId role' now now]))
  end.

Definition removeMember (now : Z) (c : list t) (r : t) (userId : string)
  : result (list t * t) :=
  save false now c
    (with_members r (filter (fun m => negb (user m =? userId)) (members r))).

Definition updateMemberRole (now : Z) (c : list t) (r : t)
           (userId newRole : string) : result (list t * t) :=
  match findMember r userId with
  | None => Throw NotAMember
  | Some _ =>
      save false now c
        (with_members r
           (updateFirst (fun m => user m =? userId)
              (fun m => mkMember (user m) newRole (joinedAt m) (lastReadAt m))
              (members r)))
  end.

Definition updateLastRead (now : Z) (c : list t) (r : t) (userId : string)
  : result (list t * t) :=
  match findMember r userId with
  | Some _ =>
      save false now c
        (with_members r
           (updateFirst (fun m => user m =? userId)
              (fun m => mkMember (user m) (role m) (joinedAt m) now)
              (members r)))
  | None => Ok (c, r)
  end.

Definition isMember (r : t) (userId : string) : bool :=
  existsb (fun m => user m =? userId) (members r).

Definition isAdmin (r : t) (userId : string) : bool :=
  match findMember r userId with
  | Some m => (role m =? "admin") || (creator r =? userId)
  | None => false
  end.

(** [findOne({ type: 'direct', 'members.user': { $all: [u1, u2] } })] *)
Definition isDirectBetween (user1Id user2Id : string) (r : t) : bool :=
  (type r =? "direct") && isMember r user1Id && isMember r user2Id.

Definition createDirectRoom (now : Z) (newId : string) (c : list t)
           (user1Id user2Id : string) : result (list t * t) :=
  match find (isDirectBetween user1Id user2Id) c with
  | Some existingRoom => Ok (c, existingRoom)
  | None =>
      save true now c
        (mk newId "Direct Message" "" "direct" None user1Id
            [mkMember user1Id "admin" now now;
             mkMember user2Id "admin" now now]
            (mkSettings true false 2) None now true)
  end.
End Room.

(** ** models/Message *)

Module Message.
(** A reference to a user document: the [ObjectId] as stored, or the
    document that [populate('sender', ...)] puts in its place on the
    document held by a handler. *)
Inductive UserRef : Type :=
| Unpopulated (id : string)
| Populated (doc : User.t).

(** [ref._id.toString()] *)
Definition refId (r : UserRef) : string :=
  match r with
  | Unpopulated id => id
  | Populated doc => User._id doc
  end.

(** [ref.toString() === id] for the rendering [id] of an [ObjectId].  An
    [ObjectId] renders as its hexadecimal digits.  A populated reference is
    a document, whose [toString()] is the text of the whole object (for a
    Mongoose document the [console.log] helper): no id equals it. *)
Definition rendersAs (r : UserRef) (id : string) : bool :=
  match r with
  | Unpopulated id' => id' =? id
  | Populated _ => false
  end.

Record Edit : Type := mkEdit {
  previous : string;      (* editHistory[i].content *)
  at_ : Z                 (* editHistory[i].editedAt *)
}.

Record Reaction : Type := mkReaction {
  emoji : string;
  users : list string;
  count : Z
}.

Record Read : Type := mkRead {
  user : string;
  readAt : Z
}.

Record t : Type := mk {
  _id : string;
  content : string;
  sender : UserRef;
  room : string;
  type : string;
  editedAt : option Z;            (* metadata.editedAt *)
  editHistory : list Edit;        (* metadata.editHistory *)
  reactions : list Reaction;
  readBy : list Read;
  isDeleted : bool;
  deletedAt : option Z;
  deletedBy : option string;
  createdAt : Z
}.

Definition with_reactions (m : t) (rs : list Reaction) : t :=
  mk (_id m) (content m) (sender m) (room m) (type m) (editedAt m)
     (editHistory m) rs (readBy m) (isDeleted m) (deletedAt m)
     (deletedBy m) (createdAt m).

Definition with_readBy (m : t) (rb : list Read) : t :=
  mk (_id m) (content m) (sender m) (room m) (type m) (editedAt m)
     (editHistory m) (reactions m) rb (isDeleted m) (deletedAt m)
     (deletedBy m) (createdAt m).

Definition with_sender (m : t) (r : UserRef) : t :=
  mk (_id m) (content m) r (room m) (type m) (editedAt m)
     (editHistory m) (reactions m) (readBy m) (isDeleted m) (deletedAt m)
     (deletedBy m) (createdAt m).

Definition deletedText : string := "This message has been deleted".

(** Validators of [content]: [required] and [maxlength: 2000]. *)
Definition validate (m : t) : bool :=
  negb (content m =? "") && (String.length (content m) <=? 2000)%nat.

Definition typeEnum : list string := ["text"; "image"; "file"; "system"].

(** The pre-save hook: every reaction's [count] becomes the length of its
    [users]. *)
Definition preSave (m : t) : t :=
  with_reactions m
    (map (fun r => mkReaction (emoji r) (users r)
                     (Z.of_nat (List.length (users r))))
         (reactions m)).

(** [message.save()]: validation, the pre-save hook, then the write.  A
    populated path is written as the id it refers to. *)
Definition save (c : list t) (m : t) : result (list t * t) :=
  if negb (validate m) then Throw ValidationError
  else
    let m' := preSave m in
    match findById _id (_id m) c with
    | None => Throw DocumentNotFound
    | Some _ =>
        Ok (replaceById _id
              (with_sender m' (Unpopulated (refId (sender m')))) c, m')
    end.

(** [save()] of a document made by [new Message(...)]: every path is
    validated, and the document is inserted. *)
Definition insert (c : list t) (m : t) : result (list t * t) :=
  if negb (validate m && includes typeEnum (type m))
  then Throw ValidationError
  else
    let m' := preSave m in
    match findById _id (_id m) c with
    | Some _ => Throw DuplicateKey
    | None =>
        Ok (c ++ [with_sender m' (Unpopulated (refId (sender m')))], m')
    end.

Definition findReaction (m : t) (e : string) : option Reaction :=
  find (fun r => emoji r =? e) (reactions m).

(** [addReaction].  When no entry has the emoji, the method pushes a plain
    object onto [this.reactions] and then goes on through its own variable
    [reaction].  In a plain array the pushed element and the variable are
    one object; a Mongoose document array stores a subdocument cast from
    the pushed object, which the later [reaction.users.push] does not
    reach.  [aliased] tells which of the two holds; the statements about
    [addReaction] are proved for both. *)
Definition addReaction (aliased : bool) (c : list t) (m : t)
           (e userId : string) : result (list t * t) :=
  let reactions' :=
    match findReaction m e with
    | Some reaction =>
        if includes (users reaction) userId then reactions m
        else updateFirst (fun r => emoji r =? e)
               (fun r => mkReaction (emoji r) (users r ++ [userId])
                           (Z.of_nat (List.length (users r ++ [userId]))))
               (reactions m)
    | None =>
        if aliased then reactions m ++ [mkReaction e [userId] 1]
        else reactions m ++ [mkReaction e [] 0]
    end in
  save c (with_reactions m reactions').

Definition removeReaction (c : list t) (m : t) (e userId : string)
  : result (list t * t) :=
  let reactions' :=
    match findReaction m e with
    | Some reaction =>
        let users' := filter (fun u => negb (u =? userId)) (users reaction) in
        let count' := Z.of_nat (List.length users') in
        let rs := updateFirst (fun r => emoji r =? e)
                    (fun r => mkReaction (emoji r) users' count')
                    (reactions m) in
        if (count' =? 0)%Z
        then filter (fun r => negb (emoji r =? e)) rs
        else rs
    | None => reactions m
    end in
  save c (with_reactions m reactions').

Definition markAsRead (now : Z) (c : list t) (m : t) (userId : string)
  : result (list t * t) :=
  match find (fun rd => user rd =? userId) (readBy m) with
  | None => save c (with_readBy m (readBy m ++ [mkRead userId now]))
  | Some _ => Ok (c, m)
  end.

Definition editContent (now : Z) (c : list t) (m : t)
           (newContent editorId : string) : result (list t * t) :=
  if negb (rendersAs (sender m) editorId) then Throw NotSender
  else
    save c
      (mk (_id m) newContent (sender m) (room m) (type m) (Some now)
          (editHistory m ++ [mkEdit (content m) now]) (reactions m)
          (readBy m) (isDeleted m) (deletedAt m) (deletedBy m)
          (createdAt m)).

Definition softDelete (now : Z) (c : list t) (m : t) (deleterId : string)
  : result (list t * t) :=
  save c
    (mk (_id m) deletedText (sender m) (room m) (type m) (editedAt m)
        (editHistory m) (reactions m) (readBy m) true (Some now)
        (Some deleterId) (createdAt m)).

(** [Message.updateMany({ _id: { $in: ids }, room, 'readBy.user': { $ne:
    userId } }, { $push: { readBy: { user: userId, readAt } } })]; an update
    operator runs neither the validators nor the save hooks. *)
Definition pushReadBy (now : Z) (ids : list string) (roomId userId : string)
           (c : list t) : list t :=
  map (fun m =>
         if includes ids (_id m) && (room m =? roomId)
            && negb (existsb (fun rd => user rd =? userId) (readBy m))
         then with_readBy m (readBy m ++ [mkRead userId now])
         else m) c.

(** The document [save] leaves in the collection. *)
Definition written (m : t) : t :=
  with_sender (preSave m) (Unpopulated (refId (sender (preSave m)))).

(** The reaction sets of a message: each emoji with its users. *)
Definition reactionSets (m : t) : list (string * list string) :=
  map (fun r => (emoji r, users r)) (reactions m).

(** Every [count] is the length of its [users]. *)
Definition countsAgree (m : t) : Prop :=
  Forall (fun r => count r = Z.of_nat (List.length (users r))) (reactions m).
End Message.

(** ** The state of a handler and its monad *)

Inductive Dest : Type :=
| ToSocket                              (* socket.emit *)
| ToRoom (roomId : string)              (* io.to(roomId).emit *)
| ToRoomOthers (roomId : string)        (* socket.to(roomId).emit *)
| ToAll                                 (* io.emit *)
| ToOthers                              (* socket.broadcast.emit *)
| ToUser (userId : string).             (* sendToUser(io, userId, ...) *)

Inductive Payload : Type :=
| PError (message : string)
| PSendError (message tempId : string)
| PMessage (message : Message.t)
| PMessageSent (tempId : string) (message : Message.t)
| PMessageId (messageId : string)
| PRoomId (roomId : string)
| PEdited (messageId content : string) (editedAt : option Z)
          (editHistory : list Message.Edit)
| PDeleted (messageId deletedBy : string) (deletedAt : option Z)
| PReaction (messageId emoji userId username : string)
            (reactions : list Message.Reaction)
| PRead (userId roomId : string) (readAt : Z) (messageIds : list string)
| PStatus (userId status : string) (lastSeen : Z)
| PStatusUpdated (status : string)
| PRoom (room : Room.t)
| PUserJoined (roomId userId : string) (joinedAt : Z)
| PMemberRemoved (roomId : string) (userId : Field)
                 (username removedBy removedByName : string)
| PRoomRemoved (roomId roomName removedBy removedByName : string)
| PRemoveSuccess (roomId removedUser : string)
| PRoleUpdated (roomId : string) (userId : Field)
               (username newRole updatedBy updatedByName : string)
| PRoleSuccess (roomId updatedUser newRole : string).

Record Emit : Type := mkEmit {
  dest : Dest;
  event : string;
  payload : Payload
}.

Record State : Type := mkState {
  allUsers : list User.t;
  allRooms : list Room.t;
  allMessages : list Message.t;
  emitted : list Emit
}.

Definition M (A : Type) : Type := State -> State * result A.

Definition ret {A : Type} (a : A) : M A := fun s => (s, Ok a).

Definition bind {A B : Type} (m : M A) (k : A -> M B) : M B :=
  fun s => match m s with
           | (s', Ok a) => k a s'
           | (s', Throw e) => (s', Throw e)
           end.

Definition throw {A : Type} (e : Exn) : M A := fun s => (s, Throw e).

Notation "x <- m ;; k" := (bind m (fun x => k))
  (at level 61, m at next level, right associativity).
Notation "m ;;; k" := (bind m (fun _ => k))
  (at level 61, right associativity).

Definition emit (d : Dest) (ev : string) (p : Payload) : M unit :=
  fun s => (mkState (allUsers s) (allRooms s) (allMessages s)
                    (emitted s ++ [mkEmit d ev p]), Ok tt).

(** A model method on the [User], [Room] or [Message] collection. *)
Definition onUsers {A : Type}
           (f : list User.t -> result (list User.t * A)) : M A :=
  fun s => match f (allUsers s) with
           | Ok (c, a) =>
               (mkState c (allRooms s) (allMessages s) (emitted s), Ok a)
           | Throw e => (s, Throw e)
           end.

Definition onRooms {A : Type}
           (f : list Room.t -> result (list Room.t * A)) : M A :=
  fun s => match f (allRooms s) with
           | Ok (c, a) =>
               (mkState (allUsers s) c (allMessages s) (emitted s), Ok a)
           | Throw e => (s, Throw e)
           end.

Definition onMessages {A : Type}
           (f : list Message.t -> result (list Message.t * A)) : M A :=
  fun s => match f (allMessages s) with
           | Ok (c, a) =>
               (mkState (allUsers s) (allRooms s) c (emitted s), Ok a)
           | Throw e => (s, Throw e)
           end.

Definition User_findById (id : string) : M (option User.t) :=
  fun s => (s, Ok (findById User._id id (allUsers s))).

Definition Room_findById (id : string) : M (option Room.t) :=
  fun s => (s, Ok (findById Room._id id (allRooms s))).

Definition Message_findById (id : string) : M (option Message.t) :=
  fun s => (s, Ok (findById Message._id id (allMessages s))).

Definition User_findByIdAndUpdate (id : string) (f : User.t -> User.t)
  : M unit :=
  fun s => (mkState (User.findByIdAndUpdate id f (allUsers s)) (allRooms s)
                    (allMessages s) (emitted s), Ok tt).

(** [x.f(...)] where [x] may be [null]. *)
Definition deref {A B : Type} (x : option A) (f : A -> B) : M B :=
  match x with
  | Some a => ret (f a)
  | None => throw TypeError
  end.

(** The databases a handler starts from and ends in. *)
Record Db : Type := mkDb {
  db_users : list User.t;
  db_rooms : list Room.t;
  db_messages : list Message.t
}.

Definition dbOf (s : State) : Db :=
  mkDb (allUsers s) (allRooms s) (allMessages s).

(** What a REST handler answers: [res.status(code).json({ success, message,
    data })]. *)
Inductive Data : Type :=
| NoData
| ValidationErrors
| MessageData (m : Message.t)
| ReactionsData (rs : list Message.Reaction)
| RoomData (r : Room.t)
| DirectRoomData (roomId roomName : string) (members : list Room.Member)
| StatusData (status : string) (lastSeen : Z).

Record Response : Type := mkResponse {
  code : Z;
  success : bool;
  message : string;
  data : Data
}.

Definition validationFailed : Response :=
  mkResponse 400 false "Validation failed" ValidationErrors.

(** A controller: [try { body } catch (error) { ... }], the catch block
    mapping the exception to its answer. *)
Definition restHandler (onError : Exn -> Response) (body : M Response)
           (db : Db) : Db * Response :=
  match body (mkState (db_users db) (db_rooms db) (db_messages db) []) with
  | (s, Ok r) => (dbOf s, r)
  | (s, Throw e) => (dbOf s, onError e)
  end.

Definition serverError (message : string) : Exn -> Response :=
  fun _ => mkResponse 500 false message NoData.

(** A socket handler: [try { body } catch (error) { socket.emit('error',
    { message: failure }) }]. *)
Definition socketHandlerWith (failure : Payload) (body : M unit) (db : Db)
  : Db * list Emit :=
  match body (mkState (db_users db) (db_rooms db) (db_messages db) []) with
  | (s, Ok _) => (dbOf s, emitted s)
  | (s, Throw _) => (dbOf s, emitted s ++ [mkEmit ToSocket "error" failure])
  end.

Definition socketHandler (failure : string) : M unit -> Db -> Db * list Emit :=
  socketHandlerWith (PError failure).

(** ** Validators of the routes *)

Definition isHexDigit (c : ascii) : bool :=
  let n := nat_of_ascii c in
  ((48 <=? n)%nat && (n <=? 57)%nat)
  || ((65 <=? n)%nat && (n <=? 70)%nat)
  || ((97 <=? n)%nat && (n <=? 102)%nat).

(** [isMongoId()]: twenty-four hexadecimal digits. *)
Definition isMongoId (s : string) : bool :=
  (String.length s =? 24)%nat && forallb isHexDigit (list_ascii_of_string s).

(** [isMongoId()] on a [Field]: the validator looks at the element of a
    one-element array as it looks at a string. *)
Definition isMongoIdField (v : Field) : bool := isMongoId (text v).

(** The lower-case form of a hexadecimal digit. *)
Definition lowerHex (c : ascii) : ascii :=
  let n := nat_of_ascii c in
  if ((65 <=? n)%nat && (n <=? 70)%nat)%bool then ascii_of_nat (n + 32) else c.

(** The cast of a string to an [ObjectId], as a query on [_id] and a
    document path of that type do it: twenty-four hexadecimal digits give
    the id, which renders in lower case; another string is refused with a
    [CastError].  (A driver that also takes a string of twelve bytes is not
    modelled.) *)
Definition castObjectId (s : string) : option string :=
  if isMongoId s
  then Some (string_of_list_ascii (map lowerHex (list_ascii_of_string s)))
  else None.

(** The cast of the id a query selects by: a value that is no id throws. *)
Definition objectId (v : Field) : M string :=
  match castObjectId (text v) with
  | Some id => ret id
  | None => throw CastError
  end.

(** An optional field of a body passes when it is absent. *)
Definition optional {A : Type} (check : A -> bool) (field : option A) : bool :=
  match field with
  | Some v => check v
  | None => true
  end.

Definition orDefault {A : Type} (field : option A) (default : A) : A :=
  match field with
  | Some v => v
  | None => default
  end.

(** An authenticated socket: [socket.userId] and [socket.user.username]. *)
Record Socket : Type := mkSocket {
  userId : string;
  username : string
}.

Definition error (message : string) : M unit :=
  emit ToSocket "error" (PError message).

(** [15 * 60 * 1000] milliseconds. *)
Definition editWindow : Z := 15 * 60 * 1000.

(** ** socket/chatHandlers *)

Module ChatHandlers.
Import Message.

(** [socket.on('message:send', ...)]; [metadata] is left out, and so is the
    list of offline members, which the handler computes and does not use. *)
Definition message_send (now : Z) (newId : string) (socket : Socket)
           (roomId content : string) (type : option string) (tempId : string)
  : Db -> Db * list Emit :=
  socketHandlerWith (PSendError "Failed to send message" tempId)
    (if falsy roomId || falsy content
        || (String.length (trim content) =? 0)%nat
     then error "Room ID and content are required"
     else if (2000 <? String.length content)%nat
     then error "Message too long (max 2000 characters)"
     else
       found <- Room_findById roomId ;;
       match found with
       | None => error "Room not found"
       | Some room =>
           if negb (Room.isMember room (userId socket))
           then error "You are not a member of this room"
           else
             message <- onMessages (fun c =>
               insert c
                 (mk newId (trim content) (Unpopulated (userId socket)) roomId
                     (orDefault type "text") None [] [] [] false None None
                     now)) ;;
             onRooms (fun c =>
               Room.save false now c
                 (Room.with_lastActivity
                    (Room.with_lastMessage room (_id message)) now)) ;;;
             emit (ToRoom roomId) "message:new" (PMessage message) ;;;
             emit ToSocket "message:sent" (PMessageSent tempId message)
       end).

(** [socket.on('message:edit', ...)] *)
Definition message_edit (now : Z) (socket : Socket)
           (messageId content : string) : Db -> Db * list Emit :=
  socketHandler "Failed to edit message"
    (if falsy messageId || falsy content
        || (String.length (trim content) =? 0)%nat
     then error "Message ID and content are required"
     else
       found <- Message_findById messageId ;;
       match found with
       | None => error "Message not found"
       | Some stored =>
           (* .populate('sender', 'username avatar status') *)
           senderDoc <- User_findById (refId (sender stored)) ;;
           match senderDoc with
           | None => throw TypeError      (* message.sender is null *)
           | Some doc =>
               let message := with_sender stored (Populated doc) in
               if negb (refId (sender message) =? userId socket)
               then error "You can only edit your own messages"
               else if (createdAt message <? now - editWindow)%Z
               then error "Message is too old to edit"
               else
                 message' <- onMessages (fun c =>
                   editContent now c message (trim content)
                               (userId socket)) ;;
                 emit (ToRoom (room message')) "message:edited"
                      (PEdited (_id message') (Message.content message')
                               (editedAt message')
                               (editHistory message')) ;;;
                 emit ToSocket "message:edit:success" (PMessageId messageId)
           end
       end).

(** [socket.on('message:delete', ...)] *)
Definition message_delete (now : Z) (socket : Socket) (messageId : string)
  : Db -> Db * list Emit :=
  socketHandler "Failed to delete message"
    (if falsy messageId then error "Message ID is required"
     else
       found <- Message_findById messageId ;;
       match found with
       | None => error "Message not found"
       | Some message =>
           room <- Room_findById (Message.room message) ;;
           canDelete <-
             (if rendersAs (sender message) (userId socket) then ret true
              else deref room (fun r => Room.isAdmin r (userId socket))) ;;
           if negb canDelete
           then error "You can only delete your own messages"
           else
             message' <- onMessages (fun c =>
               softDelete now c message (userId socket)) ;;
             emit (ToRoom (Message.room message')) "message:deleted"
                  (PDeleted (_id message') (userId socket)
                            (deletedAt message')) ;;;
             emit ToSocket "message:delete:success" (PMessageId messageId)
       end).

(** [socket.on('message:react', ...)] *)
Definition message_react (aliased : bool) (socket : Socket)
           (messageId emoji : string) : Db -> Db * list Emit :=
  socketHandler "Failed to add reaction"
    (if falsy messageId || falsy emoji
     then error "Message ID and emoji are required"
     else
       found <- Message_findById messageId ;;
       match found with
       | None => error "Message not found"
       | Some message =>
           room <- Room_findById (Message.room message) ;;
           member <- deref room (fun r => Room.isMember r (userId socket)) ;;
           if negb member
           then error "You are not a member of this room"
           else
             message' <- onMessages (fun c =>
               addReaction aliased c message emoji (userId socket)) ;;
             emit (ToRoom (Message.room message')) "message:reaction:added"
                  (PReaction (_id message') emoji (userId socket)
                             (username socket) (reactions message'))
       end).

(** [socket.on('message:unreact', ...)] *)
Definition message_unreact (socket : Socket) (messageId emoji : string)
  : Db -> Db * list Emit :=
  socketHandler "Failed to remove reaction"
    (if falsy messageId || falsy emoji
     then error "Message ID and emoji are required"
     else
       found <- Message_findById messageId ;;
       match found with
       | None => error "Message not found"
       | Some message =>
           message' <- onMessages (fun c =>
             removeReaction c message emoji (userId socket)) ;;
           emit (ToRoom (Message.room message')) "message:reaction:removed"
                (PReaction (_id message') emoji (userId socket)
                           (username socket) (reactions message'))
       end).

(** [socket.on('messages:mark_read', ...)]; [messageIds] holds ids in the
    rendering of an [ObjectId], and is the empty list when the payload has
    none. *)
Definition messages_mark_read (now : Z) (socket : Socket) (roomId : string)
           (messageIds : list string) : Db -> Db * list Emit :=
  socketHandler "Failed to mark messages as read"
    (if falsy roomId then error "Room ID is required"
     else
       room <- Room_findById roomId ;;
       match room with
       | None => error "Room not found or access denied"
       | Some room =>
           if negb (Room.isMember room (userId socket))
           then error "Room not found or access denied"
           else
             onRooms (fun c =>
               Room.updateLastRead now c room (userId socket)) ;;;
             (match messageIds with
              | [] => ret tt
              | _ :: _ =>
                  onMessages (fun c =>
                    Ok (pushReadBy now messageIds roomId (userId socket) c,
                        tt))
              end) ;;;
             emit (ToRoomOthers roomId) "messages:read"
                  (PRead (userId socket) roomId now messageIds) ;;;
             emit ToSocket "messages:mark_read:success" (PRoomId roomId)
       end).
End ChatHandlers.

(** ** controllers/messageController, behind routes/messages *)

Module MessageController.
Import Message.

(** [body('content').trim().isLength({ min: 1, max: 2000 })] *)
Definition updateMessageValidation (content : string) : bool :=
  (1 <=? String.length (trim content))%nat
  && (String.length (trim content) <=? 2000)%nat.

(** [body('emoji').notEmpty().isLength({ min: 1, max: 10 })] *)
Definition reactionValidation (emoji : string) : bool :=
  negb (emoji =? "")
  && (1 <=? String.length emoji)%nat && (String.length emoji <=? 10)%nat.

(** [PUT /api/messages/:messageId] *)
Definition updateMessage (now : Z) (userId messageId content : string)
  : Db -> Db * Response :=
  restHandler (serverError "Failed to update message")
    (if negb (updateMessageValidation content) then ret validationFailed
     else
       let content := trim content in       (* the sanitizer of the route *)
       found <- Message_findById messageId ;;
       match found with
       | None => ret (mkResponse 404 false "Message not found" NoData)
       | Some message =>
           if isDeleted message
           then ret (mkResponse 404 false "Message not found" NoData)
           else if negb (rendersAs (sender message) userId)
           then ret (mkResponse 403 false
                       "You can only edit your own messages" NoData)
           else if (createdAt message <? now - editWindow)%Z
           then ret (mkResponse 400 false "Message is too old to edit"
                       NoData)
           else
             message' <- onMessages (fun c =>
               editContent now c message (trim content) userId) ;;
             ret (mkResponse 200 true "Message updated successfully"
                    (MessageData message'))
       end).

(** [DELETE /api/messages/:messageId] *)
Definition deleteMessage (now : Z) (userId messageId : string)
  : Db -> Db * Response :=
  restHandler (serverError "Failed to delete message")
    (found <- Message_findById messageId ;;
     match found with
     | None => ret (mkResponse 404 false "Message not found" NoData)
     | Some message =>
         if isDeleted message
         then ret (mkResponse 404 false "Message not found" NoData)
         else
           room <- Room_findById (Message.room message) ;;
           canDelete <-
             (if rendersAs (sender message) userId then ret true
              else deref room (fun r => Room.isAdmin r userId)) ;;
           if negb canDelete
           then ret (mkResponse 403 false
                       "You can only delete your own messages" NoData)
           else
             onMessages (fun c => softDelete now c message userId) ;;;
             ret (mkResponse 200 true "Message deleted successfully" NoData)
     end).

(** [POST /api/messages/:messageId/reactions] *)
Definition addReaction (aliased : bool) (userId messageId emoji : string)
  : Db -> Db * Response :=
  restHandler (serverError "Failed to add reaction")
    (if negb (reactionValidation emoji) then ret validationFailed
     else
       found <- Message_findById messageId ;;
       match found with
       | None => ret (mkResponse 404 false "Message not found" NoData)
       | Some message =>
           if isDeleted message
           then ret (mkResponse 404 false "Message not found" NoData)
           else
             room <- Room_findById (Message.room message) ;;
             match room with
             | None => ret (mkResponse 403 false "Access denied" NoData)
             | Some room =>
                 if negb (Room.isMember room userId)
                 then ret (mkResponse 403 false "Access denied" NoData)
                 else
                   message' <- onMessages (fun c =>
                     Message.addReaction aliased c message emoji userId) ;;
                   ret (mkResponse 200 true "Reaction added successfully"
                          (ReactionsData (reactions message')))
             end
       end).

(** [DELETE /api/messages/:messageId/reactions]; the controller does not
    look at the outcome of the route's validators. *)
Definition removeReaction (userId messageId emoji : string)
  : Db -> Db * Response :=
  restHandler (serverError "Failed to remove reaction")
    (found <- Message_findById messageId ;;
     match found with
     | None => ret (mkResponse 404 false "Message not found" NoData)
     | Some message =>
         if isDeleted message
         then ret (mkResponse 404 false "Message not found" NoData)
         else
           message' <- onMessages (fun c =>
             Message.removeReaction c message emoji userId) ;;
           ret (mkResponse 200 true "Reaction removed successfully"
                  (ReactionsData (reactions message')))
     end).

(** [POST /api/messages/room/:roomId/mark-read]; [messageIds] holds ids in
    the rendering of an [ObjectId]. *)
Definition markAsRead (now : Z) (userId roomId : string)
           (messageIds : list string) : Db -> Db * Response :=
  restHandler (serverError "Failed to mark messages as read")
    (room <- Room_findById roomId ;;
     match room with
     | None => ret (mkResponse 404 false "Room not found" NoData)
     | Some room =>
         if negb (Room.isMember room userId)
         then ret (mkResponse 403 false
                     "You are not a member of this room" NoData)
         else
           onRooms (fun c => Room.updateLastRead now c room userId) ;;;
           (match messageIds with
            | [] => ret tt
            | _ :: _ =>
                onMessages (fun c =>
                  Ok (pushReadBy now messageIds roomId userId c, tt))
            end) ;;;
           ret (mkResponse 200 true "Messages marked as read" NoData)
     end).
End MessageController.

(** ** controllers/roomController, behind routes/rooms *)

Module RoomController.
Import Room.

(** [req.body.settings] of [PUT /api/rooms/:roomId] *)
Record SettingsBody : Type := mkSettingsBody {
  isPrivate' : option bool;
  allowInvites' : option bool;
  maxMembers' : option Z
}.

Definition maxMembersRule (n : Z) : bool := (2 <=? n)%Z && (n <=? 1000)%Z.

Definition createRoomValidation (name : string) (description : option string)
           (type : option string) (maxMembers : option Z) : bool :=
  (1 <=? String.length (trim name))%nat
  && (String.length (trim name) <=? 50)%nat
  && optional (fun d => (String.length (trim d) <=? 200)%nat) description
  && optional (includes ["group"; "public"]) type
  && optional maxMembersRule maxMembers.

(** [POST /api/rooms], for a body whose fields are of the types the
    validators name: strings, a boolean and an integer. *)
Definition createRoom (now : Z) (newId userId name : string)
           (description type : option string) (isPrivate : option bool)
           (maxMembers : option Z) : Db -> Db * Response :=
  restHandler (serverError "Failed to create room")
    (if negb (createRoomValidation name description type maxMembers)
     then ret validationFailed
     else
       let name := trim name in
       let description := option_map trim description in
       room <- onRooms (fun c =>
         save true now c
           (mk newId (trim name)
               (match description with Some d => trim d | None => "" end)
               (orDefault type "group") None userId
               [mkMember userId "admin" now now]
               (mkSettings (orDefault isPrivate false) true
                           (Z.min (orDefault maxMembers 100) 1000))
               None now true)) ;;
       User_findByIdAndUpdate userId (User.addJoinedRoom (_id room)) ;;;
       ret (mkResponse 201 true "Room created successfully" (RoomData room))).

Section UpdateRoom.
(** [isURL()] of the validator library, which the route applies to
    [avatar]. *)
Variable isURL : string -> bool.

Definition updateRoomValidation (name description avatar : option string)
           (settings : option SettingsBody) : bool :=
  optional (fun n => (1 <=? String.length (trim n))%nat
                     && (String.length (trim n) <=? 50)%nat) name
  && optional (fun d => (String.length (trim d) <=? 200)%nat) description
  && optional isURL avatar
  && optional (fun s => optional maxMembersRule (maxMembers' s)) settings.

(** [PUT /api/rooms/:roomId] *)
Definition updateRoom (now : Z) (userId roomId : string)
           (name description avatar : option string)
           (settings : option SettingsBody) : Db -> Db * Response :=
  restHandler (serverError "Failed to update room")
    (if negb (updateRoomValidation name description avatar settings)
     then ret validationFailed
     else
       let name := option_map trim name in
       let description := option_map trim description in
       found <- Room_findById roomId ;;
       match found with
       | None => ret (mkResponse 404 false "Room not found" NoData)
       | Some room =>
           if negb (isAdmin room userId)
           then ret (mkResponse 403 false "Admin privileges required"
                       NoData)
           else
             let room1 :=
               with_profile room
                 (match name with Some n => trim n | None => Room.name room end)
                 (match description with
                  | Some d => trim d
                  | None => Room.description room
                  end)
                 (match avatar with
                  | Some a => Some a
                  | None => Room.avatar room
                  end) in
             let room2 :=
               match settings with
               | None => room1
               | Some s =>
                   with_settings room1
                     (mkSettings
                        (orDefault (isPrivate' s)
                           (isPrivate (Room.settings room1)))
                        (orDefault (allowInvites' s)
                           (allowInvites (Room.settings room1)))
                        (match maxMembers' s with
                         | Some n => Z.min n 1000
                         | None => maxMembers (Room.settings room1)
                         end))
               end in
             room' <- onRooms (fun c => save false now c room2) ;;
             ret (mkResponse 200 true "Room updated successfully"
                    (RoomData room'))
       end).
End UpdateRoom.

(** [DELETE /api/rooms/:roomId] *)
Definition deleteRoom (now : Z) (userId roomId : string)
  : Db -> Db * Response :=
  restHandler (serverError "Failed to delete room")
    (found <- Room_findById roomId ;;
     match found with
     | None => ret (mkResponse 404 false "Room not found" NoData)
     | Some room =>
         if negb (creator room =? userId)
         then ret (mkResponse 403 false
                     "Only room creator can delete the room" NoData)
         else
           onRooms (fun c => save false now c (with_isActive room false)) ;;;
           (fun s =>
              (mkState (map (User.pullJoinedRoom roomId) (allUsers s))
                       (allRooms s) (allMessages s) (emitted s), Ok tt)) ;;;
           ret (mkResponse 200 true "Room deleted successfully" NoData)
     end).

Definition memberLimitReached : Response :=
  mkResponse 400 false "Room has reached maximum member limit" NoData.

(** [POST /api/rooms/:roomId/join] *)
Definition joinRoom (now : Z) (userId roomId : string)
  : Db -> Db * Response :=
  restHandler
    (fun e => match e with
              | MemberLimit => memberLimitReached
              | _ => mkResponse 500 false "Failed to join room" NoData
              end)
    (found <- Room_findById roomId ;;
     match found with
     | None => ret (mkResponse 404 false "Room not found" NoData)
     | Some room =>
         if negb (isActive room)
         then ret (mkResponse 404 false "Room not found" NoData)
         else if isPrivate (settings room)
         then ret (mkResponse 403 false
                     "Cannot join private room without invitation" NoData)
         else if isMember room userId
         then ret (mkResponse 400 false
                     "You are already a member of this room" NoData)
         else
           room' <- onRooms (fun c => addMember now c room userId "member") ;;
           User_findByIdAndUpdate userId (User.addJoinedRoom (_id room')) ;;;
           ret (mkResponse 200 true "Joined room successfully"
                  (RoomData room'))
     end).

(** [POST /api/rooms/:roomId/leave] *)
Definition leaveRoom (now : Z) (userId roomId : string)
  : Db -> Db * Response :=
  restHandler (serverError "Failed to leave room")
    (found <- Room_findById roomId ;;
     match found with
     | None => ret (mkResponse 404 false "Room not found" NoData)
     | Some room =>
         if negb (isMember room userId)
         then ret (mkResponse 400 false
                     "You are not a member of this room" NoData)
         else if creator room =? userId
         then ret (mkResponse 400 false
                     "Room creator cannot leave the room. Transfer ownership or delete the room instead."
                     NoData)
         else
           room' <- onRooms (fun c => removeMember now c room userId) ;;
           User_findByIdAndUpdate userId (User.pullJoinedRoom (_id room')) ;;;
           ret (mkResponse 200 true "Left room successfully" NoData)
     end).

(** [DELETE /api/rooms/:roomId/members]; the controller does not look at
    the outcome of the route's validators, so [userIdToRemove] reaches it
    as the body holds it.  The creator guard compares with [===], the model
    method through [toString()], and [findByIdAndUpdate] casts. *)
Definition removeMember (now : Z) (userId roomId : string)
           (userIdToRemove : Field) : Db -> Db * Response :=
  restHandler (serverError "Failed to remove member")
    (found <- Room_findById roomId ;;
     match found with
     | None => ret (mkResponse 404 false "Room not found" NoData)
     | Some room =>
         if negb (isAdmin room userId)
         then ret (mkResponse 403 false "Admin privileges required" NoData)
         else if identical (creator room) userIdToRemove
         then ret (mkResponse 400 false "Cannot remove room creator" NoData)
         else
           room' <- onRooms (fun c =>
             Room.removeMember now c room (text userIdToRemove)) ;;
           removed <- objectId userIdToRemove ;;
           User_findByIdAndUpdate removed
             (User.pullJoinedRoom (_id room')) ;;;
           ret (mkResponse 200 true "Member removed successfully" NoData)
     end).

(** [body('userIdToUpdate').isMongoId()] and [body('newRole').isIn(...)] *)
Definition updateRoleValidation (userIdToUpdate : Field) (newRole : string)
  : bool :=
  isMongoIdField userIdToUpdate && includes roleEnum newRole.

(** [PUT /api/rooms/:roomId/members/role] *)
Definition updateMemberRole (now : Z) (userId roomId : string)
           (userIdToUpdate : Field) (newRole : string)
  : Db -> Db * Response :=
  restHandler (serverError "Failed to update member role")
    (if negb (updateRoleValidation userIdToUpdate newRole)
     then ret validationFailed
     else
       found <- Room_findById roomId ;;
       match found with
       | None => ret (mkResponse 404 false "Room not found" NoData)
       | Some room =>
           if negb (isAdmin room userId)
           then ret (mkResponse 403 false "Admin privileges required" NoData)
           else if identical (creator room) userIdToUpdate
           then ret (mkResponse 400 false "Cannot change creator role" NoData)
           else
             onRooms (fun c =>
               Room.updateMemberRole now c room (text userIdToUpdate)
                 newRole) ;;;
             ret (mkResponse 200 true "Member role updated successfully"
                    NoData)
       end).

(** [POST /api/rooms/direct] *)
Definition createDirectRoom (now : Z) (newId userId userIdToChat : string)
  : Db -> Db * Response :=
  restHandler (serverError "Failed to create direct message")
    (if negb (isMongoId userIdToChat) then ret validationFailed
     else if userIdToChat =? userId
     then ret (mkResponse 400 false
                 "Cannot create direct message with yourself" NoData)
     else
       targetUser <- User_findById userIdToChat ;;
       match targetUser with
       | None => ret (mkResponse 404 false "User not found" NoData)
       | Some targetUser =>
           if negb (User.isActive targetUser)
           then ret (mkResponse 404 false "User not found" NoData)
           else
             room <- onRooms (fun c =>
               Room.createDirectRoom now newId c userId userIdToChat) ;;
             ret (mkResponse 200 true
                    "Direct message room created successfully"
                    (DirectRoomData (_id room) (User.username targetUser)
                                    (members room)))
       end).
End RoomController.

(** ** socket/roomHandlers *)

Module RoomHandlers.
Import Room.

(** The registry of connections is a [Map] from the id strings of the
    connected users: [sendToUser] finds no connection under an array. *)
Definition sendToUser (v : Field) (ev : string) (p : Payload) : M unit :=
  match v with
  | Str s => emit (ToUser s) ev p
  | Arr _ => ret tt
  end.

(** [socket.on('room:remove_member', ...)] *)
Definition room_remove_member (now : Z) (socket : Socket)
           (roomId : string) (userIdToRemove : Field)
  : Db -> Db * list Emit :=
  socketHandler "Failed to remove member"
    (if falsy roomId || falsyField userIdToRemove
     then error "Room ID and user ID are required"
     else
       found <- Room_findById roomId ;;
       match found with
       | None => error "Room not found"
       | Some room =>
           if negb (isAdmin room (userId socket))
           then error "Admin privileges required"
           else if identical (creator room) userIdToRemove
           then error "Cannot remove room creator"
           else if negb (isMember room (text userIdToRemove))
           then error "User is not a member of this room"
           else
             room' <- onRooms (fun c =>
               removeMember now c room (text userIdToRemove)) ;;
             removed <- objectId userIdToRemove ;;
             User_findByIdAndUpdate removed
               (User.pullJoinedRoom (_id room')) ;;;
             removedUser <- User_findById removed ;;
             removedName <- deref removedUser User.username ;;
             emit (ToRoom roomId) "room:member_removed"
                  (PMemberRemoved roomId userIdToRemove removedName
                     (userId socket) (username socket)) ;;;
             sendToUser userIdToRemove "room:removed"
                  (PRoomRemoved roomId (Room.name room) (userId socket)
                     (username socket)) ;;;
             emit ToSocket "room:remove_member:success"
                  (PRemoveSuccess roomId removedName)
       end).

(** [socket.on('room:update_role', ...)] *)
Definition room_update_role (now : Z) (socket : Socket)
           (roomId : string) (userIdToUpdate : Field) (newRole : string)
  : Db -> Db * list Emit :=
  socketHandler "Failed to update role"
    (if falsy roomId || falsyField userIdToUpdate || falsy newRole
     then error "Room ID, user ID, and role are required"
     else if negb (includes ["admin"; "moderator"; "member"] newRole)
     then error "Invalid role"
     else
       found <- Room_findById roomId ;;
       match found with
       | None => error "Room not found"
       | Some room =>
           if negb (isAdmin room (userId socket))
           then error "Admin privileges required"
           else if identical (creator room) userIdToUpdate
           then error "Cannot change creator role"
           else
             onRooms (fun c =>
               updateMemberRole now c room (text userIdToUpdate)
                 newRole) ;;;
             updated <- objectId userIdToUpdate ;;
             updatedUser <- User_findById updated ;;
             updatedName <- deref updatedUser User.username ;;
             emit (ToRoom roomId) "room:role_updated"
                  (PRoleUpdated roomId userIdToUpdate updatedName newRole
                     (userId socket) (username socket)) ;;;
             emit ToSocket "room:update_role:success"
                  (PRoleSuccess roomId updatedName newRole)
       end).
End RoomHandlers.

(** ** Presence: socket/socketHandlers and controllers/userController *)

Module SocketHandlers.
End SocketHandlers.

Module UserController.
(** [body('status').isIn(['online', 'away', 'busy', 'offline'])] *)
Definition updateStatusValidation (status : string) : bool :=
  includes ["online"; "away"; "busy"; "offline"] status.

(** [PUT /api/users/status]; [req.user] is the document of the
    authenticated user. *)
Definition updateStatus (now : Z) (userId status : string)
  : Db -> Db * Response :=
  restHandler (serverError "Failed to update status")
    (if negb (updateStatusValidation status) then ret validationFailed
     else
       user <- User_findById userId ;;
       match user with
       | None => throw DocumentNotFound
       | Some user =>
           user' <- onUsers (fun c => User.updateStatus now c user status) ;;
           ret (mkResponse 200 true "Status updated successfully"
                  (StatusData (User.status user') (User.lastSeen user')))
       end).
End UserController.

(** ** Sample data *)

Module Sample.
Definition alice : string := "aaaaaaaaaaaaaaaaaaaaaaaa".
Definition bob : string := "bbbbbbbbbbbbbbbbbbbbbbbb".
Definition carol : string := "cccccccccccccccccccccccc".
Definition lobby : string := "d00000000000000000000001".
Definition hello : string := "e00000000000000000000001".

Definition account (id name : string) : User.t :=
  User.mk id name "online" 0 true [lobby].

Definition aliceSocket : Socket := mkSocket alice "alice".
Definition bobSocket : Socket := mkSocket bob "bob".
Definition carolSocket : Socket := mkSocket carol "carol".

(** A group room of Alice (creator) and Bob; Carol is not a member. *)
Definition lobbyRoom : Room.t :=
  Room.mk lobby "lobby" "" "group" None alice
    [Room.mkMember alice "admin" 0 0; Room.mkMember bob "member" 0 0]
    (Room.mkSettings false true 100) None 0 true.

(** Alice's message "hi", sent at time [1000], with her own thumbs-up. *)
Definition hi : Message.t :=
  Message.mk hello "hi" (Message.Unpopulated alice) lobby "text" None []
    [Message.mkReaction "+1" [alice] 1] [] false None None 1000.

Definition db0 : Db :=
  mkDb [account alice "alice"; account bob "bob"; account carol "carol"]
       [lobbyRoom] [hi].

(** [db0] after Alice has deleted her message over the socket. *)
Definition dbDeleted : Db :=
  fst (ChatHandlers.message_delete 2000 aliceSocket hello db0).
End Sample.


(** ** Statements of the specification, as formulas *)

(** "A reaction fan-out event is emitted only when the reaction set actually
    changed", for one [message:react] request. *)
Definition fanOutOnlyOnChange (aliased : bool) (socket : Socket)
           (messageId emoji : string) (db : Db) : Prop :=
  forall db' out,
    ChatHandlers.message_react aliased socket messageId emoji db = (db', out) ->
    (exists e, In e out /\ event e = "message:reaction:added") ->
    option_map Message.reactionSets
      (findById Message._id messageId (db_messages db'))
    <> option_map Message.reactionSets
         (findById Message._id messageId (db_messages db)).

(** "A second react after a first is a no-op", for two [message:react]
    requests of one user with one emoji in a row. *)
Definition secondReactIsNoOp (aliased : bool) (socket : Socket)
           (messageId emoji : string) (db : Db) : Prop :=
  let db1 :=
    fst (ChatHandlers.message_react aliased socket messageId emoji db) in
  let db2 :=
    fst (ChatHandlers.message_react aliased socket messageId emoji db1) in
  option_map Message.reactionSets
    (findById Message._id messageId (db_messages db2))
  = option_map Message.reactionSets
      (findById Message._id messageId (db_messages db1)).

(** The watermark of a member: [lastReadAt] on the member record of the
    room. *)
Definition watermark (db : Db) (roomId userId : string) : option Z :=
  match findById Room._id roomId (db_rooms db) with
  | Some room => option_map Room.lastReadAt (Room.findMember room userId)
  | None => None
  end.

(** "After markRead at [t1] followed by markRead at [t0 < t1] the watermark is
    still at least [t1]", the time of a call being the clock it reads. *)
Definition watermarkNeverRegresses (socket : Socket) (roomId : string)
           (db : Db) (t1 t0 : Z) : Prop :=
  (t0 < t1)%Z ->
  let db1 := fst (ChatHandlers.messages_mark_read t1 socket roomId [] db) in
  let db2 := fst (ChatHandlers.messages_mark_read t0 socket roomId [] db1) in
  exists w, watermark db2 roomId (userId socket) = Some w /\ (t1 <= w)%Z.


(** "The members of a room are no more than its [maxMembers]." *)
Definition withinLimit (r : Room.t) : Prop :=
  (Z.of_nat (List.length (Room.members r))
   <= Room.maxMembers (Room.settings r))%Z.

(** The creator of a room is one of its members. *)
Definition creatorIsMember (r : Room.t) : Prop :=
  Room.isMember r (Room.creator r) = true.

(** ** Scenarios *)

Module Scenario.
Import Sample.

Definition team : string := "d00000000000000000000002".

Definition anyURL (s : string) : bool := true.

(** The three users, and no room yet. *)
Definition start : Db :=
  mkDb [account alice "alice"; account bob "bob"; account carol "carol"]
       [] [].

(** Alice creates the room "team" for at most three members; Bob and Carol
    join. *)
Definition filled : Db :=
  fst (RoomController.joinRoom 30 carol team
         (fst (RoomController.joinRoom 20 bob team
                 (fst (RoomController.createRoom 10 team alice "team" None
                         None None (Some 3%Z) start))))).

(** Alice then sets [maxMembers] to two. *)
Definition shrink : RoomController.SettingsBody :=
  RoomController.mkSettingsBody None None (Some 2%Z).

(** The lobby after its creator Alice has made Bob an admin. *)
Definition promoted : Db :=
  fst (RoomController.updateMemberRole 40 alice lobby (Str bob) "admin" db0).
End Scenario.
(** * Further parts of the code

    The definitions below cover code beside the rules above: the read side
    of [models/Message], [messageController] and [roomController]
    ([getUnreadCount], [getRoomById]) and [room:join] of
    [socket/roomHandlers], which read a room with its members populated; the
    connection registry of [socket/socketHandlers]; the token check of
    [utils/jwt] and [middleware/auth]; and the friend and block lists of
    [userController] and [socket/userHandlers]. *)

(** The document [Room.createDirectRoom] makes with [new this({ ... })] for
    two users, before it is saved. *)
Definition directRoomOf (now : Z) (newId a b : string) : Room.t :=
  Room.mk newId "Direct Message" "" "direct" None a
     [Room.mkMember a "admin" now now; Room.mkMember b "admin" now now]
     (Room.mkSettings true false 2) None now true.


(** ** The read side of [models/Message] and [messageController] *)

Module MessageStatics.
Import Message.

(** [Message.getUnreadCount(roomId, userId, lastReadAt)]:
    [countDocuments({ room, sender: { $ne: userId }, createdAt: { $gt:
    lastReadAt }, isDeleted: false })]. *)
Definition getUnreadCount (c : list t) (roomId userId : string)
           (lastReadAt : Z) : Z :=
  Z.of_nat
    (List.length
       (filter (fun m => (room m =? roomId)
                         && negb (refId (sender m) =? userId)
                         && (lastReadAt <? createdAt m)%Z
                         && negb (isDeleted m)) c)).
End MessageStatics.

(** What a controller that only reads answers: the status and message of a
    refusal, or the [data] of [res.json({ success: true, data })]. *)
Inductive Answer (A : Type) : Type :=
| Refused (code : Z) (message : string)
| Success (data : A).
Arguments Refused {A} code message.
Arguments Success {A} data.

(** [data] of [GET /api/messages/room/:roomId/unread-count]. *)
Record Unread : Type := mkUnread {
  unreadRoom : string;
  unreadCount : Z;
  unreadSince : Z         (* lastReadAt *)
}.

(** [GET /api/messages/room/:roomId/unread-count]; [new Date(0)] stands in
    where [find] gives no member record. *)
Definition getUnreadCount (userId roomId : string) (db : Db)
  : Answer Unread :=
  match findById Room._id roomId (db_rooms db) with
  | None => Refused 404 "Room not found"
  | Some room =>
      if negb (Room.isMember room userId)
      then Refused 403 "You are not a member of this room"
      else
        let lastReadAt :=
          match Room.findMember room userId with
          | Some member => Room.lastReadAt member
          | None => 0
          end in
        Success (mkUnread roomId
                   (MessageStatics.getUnreadCount (db_messages db) roomId
                      userId lastReadAt)
                   lastReadAt)
  end.

(** ** Rooms read with their members populated *)

Module PopulatedRoom.
(** The members of a room read with [.populate('members.user', ...)]: each
    member record with the user document now at [member.user], [None]
    ([null]) where no user has the id. *)
Definition t : Type := list (Room.Member * option User.t).

Definition populate (users : list User.t) (r : Room.t) : t :=
  map (fun m => (m, findById User._id (Room.user m) users)) (Room.members r).

(** [members.find(member => member.user.toString() === userId.toString())]
    on such a room, which is also the walk of [members.some] in
    [isMember].  The test calls [toString] on the populated value: on
    [null] that throws, and a document renders as the text of the object
    ([Message.rendersAs]). *)
Fixpoint findMember (ms : t) (userId : string) : result (option Room.Member) :=
  match ms with
  | [] => Ok None
  | (_, None) :: _ => Throw TypeError
  | (m, Some doc) :: ms' =>
      if Message.rendersAs (Message.Populated doc) userId then Ok (Some m)
      else findMember ms' userId
  end.

(** [room.isMember(userId)] *)
Definition isMember (ms : t) (userId : string) : result bool :=
  match findMember ms userId with
  | Ok (Some _) => Ok true
  | Ok None => Ok false
  | Throw e => Throw e
  end.

(** [room.updateLastRead(userId)] *)
Definition updateLastRead (now : Z) (c : list Room.t) (r : Room.t) (ms : t)
           (userId : string) : result (list Room.t * Room.t) :=
  match findMember ms userId with
  | Throw e => Throw e
  | Ok None => Ok (c, r)
  | Ok (Some found) =>
      Room.save false now c
        (Room.with_members r
           (updateFirst (fun m => Room.user m =? Room.user found)
              (fun m => Room.mkMember (Room.user m) (Room.role m)
                          (Room.joinedAt m) now)
              (Room.members r)))
  end.
End PopulatedRoom.

(** [data.room] of [GET /api/rooms/:roomId]: the room, the caller's unread
    count and the caller's role. *)
Record RoomView : Type := mkRoomView {
  viewRoom : Room.t;
  viewUnread : Z;
  viewRole : option string
}.

(** [GET /api/rooms/:roomId]; the room is read with its members populated,
    and the [catch] block answers 500. *)
Definition getRoomById (userId roomId : string) (db : Db) : Answer RoomView :=
  match findById Room._id roomId (db_rooms db) with
  | None => Refused 404 "Room not found"
  | Some room =>
      let members := PopulatedRoom.populate (db_users db) room in
      match PopulatedRoom.isMember members userId with
      | Throw _ => Refused 500 "Failed to get room"
      | Ok false => Refused 403 "You are not a member of this room"
      | Ok true =>
          (* members.find(m => m.user._id.toString() === userId.toString()) *)
          let member := Room.findMember room userId in
          let lastReadAt :=
            match member with
            | Some m => Room.lastReadAt m
            | None => 0
            end in
          Success (mkRoomView room
                     (MessageStatics.getUnreadCount (db_messages db) roomId
                        userId lastReadAt)
                     (option_map Room.role member))
      end
  end.

(** [socket.on('room:join', ...)] of [socket/roomHandlers]; the room is
    read with its members populated. *)
Definition room_join (now : Z) (socket : Socket) (roomId : string)
  : Db -> Db * list Emit :=
  socketHandler "Failed to join room"
    (if falsy roomId then error "Room ID is required"
     else
       found <- Room_findById roomId ;;
       match found with
       | None => error "Room not found"
       | Some room =>
           members <- (fun s =>
             (s, Ok (PopulatedRoom.populate (allUsers s) room))) ;;
           member <- (fun s =>
             (s, PopulatedRoom.isMember members (userId socket))) ;;
           if negb member
           then error "You are not a member of this room"
           else
             onRooms (fun c =>
               PopulatedRoom.updateLastRead now c room members
                 (userId socket)) ;;;
             emit (ToRoomOthers roomId) "room:user_joined"
                  (PUserJoined roomId (userId socket) now) ;;;
             emit ToSocket "room:joined" (PRoom room)
       end).

(** ** The connection registry of [socket/socketHandlers] *)

Module Registry.
(** A value of [activeConnections]: the id of the socket, the user document
    of the socket and the time of the connection. *)
Record Connection : Type := mkConnection {
  socketId : string;
  user : User.t;
  connectedAt : Z
}.

(** [activeConnections], a [Map] from user ids to connections, as the list
    of its entries in insertion order. *)
Definition t : Type := list (string * Connection).

(** [Map.prototype.set]: the value of a key the map has is replaced in
    place, a new key goes to the end. *)
Fixpoint set (k : string) (v : Connection) (reg : t) : t :=
  match reg with
  | [] => [(k, v)]
  | (k', v') :: reg' =>
      if k' =? k then (k, v) :: reg' else (k', v') :: set k v reg'
  end.

(** [Map.prototype.delete] *)
Definition delete (k : string) (reg : t) : t :=
  filter (fun e => negb (fst e =? k)) reg.

(** [Map.prototype.get] and [Map.prototype.has] *)
Definition get (k : string) (reg : t) : option Connection :=
  option_map snd (find (fun e => fst e =? k) reg).

Definition has (k : string) (reg : t) : bool :=
  existsb (fun e => fst e =? k) reg.

(** What [io.on('connection', ...)] and [socket.on('disconnect', ...)] do
    to the registry, for a socket of user [doc]. *)
Definition connect (now : Z) (socket : string) (doc : User.t) (reg : t) : t :=
  set (User._id doc) (mkConnection socket doc now) reg.

Definition disconnect (doc : User.t) (reg : t) : t :=
  delete (User._id doc) reg.

Record ActiveUser : Type := mkActiveUser {
  activeId : string;
  activeName : string;
  activeStatus : string;
  activeSince : Z
}.

Definition getActiveUsers (reg : t) : list ActiveUser :=
  map (fun e => let conn := snd e in
                mkActiveUser (User._id (user conn)) (User.username (user conn))
                             (User.status (user conn)) (connectedAt conn))
      reg.

Definition getActiveConnection (userId : string) (reg : t)
  : option Connection :=
  get userId reg.

Definition isUserOnline (userId : string) (reg : t) : bool := has userId reg.

(** [sendToUser(io, userId, event, data)]: the socket [io.to(...)] emits
    to, if any; the function returns whether there is one. *)
Definition sendToUser (userId : string) (reg : t) : option string :=
  match getActiveConnection userId reg with
  | Some connection => Some (socketId connection)
  | None => None
  end.

(** [sendToUsers(io, userIds, event, data)]: the list [sentTo] it returns,
    built by [forEach] and [push]. *)
Definition sendToUsers (userIds : list string) (reg : t) : list string :=
  fold_left (fun sentTo userId =>
               match sendToUser userId reg with
               | Some _ => sentTo ++ [userId]
               | None => sentTo
               end) userIds [].

(** [acc[status] = (acc[status] || 0) + 1] on the object [acc]. *)
Fixpoint bump (k : string) (acc : list (string * Z)) : list (string * Z) :=
  match acc with
  | [] => [(k, 1)]
  | (k', n) :: acc' =>
      if k' =? k then (k', n + 1) :: acc' else (k', n) :: bump k acc'
  end.

Record Stats : Type := mkStats {
  totalConnections : Z;
  activeUsers : list ActiveUser;
  connectionsByStatus : list (string * Z)
}.

Definition getConnectionStats (reg : t) : Stats :=
  mkStats (Z.of_nat (List.length reg)) (getActiveUsers reg)
          (fold_left (fun acc u => bump (activeStatus u) acc)
                     (getActiveUsers reg) []).

(** The sum of the counts of an object of counters. *)
Definition total (acc : list (string * Z)) : Z :=
  fold_right (fun e s => snd e + s) 0 acc.
End Registry.

(** ** [utils/jwt] and [middleware/auth] *)

Module Auth.
(** [s.startsWith(p)], [s.substring(n)] and [s.includes(t)] on strings. *)
Definition startsWith (p s : string) : bool := String.prefix p s.

Fixpoint substringFrom (n : nat) (s : string) : string :=
  match n, s with
  | O, _ => s
  | S _, EmptyString => EmptyString
  | S n', String _ s' => substringFrom n' s'
  end.

Fixpoint includesText (t s : string) : bool :=
  String.prefix t s
  || match s with
     | EmptyString => false
     | String _ s' => includesText t s'
     end.

(** [extractTokenFromHeader(authHeader)]; a request without the header has
    [None]. *)
Definition extractTokenFromHeader (authHeader : option string)
  : option string :=
  match authHeader with
  | None => None
  | Some h =>
      if falsy h || negb (startsWith "Bearer " h) then None
      else Some (substringFrom 7 h)
  end.

(** A value, or the message of the [Error] thrown. *)
Inductive Attempt (A : Type) : Type :=
| Returned (a : A)
| Raised (message : string).
Arguments Returned {A} a.
Arguments Raised {A} message.

(** What a middleware does: [next()] with the user attached, or an answer
    (for [socketAuth], an error) with a message. *)
Inductive Outcome : Type :=
| Next (user : User.t)
| Denied (message : string).

Section Verify.
(** [jwt.verify(token, process.env.JWT_SECRET, { issuer, audience })] of the
    library: the [id] of the decoded payload, which [generateTokenPair] takes
    from a user document, or [None] when the library throws. *)
Variable jwtVerify : string -> option string.

(** [verifyToken(token)] *)
Definition verifyToken (token : string) : Attempt string :=
  match jwtVerify token with
  | Some id => Returned id
  | None => Raised "Invalid or expired token"
  end.

(** [authenticate]; every answer has status 401. *)
Definition authenticate (authHeader : option string) (users : list User.t)
  : Outcome :=
  match extractTokenFromHeader authHeader with
  | None => Denied "Access token is required"
  | Some token =>
      if falsy token then Denied "Access token is required"
      else
        match verifyToken token with
        | Raised message =>
            if includesText "expired" message
            then Denied "Token has expired"
            else Denied "Invalid authentication token"
        | Returned id =>
            match findById User._id id users with
            | None => Denied "User not found or inactive"
            | Some user =>
                if negb (User.isActive user)
                then Denied "User not found or inactive"
                else Next user
            end
        end
  end.

(** [socketAuth]; [authToken] is [socket.handshake.auth.token] and
    [authHeader] is [socket.handshake.headers.authorization]. *)
Definition socketAuth (authToken authHeader : option string)
           (users : list User.t) : Outcome :=
  let token :=
    match authToken with
    | Some t => if falsy t then authHeader else Some t
    | None => authHeader
    end in
  match token with
  | None => Denied "Authentication token required"
  | Some token =>
      if falsy token then Denied "Authentication token required"
      else
        let cleanToken :=
          if startsWith "Bearer " token then substringFrom 7 token
          else token in
        match verifyToken cleanToken with
        | Raised _ => Denied "Invalid authentication token"
        | Returned id =>
            match findById User._id id users with
            | None => Denied "User not found or inactive"
            | Some user =>
                if negb (User.isActive user)
                then Denied "User not found or inactive"
                else Next user
            end
        end
  end.
End Verify.
End Auth.

(** ** Friends and blocked users: [userController] and [userHandlers]

    The id a request names is a string in the rendering of an [ObjectId],
    the text that [castObjectId] leaves as it is: for such an id the text
    comparisons of the handlers and the casts of their lookups agree.  A
    handler works on the collection it is given: what it sends to sockets
    is kept as the reply. *)

Module Contacts.
Record Friend : Type := mkFriend {
  user : string;
  addedAt : Z
}.

(** A user document, with the fields these handlers read and write. *)
Record t : Type := mk {
  _id : string;
  username : string;
  isActive : bool;
  friends : list Friend;
  blockedUsers : list string
}.

Definition with_friends (u : t) (fs : list Friend) : t :=
  mk (_id u) (username u) (isActive u) fs (blockedUsers u).

Definition with_blockedUsers (u : t) (bs : list string) : t :=
  mk (_id u) (username u) (isActive u) (friends u) bs.

(** [friends.some(friend => friend.user.toString() === id)] *)
Definition isFriend (u : t) (id : string) : bool :=
  existsb (fun f => user f =? id) (friends u).

(** [arr.splice(arr.findIndex(p), 1)] when [findIndex] is not [-1]. *)
Fixpoint removeFirst {A : Type} (p : A -> bool) (l : list A) : list A :=
  match l with
  | [] => []
  | x :: l' => if p x then l' else x :: removeFirst p l'
  end.

(** [User.findByIdAndUpdate(id, { $pull: { friends: { user: userId } } })] *)
Definition pullFriend (id userId : string) (c : list t) : list t :=
  updateFirst (fun u => _id u =? id)
    (fun u => with_friends u
                (filter (fun f => negb (user f =? userId)) (friends u)))
    c.

(** [doc.save()] of a document that was read from the collection. *)
Definition save (c : list t) (u : t) : list t := replaceById _id u c.

(** What a handler answers: the status and message of a REST answer; for a
    socket, the message of the [error] event, or the event sent to the
    socket together with the user [sendToUser] is called for, if any, and
    the event for that user. *)
Inductive Reply : Type :=
| Rest (code : Z) (message : string)
| SocketError (message : string)
| SocketOk (event : string) (notified : option (string * string)).

(** [POST /api/users/friends] *)
Definition addFriend (now : Z) (userId userIdToAdd : string) (c : list t)
  : list t * Reply :=
  if negb (isMongoId userIdToAdd) then (c, Rest 400 "Validation failed")
  else if userIdToAdd =? userId
  then (c, Rest 400 "Cannot add yourself as friend")
  else
    match findById _id userIdToAdd c with
    | None => (c, Rest 404 "User not found")
    | Some targetUser =>
        if negb (isActive targetUser) then (c, Rest 404 "User not found")
        else
          match findById _id userId c with
          | None => (c, Rest 500 "Failed to add friend")
          | Some currentUser =>
              if isFriend currentUser userIdToAdd
              then (c, Rest 400 "User is already in your friends list")
              else if includes (blockedUsers currentUser) userIdToAdd
              then (c, Rest 400 "Cannot add blocked user as friend")
              else
                let c1 :=
                  save c (with_friends currentUser
                            (friends currentUser
                             ++ [mkFriend userIdToAdd now])) in
                let c2 :=
                  save c1 (with_friends targetUser
                             (friends targetUser ++ [mkFriend userId now])) in
                (c2, Rest 200 "Friend added successfully")
          end
    end.

(** [DELETE /api/users/friends] *)
Definition removeFriend (userId userIdToRemove : string) (c : list t)
  : list t * Reply :=
  if negb (isMongoId userIdToRemove) then (c, Rest 400 "Validation failed")
  else
    match findById _id userId c with
    | None => (c, Rest 500 "Failed to remove friend")
    | Some currentUser =>
        if negb (isFriend currentUser userIdToRemove)
        then (c, Rest 400 "User is not in your friends list")
        else
          let c1 :=
            save c (with_friends currentUser
                      (removeFirst (fun f => user f =? userIdToRemove)
                         (friends currentUser))) in
          (pullFriend userIdToRemove userId c1,
           Rest 200 "Friend removed successfully")
    end.

(** [POST /api/users/block] *)
Definition blockUser (userId userIdToBlock : string) (c : list t)
  : list t * Reply :=
  if negb (isMongoId userIdToBlock) then (c, Rest 400 "Validation failed")
  else if userIdToBlock =? userId then (c, Rest 400 "Cannot block yourself")
  else
    match findById _id userIdToBlock c with
    | None => (c, Rest 404 "User not found")
    | Some _ =>
        match findById _id userId c with
        | None => (c, Rest 500 "Failed to block user")
        | Some currentUser =>
            if includes (blockedUsers currentUser) userIdToBlock
            then (c, Rest 400 "User is already blocked")
            else
              let c1 :=
                save c
                  (with_friends
                     (with_blockedUsers currentUser
                        (blockedUsers currentUser ++ [userIdToBlock]))
                     (filter (fun f => negb (user f =? userIdToBlock))
                        (friends currentUser))) in
              (pullFriend userIdToBlock userId c1,
               Rest 200 "User blocked successfully")
        end
    end.

(** [POST /api/users/unblock] *)
Definition unblockUser (userId userIdToUnblock : string) (c : list t)
  : list t * Reply :=
  if negb (isMongoId userIdToUnblock) then (c, Rest 400 "Validation failed")
  else
    match findById _id userId c with
    | None => (c, Rest 500 "Failed to unblock user")
    | Some currentUser =>
        if negb (includes (blockedUsers currentUser) userIdToUnblock)
        then (c, Rest 400 "User is not blocked")
        else
          (save c (with_blockedUsers currentUser
                     (removeFirst (fun b => b =? userIdToUnblock)
                        (blockedUsers currentUser))),
           Rest 200 "User unblocked successfully")
    end.

(** [socket.on('user:add_friend', ...)] *)
Definition user_add_friend (now : Z) (userId userIdToAdd : string)
           (c : list t) : list t * Reply :=
  if falsy userIdToAdd then (c, SocketError "User ID is required")
  else if userIdToAdd =? userId
  then (c, SocketError "Cannot add yourself as friend")
  else
    match findById _id userIdToAdd c with
    | None => (c, SocketError "User not found")
    | Some targetUser =>
        if negb (isActive targetUser) then (c, SocketError "User not found")
        else
          match findById _id userId c with
          | None => (c, SocketError "Failed to add friend")
          | Some currentUser =>
              if isFriend currentUser userIdToAdd
              then (c, SocketError "User is already in your friends list")
              else
                let c1 :=
                  save c (with_friends currentUser
                            (friends currentUser
                             ++ [mkFriend userIdToAdd now])) in
                let c2 :=
                  save c1 (with_friends targetUser
                             (friends targetUser ++ [mkFriend userId now])) in
                (c2, SocketOk "user:add_friend:success"
                       (Some (userIdToAdd, "user:friend_added")))
          end
    end.

(** [socket.on('user:remove_friend', ...)] *)
Definition user_remove_friend (userId userIdToRemove : string) (c : list t)
  : list t * Reply :=
  if falsy userIdToRemove then (c, SocketError "User ID is required")
  else
    match findById _id userId c with
    | None => (c, SocketError "Failed to remove friend")
    | Some currentUser =>
        let c1 :=
          save c (with_friends currentUser
                    (filter (fun f => negb (user f =? userIdToRemove))
                       (friends currentUser))) in
        (pullFriend userIdToRemove userId c1,
         SocketOk "user:remove_friend:success"
           (Some (userIdToRemove, "user:friend_removed")))
    end.

(** [socket.on('user:block', ...)] *)
Definition user_block (userId userIdToBlock : string) (c : list t)
  : list t * Reply :=
  if falsy userIdToBlock then (c, SocketError "User ID is required")
  else if userIdToBlock =? userId
  then (c, SocketError "Cannot block yourself")
  else
    match findById _id userIdToBlock c with
    | None => (c, SocketError "User not found")
    | Some _ =>
        match findById _id userId c with
        | None => (c, SocketError "Failed to block user")
        | Some currentUser =>
            if includes (blockedUsers currentUser) userIdToBlock
            then (c, SocketError "User is already blocked")
            else
              let c1 :=
                save c
                  (with_friends
                     (with_blockedUsers currentUser
                        (blockedUsers currentUser ++ [userIdToBlock]))
                     (filter (fun f => negb (user f =? userIdToBlock))
                        (friends currentUser))) in
              (pullFriend userIdToBlock userId c1,
               SocketOk "user:block:success" None)
        end
    end.

(** [socket.on('user:unblock', ...)] *)
Definition user_unblock (userId userIdToUnblock : string) (c : list t)
  : list t * Reply :=
  if falsy userIdToUnblock then (c, SocketError "User ID is required")
  else
    match findById _id userId c with
    | None => (c, SocketError "Failed to unblock user")
    | Some currentUser =>
        (save c (with_blockedUsers currentUser
                   (filter (fun b => negb (b =? userIdToUnblock))
                      (blockedUsers currentUser))),
         SocketOk "user:unblock:success" None)
    end.

(** The requests on the friend and block lists. *)
Inductive Request : Type :=
| AddFriend (now : Z) (userId userIdToAdd : string)
| RemoveFriend (userId userIdToRemove : string)
| BlockUser (userId userIdToBlock : string)
| UnblockUser (userId userIdToUnblock : string)
| OnAddFriend (now : Z) (userId userIdToAdd : string)
| OnRemoveFriend (userId userIdToRemove : string)
| OnBlock (userId userIdToBlock : string)
| OnUnblock (userId userIdToUnblock : string).

Definition step (c : list t) (req : Request) : list t :=
  fst match req with
      | AddFriend now u v => addFriend now u v c
      | RemoveFriend u v => removeFriend u v c
      | BlockUser u v => blockUser u v c
      | UnblockUser u v => unblockUser u v c
      | OnAddFriend now u v => user_add_friend now u v c
      | OnRemoveFriend u v => user_remove_friend u v c
      | OnBlock u v => user_block u v c
      | OnUnblock u v => user_unblock u v c
      end.

(** The id a request names in its body or event. *)
Definition named (req : Request) : string :=
  match req with
  | AddFriend _ _ v | RemoveFriend _ v | BlockUser _ v | UnblockUser _ v
  | OnAddFriend _ _ v | OnRemoveFriend _ v | OnBlock _ v | OnUnblock _ v => v
  end.

(** The ids of the friends of a user. *)
Definition friendIds (u : t) : list string := map user (friends u).

(** The friend ids of user [i] after [u] and [v] have become friends, and
    after they have stopped being friends. *)
Definition linked (u v i : string) (l : list string) : list string :=
  if i =? u then l ++ [v] else if i =? v then l ++ [u] else l.

Definition unlinked (u v i : string) (l : list string) : list string :=
  let l1 := if i =? u then filter (fun j => negb (j =? v)) l else l in
  if i =? v then filter (fun j => negb (j =? u)) l1 else l1.

(** Friendship is mutual between stored users, no user is twice among the
    friends of another, and no two documents share an id. *)
Definition consistent (c : list t) : Prop :=
  NoDup (map _id c)
  /\ Forall (fun u => NoDup (friendIds u)) c
  /\ forall a b, In a c -> In b c ->
       (In (_id b) (friendIds a) <-> In (_id a) (friendIds b)).
End Contacts.

(** No user has two receipts on a message. *)
Definition receiptsDistinct (m : Message.t) : Prop :=
  NoDup (map Message.user (Message.readBy m)).

(** What the pre-save hook of a message does to one reaction, and a
    reaction as the pair of [Message.reactionSets]. *)
Definition recount (r : Message.Reaction) : Message.Reaction :=
  Message.mkReaction (Message.emoji r) (Message.users r)
    (Z.of_nat (List.length (Message.users r))).

Definition setOf (r : Message.Reaction) : string * list string :=
  (Message.emoji r, Message.users r).

(** The reactions of a message are well formed when no emoji has two entries
    and no user is twice among the users of an entry. *)
Definition reactionsWellFormed (m : Message.t) : Prop :=
  NoDup (map Message.emoji (Message.reactions m))
  /\ Forall (fun r => NoDup (Message.users r)) (Message.reactions m).

(** ** More sample data *)

Module Fixture.
Import Sample.

Definition duo : string := "d00000000000000000000003".

(** A group room of Alice (creator) and Bob that is full at two members. *)
Definition duoRoom : Room.t :=
  Room.mk duo "duo" "" "group" None alice
    [Room.mkMember alice "admin" 0 0; Room.mkMember bob "member" 0 0]
    (Room.mkSettings false true 2) None 0 true.

(** Bob's answer "yo" in the lobby, sent at time [1500]. *)
Definition yoId : string := "e00000000000000000000002".

Definition yo : Message.t :=
  Message.mk yoId "yo" (Message.Unpopulated bob) lobby "text" None [] [] []
    false None None 1500.

Definition db1 : Db :=
  mkDb [account alice "alice"; account bob "bob"; account carol "carol"]
       [lobbyRoom; duoRoom] [hi; yo].

(** A stand-in for [jwt.verify] that accepts one token, Alice's. *)
Definition verifier (token : string) : option string :=
  if token =? "alice-token" then Some alice else None.

(** Three users without friends, and the same after Alice has blocked
    Bob. *)
Definition people : list Contacts.t :=
  [Contacts.mk alice "alice" true [] [];
   Contacts.mk bob "bob" true [] [];
   Contacts.mk carol "carol" true [] []].

Definition peopleBlocked : list Contacts.t :=
  fst (Contacts.blockUser alice bob people).

Definition chat : string := "d00000000000000000000004".

(** The direct room of Alice and Bob, and a database that holds it. *)
Definition chatRoom : Room.t := directRoomOf 0 chat alice bob.

Definition db2 : Db :=
  mkDb [account alice "alice"; account bob "bob"; account carol "carol"]
       [lobbyRoom; chatRoom] [hi].
End Fixture.
(** * Properties *)

(** ** Strings *)

Lemma dropWhile_idem {A : Type} (p : A -> bool) (l : list A) :
  dropWhile p (dropWhile p l) = dropWhile p l.
Proof.
  induction l as [|x l IH]; simpl; auto.
  destruct (p x) eqn:E; auto. simpl. now rewrite E.
Qed.

Lemma dropWhile_keeps_last {A : Type} (p : A -> bool) (l : list A) (x : A) :
  p x = false -> exists pre, dropWhile p (l ++ [x]) = pre ++ [x].
Proof.
  intros Hx. induction l as [|y l IH]; simpl.
  - rewrite Hx. now exists [].
  - destruct (p y); auto. now exists (y :: l).
Qed.

Lemma dropWhile_head {A : Type} (p : A -> bool) (l : list A) :
  dropWhile p l = [] \/ exists x l', dropWhile p l = x :: l' /\ p x = false.
Proof.
  induction l as [|x l IH]; simpl; auto.
  destruct (p x) eqn:E; auto. right. now exists x, l.
Qed.

Lemma trimList_idem (l : list ascii) : trimList (trimList l) = trimList l.
Proof.
  unfold trimList.
  destruct (dropWhile_head isWhiteSpace l) as [E | (x & l' & E & Hx)].
  - rewrite E. reflexivity.
  - rewrite E. simpl rev at 3.
    destruct (dropWhile_keeps_last isWhiteSpace (rev l') x Hx) as [pre Hpre].
    simpl rev at 2. rewrite Hpre, rev_app_distr. simpl.
    rewrite Hx. simpl. 
    replace (rev (rev pre) ++ [x]) with (pre ++ [x]) by now rewrite rev_involutive.
    rewrite <- Hpre, dropWhile_idem, Hpre, rev_app_distr. reflexivity.
Qed.

Lemma trim_idem (s : string) : trim (trim s) = trim s.
Proof.
  unfold trim. rewrite list_ascii_of_string_of_list_ascii.
  now rewrite trimList_idem.
Qed.

Lemma falsy_false (s : string) : s <> "" -> falsy s = false.
Proof. intros H. unfold falsy. now apply String.eqb_neq. Qed.

Lemma length_zero_empty (s : string) : (String.length s =? 0)%nat = (s =? "").
Proof. destruct s; reflexivity. Qed.

(** ** Collections *)

Section CollectionFacts.
Variable D : Type.
Variable key : D -> string.

Lemma findById_some (id : string) (c : list D) (d : D) :
  findById key id c = Some d -> In d c /\ key d = id.
Proof.
  unfold findById. intros H. apply find_some in H.
  destruct H as [Hin Hk]. split; auto. now apply String.eqb_eq.
Qed.

Lemma findById_replaceById (d x : D) (c : list D) :
  findById key (key d) c = Some x ->
  findById key (key d) (replaceById key d c) = Some d.
Proof.
  unfold findById. induction c as [|y c IH]; simpl; [discriminate|].
  destruct (key y =? key d) eqn:E; simpl.
  - now rewrite String.eqb_refl.
  - rewrite E. auto.
Qed.

Lemma findById_replaceById_other (d : D) (id : string) (c : list D) :
  id <> key d ->
  findById key id (replaceById key d c) = findById key id c.
Proof.
  intros Hne. unfold findById. induction c as [|y c IH]; simpl; auto.
  destruct (key y =? key d) eqn:E; simpl.
  - apply String.eqb_eq in E.
    assert ((key d =? id) = false) as ->
        by (apply String.eqb_neq; congruence).
    assert ((key y =? id) = false) as ->
        by (apply String.eqb_neq; congruence).
    reflexivity.
  - now rewrite IH.
Qed.

Lemma In_replaceById (d x : D) (c : list D) :
  In x (replaceById key d c) -> x = d \/ In x c.
Proof.
  induction c as [|y c IH]; simpl; auto.
  destruct (key y =? key d); simpl; intros [H | H]; auto.
  destruct (IH H); auto.
Qed.

Lemma Forall_replaceById (P : D -> Prop) (d : D) (c : list D) :
  Forall P c -> P d -> Forall P (replaceById key d c).
Proof.
  intros Hc Hd. apply Forall_forall. intros x Hx.
  destruct (In_replaceById _ _ _ Hx) as [-> | Hin]; auto.
  now apply (proj1 (Forall_forall P c) Hc).
Qed.

Lemma length_updateFirst (p : D -> bool) (f : D -> D) (c : list D) :
  List.length (updateFirst p f c) = List.length c.
Proof.
  induction c as [|x c IH]; simpl; auto.
  destruct (p x); simpl; auto.
Qed.

Lemma map_updateFirst {B : Type} (g : D -> B) (p : D -> bool) (f : D -> D)
      (c : list D) :
  (forall x, g (f x) = g x) -> map g (updateFirst p f c) = map g c.
Proof.
  intros Hg. induction c as [|x c IH]; simpl; auto.
  destruct (p x); simpl; rewrite ?Hg, ?IH; auto.
Qed.

Lemma In_updateFirst (p : D -> bool) (f : D -> D) (c : list D) (y : D) :
  In y (updateFirst p f c) ->
  In y c \/ exists x, In x c /\ p x = true /\ find p c = Some x /\ y = f x.
Proof.
  induction c as [|x c IH]; simpl; auto.
  destruct (p x) eqn:E; simpl.
  - intros [<- | H]; auto. right. exists x. auto.
  - intros [<- | H]; auto.
    destruct (IH H) as [Hin | (x0 & Hin & Hp & Hf & ->)]; auto.
    right. exists x0. auto.
Qed.
End CollectionFacts.

(** ** Messages: what [save] writes *)

Module MessageFacts.
Import Message.

Lemma message_save_inv (c c' : list t) (m m' : t) :
  save c m = Ok (c', m') ->
  validate m = true /\ m' = preSave m
  /\ c' = replaceById _id (written m) c
  /\ exists x, findById _id (_id m) c = Some x.
Proof.
  unfold save. destruct (validate m); simpl; [|discriminate].
  destruct (findById _id (_id m) c) eqn:E; [|discriminate].
  intros H. inversion H. subst. repeat split; eauto.
Qed.

Lemma message_save_ok (c : list t) (m x : t) :
  validate m = true -> findById _id (_id m) c = Some x ->
  save c m = Ok (replaceById _id (written m) c, preSave m).
Proof. intros Hv Hf. unfold save. now rewrite Hv, Hf. Qed.

Lemma countsAgree_preSave (m : t) : countsAgree (preSave m).
Proof.
  unfold countsAgree, preSave. simpl. apply Forall_forall.
  intros r Hr. apply in_map_iff in Hr. destruct Hr as (r0 & <- & _).
  reflexivity.
Qed.

Lemma reactionSets_preSave (m : t) : reactionSets (preSave m) = reactionSets m.
Proof.
  unfold reactionSets, preSave. simpl. rewrite map_map. reflexivity.
Qed.

Lemma reactionSets_written (m : t) : reactionSets (written m) = reactionSets m.
Proof. unfold written. apply reactionSets_preSave. Qed.

Lemma written_found (c : list t) (m x : t) :
  findById _id (_id m) c = Some x ->
  findById _id (_id m) (replaceById _id (written m) c) = Some (written m).
Proof.
  intros H. change (_id m) with (_id (written m)).
  eapply findById_replaceById. exact H.
Qed.

(** Entries of a saved message come from the entries it was saved with. *)
Lemma In_preSave (m : t) (r' : Reaction) :
  In r' (reactions (preSave m)) ->
  exists r, In r (reactions m) /\ emoji r' = emoji r /\ users r' = users r.
Proof.
  unfold preSave. simpl. intros H. apply in_map_iff in H.
  destruct H as (r & <- & Hr). exists r. auto.
Qed.
End MessageFacts.

(** ** Deleted messages *)

Section DeletedMessages.
Import Message MessageFacts.

Lemma softDelete_redacts (now : Z) (c c' : list t) (m m' : t) (u : string) :
  softDelete now c m u = Ok (c', m') ->
  content m' = deletedText /\ isDeleted m' = true
  /\ exists stored, findById _id (_id m) c' = Some stored
                    /\ content stored = deletedText
                    /\ isDeleted stored = true.
Proof.
  unfold softDelete. intros H. apply message_save_inv in H.
  destruct H as (_ & -> & -> & x & Hx). simpl in Hx.
  repeat split; auto.
  eexists. split.
  - eapply (written_found c (mk _ _ _ _ _ _ _ _ _ _ _ _ _)). exact Hx.
  - split; reflexivity.
Qed.

(** The REST controllers refuse to edit, react to or unreact from a deleted
    message, and leave the database as it was. *)
Lemma rest_refuses_deleted (db : Db) (messageId : string) (m : t) :
  findById _id messageId (db_messages db) = Some m ->
  isDeleted m = true ->
  (forall now u newContent,
      MessageController.updateMessageValidation newContent = true ->
      MessageController.updateMessage now u messageId newContent db
      = (db, mkResponse 404 false "Message not found" NoData))
  /\ (forall aliased u e,
      MessageController.reactionValidation e = true ->
      MessageController.addReaction aliased u messageId e db
      = (db, mkResponse 404 false "Message not found" NoData))
  /\ (forall u e,
      MessageController.removeReaction u messageId e db
      = (db, mkResponse 404 false "Message not found" NoData)).
Proof.
  intros Hf Hd. destruct db as [us rs ms]. simpl in Hf.
  repeat split; intros;
    unfold MessageController.updateMessage, MessageController.addReaction,
      MessageController.removeReaction, restHandler, bind, Message_findById,
      ret; simpl;
    rewrite ?H; simpl; rewrite Hf, Hd; reflexivity.
Qed.
End DeletedMessages.

(** ** Editing *)

Section Editing.
Import Message MessageFacts.

(** The socket handler hands [editContent] the message with its sender
    populated, so the sender test of [editContent] fails whoever edits: the
    handler never writes. *)
Lemma editContent_populated (now : Z) (c : list t) (m : t) (doc : User.t)
      (newContent editorId : string) :
  editContent now c (with_sender m (Populated doc)) newContent editorId
  = Throw NotSender.
Proof. reflexivity. Qed.

Lemma message_edit_never_writes (now : Z) (socket : Socket)
      (messageId newContent : string) (db : Db) :
  exists text,
    ChatHandlers.message_edit now socket messageId newContent db
    = (db, [mkEmit ToSocket "error" (PError text)]).
Proof.
  destruct db as [us rs ms].
  unfold ChatHandlers.message_edit, socketHandler, socketHandlerWith, bind, error, emit,
    Message_findById, User_findById, throw, onMessages; simpl.
  destruct (falsy messageId || falsy newContent
            || (String.length (trim newContent) =? 0)%nat);
    simpl; [eauto|].
  destruct (findById _id messageId ms) as [stored|]; simpl; [|eauto].
  destruct (findById User._id (refId (sender stored)) us) as [doc|];
    simpl; [|eauto].
  destruct (negb (User._id doc =? userId socket)); simpl; [eauto|].
  destruct (createdAt stored <? now - editWindow)%Z; simpl; eauto.
Qed.

(** Past the window the socket handler answers that the message is too
    old, and the database is as it was. *)
Lemma message_edit_too_old (now : Z) (socket : Socket)
      (messageId newContent : string) (db : Db) (m : t) (doc : User.t) :
  messageId <> "" -> trim newContent <> "" ->
  findById _id messageId (db_messages db) = Some m ->
  findById User._id (refId (sender m)) (db_users db) = Some doc ->
  refId (sender m) = userId socket ->
  (createdAt m + editWindow < now)%Z ->
  ChatHandlers.message_edit now socket messageId newContent db
  = (db, [mkEmit ToSocket "error" (PError "Message is too old to edit")]).
Proof.
  intros Hid Hc Hm Hu Hs Ht. destruct db as [us rs ms]. simpl in *.
  assert (newContent <> "") as Hc'
      by (intros ->; apply Hc; reflexivity).
  unfold ChatHandlers.message_edit, socketHandler, socketHandlerWith, bind, error, emit,
    Message_findById, User_findById; simpl.
  rewrite (falsy_false Hid), (falsy_false Hc'), length_zero_empty.
  apply String.eqb_neq in Hc. rewrite Hc. simpl.
  rewrite Hm. simpl. rewrite Hu. simpl.
  apply findById_some in Hu. destruct Hu as [_ Hu].
  rewrite Hu, Hs, String.eqb_refl. simpl.
  assert ((createdAt m <? now - editWindow)%Z = true) as ->
      by (apply Z.ltb_lt; lia).
  reflexivity.
Qed.

(** The REST controller, on a message that is not deleted: past the window
    it answers that the message is too old and writes nothing; within the
    window it appends the previous content to the history and stores the
    trimmed content. *)
Lemma updateMessage_window (now : Z) (u messageId newContent : string)
      (db : Db) (m : t) :
  MessageController.updateMessageValidation newContent = true ->
  findById _id messageId (db_messages db) = Some m ->
  isDeleted m = false ->
  rendersAs (sender m) u = true ->
  ((createdAt m + editWindow < now)%Z ->
   MessageController.updateMessage now u messageId newContent db
   = (db, mkResponse 400 false "Message is too old to edit" NoData))
  /\ ((now <= createdAt m + editWindow)%Z ->
      exists m' db',
        MessageController.updateMessage now u messageId newContent db
        = (db', mkResponse 200 true "Message updated successfully"
                  (MessageData m'))
        /\ content m' = trim newContent
        /\ editHistory m' = editHistory m ++ [mkEdit (content m) now]
        /\ editedAt m' = Some now
        /\ exists stored,
            findById _id messageId (db_messages db') = Some stored
            /\ content stored = trim newContent
            /\ editHistory stored
               = editHistory m ++ [mkEdit (content m) now]).
Proof.
  intros Hv Hm Hd Hs. destruct db as [us rs ms]. simpl in *.
  pose proof (findById_some _ _ _ Hm) as [_ Hid].
  unfold MessageController.updateMessage, restHandler, bind, ret,
    Message_findById, onMessages; simpl.
  rewrite Hv. simpl. rewrite Hm, Hd, Hs. simpl. split; intros Ht.
  - assert ((createdAt m <? now - editWindow)%Z = true) as ->
        by (apply Z.ltb_lt; lia).
    reflexivity.
  - assert ((createdAt m <? now - editWindow)%Z = false) as ->
        by (apply Z.ltb_ge; lia).
    unfold editContent. rewrite Hs. simpl. rewrite !trim_idem.
    unfold MessageController.updateMessageValidation in Hv.
    apply andb_prop in Hv. destruct Hv as [Hv1 Hv2].
    match goal with
    | |- context [save ms ?x] => set (edited := x)
    end.
    assert (validate edited = true) as Hval.
    { unfold validate, edited; simpl. rewrite Hv2, andb_true_r.
      destruct (trim newContent); [discriminate|reflexivity]. }
    assert (findById _id (_id edited) ms = Some m) as Hfound
        by (unfold edited; simpl; now rewrite Hid).
    rewrite (message_save_ok _ _ Hval Hfound).
    eexists. eexists. split; [reflexivity|].
    repeat split.
    exists (written edited). split.
    + simpl. rewrite <- Hid.
      apply (written_found _ _ Hfound).
    + split; reflexivity.
Qed.
End Editing.

(** C3 (edit window).  Alice sent "hi" at time [1000].  Five minutes later she
    edits it to "hello" over the socket: the window is open and she is the
    sender, yet the handler answers "Failed to edit message" and the content
    stays "hi".  Over REST the same edit is stored
    ([updateMessage_window]); past the window both paths answer that the
    message is too old ([message_edit_too_old], [updateMessage_window]). *)
Theorem socket_edit_by_sender_in_window_fails :
  let now := (1000 + 5 * 60 * 1000)%Z in
  (now <= Message.createdAt Sample.hi + editWindow)%Z
  /\ Message.rendersAs (Message.sender Sample.hi) (userId Sample.aliceSocket)
     = true
  /\ ChatHandlers.message_edit now Sample.aliceSocket Sample.hello "hello"
       Sample.db0
     = (Sample.db0,
        [mkEmit ToSocket "error" (PError "Failed to edit message")])
  /\ (exists m' db',
        MessageController.updateMessage now Sample.alice Sample.hello "hello"
          Sample.db0
        = (db', mkResponse 200 true "Message updated successfully"
                  (MessageData m'))
        /\ Message.content m' = "hello"
        /\ Message.editHistory m' = [Message.mkEdit "hi" now]).
Proof.
  cbv zeta. split; [vm_compute; discriminate|].
  split; [reflexivity|]. split; [vm_compute; reflexivity|].
  eexists. eexists. split; [vm_compute; reflexivity|].
  split; reflexivity.
Qed.

(** C1 (deleted messages).  After Alice has deleted her message over the
    socket, the stored message is flagged and carries the placeholder; the
    socket handlers still let Bob react to it and Alice withdraw her
    reaction, without an error, and the stored reactions change. *)
Theorem socket_reactions_change_deleted_message :
  forall aliased : bool,
    (exists deleted,
        findById Message._id Sample.hello (db_messages Sample.dbDeleted)
        = Some deleted
        /\ Message.isDeleted deleted = true
        /\ Message.content deleted = Message.deletedText
        /\ Message.reactions deleted = [Message.mkReaction "+1" [Sample.alice] 1])
    /\ (exists db' reacted,
          ChatHandlers.message_react aliased Sample.bobSocket Sample.hello "+1"
            Sample.dbDeleted
          = (db', [mkEmit (ToRoom Sample.lobby) "message:reaction:added"
                     (PReaction Sample.hello "+1" Sample.bob "bob"
                        [Message.mkReaction "+1" [Sample.alice; Sample.bob] 2])])
          /\ findById Message._id Sample.hello (db_messages db') = Some reacted
          /\ Message.isDeleted reacted = true
          /\ Message.reactions reacted
             = [Message.mkReaction "+1" [Sample.alice; Sample.bob] 2])
    /\ (exists db' withdrawn,
          ChatHandlers.message_unreact Sample.aliceSocket Sample.hello "+1"
            Sample.dbDeleted
          = (db', [mkEmit (ToRoom Sample.lobby) "message:reaction:removed"
                     (PReaction Sample.hello "+1" Sample.alice "alice" [])])
          /\ findById Message._id Sample.hello (db_messages db')
             = Some withdrawn
          /\ Message.isDeleted withdrawn = true
          /\ Message.reactions withdrawn = []).
Proof.
  intros aliased. split; [|split].
  - eexists. split; [vm_compute; reflexivity|]. repeat split.
  - eexists. eexists. split; [destruct aliased; vm_compute; reflexivity|].
    split; [vm_compute; reflexivity|]. repeat split.
  - eexists. eexists. split; [vm_compute; reflexivity|].
    split; [vm_compute; reflexivity|]. repeat split.
Qed.

(** ** Reactions *)

Section Reactions.
Import Message MessageFacts.

(** [addReaction] of a valid stored message is saved, whatever it finds. *)
Lemma addReaction_saved (aliased : bool) (c : list t) (m x : t)
      (e u : string) :
  validate m = true -> findById _id (_id m) c = Some x ->
  exists rs,
    addReaction aliased c m e u
    = Ok (replaceById _id (written (with_reactions m rs)) c,
          preSave (with_reactions m rs))
    /\ (forall r, findReaction m e = Some r -> includes (users r) u = true ->
          rs = reactions m)
    /\ (forall r, findReaction m e = Some r ->
          exists r', find (fun r0 => emoji r0 =? e) rs = Some r'
                     /\ includes (users r') u = true).
Proof.
  intros Hv Hx. unfold addReaction.
  set (rs := match findReaction m e with
             | Some reaction => _
             | None => _
             end).
  exists rs. split.
  - apply (@message_save_ok c (with_reactions m rs) x).
    + destruct m. exact Hv.
    + destruct m. exact Hx.
  - split.
    + intros r Hr Hu. unfold rs. now rewrite Hr, Hu.
    + intros r Hr. unfold rs. rewrite Hr.
      destruct (includes (users r) u) eqn:Hu.
      * exists r. split; [exact Hr|exact Hu].
      * unfold findReaction in Hr. clear rs.
        induction (reactions m) as [|r0 l IH]; simpl in *; [discriminate|].
        destruct (emoji r0 =? e) eqn:He.
        -- eexists. simpl. rewrite He. split; [reflexivity|].
           simpl. unfold includes. rewrite existsb_app. simpl.
           rewrite String.eqb_refl. now rewrite orb_true_r.
        -- simpl. rewrite He. apply IH. exact Hr.
Qed.

(** A [message:react] that passes the checks: what it answers and writes. *)
Lemma message_react_served (aliased : bool) (socket : Socket)
      (messageId e : string) (db : Db) (m : t) (room : Room.t) :
  messageId <> "" -> e <> "" ->
  findById _id messageId (db_messages db) = Some m ->
  findById Room._id (Message.room m) (db_rooms db) = Some room ->
  Room.isMember room (userId socket) = true ->
  validate m = true ->
  exists rs,
    ChatHandlers.message_react aliased socket messageId e db
    = (mkDb (db_users db) (db_rooms db)
            (replaceById _id (written (with_reactions m rs)) (db_messages db)),
       [mkEmit (ToRoom (Message.room m)) "message:reaction:added"
          (PReaction messageId e (userId socket) (username socket)
             (reactions (preSave (with_reactions m rs))))])
    /\ (forall r, findReaction m e = Some r ->
          includes (users r) (userId socket) = true -> rs = reactions m)
    /\ (forall r, findReaction m e = Some r ->
          exists r', find (fun r0 => emoji r0 =? e) rs = Some r'
                     /\ includes (users r') (userId socket) = true).
Proof.
  intros Hid He Hm Hroom Hmem Hv. destruct db as [us rs0 ms]. simpl in *.
  pose proof (findById_some _ _ _ Hm) as [_ Hkey].
  assert (findById _id (_id m) ms = Some m) as Hm' by now rewrite Hkey.
  destruct (@addReaction_saved aliased ms m m e (userId socket) Hv Hm')
    as (rs & Hadd & Hsame & Hin).
  exists rs. split; [|split; assumption].
  unfold ChatHandlers.message_react, socketHandler, socketHandlerWith, bind,
    error, emit, Message_findById, Room_findById, deref, ret, onMessages;
    simpl.
  rewrite (falsy_false Hid), (falsy_false He). simpl.
  rewrite Hm. simpl. rewrite Hroom. simpl. rewrite Hmem. simpl.
  rewrite Hadd. simpl. destruct m; simpl in *. now rewrite Hkey.
Qed.

Lemma written_with_reactions (m : t) (rs : list Reaction) :
  _id (written (with_reactions m rs)) = _id m
  /\ Message.room (written (with_reactions m rs)) = Message.room m
  /\ validate (written (with_reactions m rs)) = validate m
  /\ reactionSets (written (with_reactions m rs))
     = map (fun r => (emoji r, users r)) rs.
Proof.
  destruct m. unfold written, preSave, reactionSets. simpl.
  repeat split. now rewrite map_map.
Qed.

Lemma findReaction_written (m : t) (rs : list Reaction) (e u : string)
      (r : Reaction) :
  find (fun r0 => emoji r0 =? e) rs = Some r -> includes (users r) u = true ->
  exists r', findReaction (written (with_reactions m rs)) e = Some r'
             /\ includes (users r') u = true.
Proof.
  intros Hr Hu. destruct m. unfold findReaction, written, preSave. simpl.
  induction rs as [|r0 l IH]; simpl in *; [discriminate|].
  destruct (emoji r0 =? e) eqn:He.
  - inversion Hr. subst. eexists. split; [reflexivity|exact Hu].
  - apply IH. exact Hr.
Qed.

(** C4, amended.  Every [message:react] that passes the checks (message
    and room found, the user a member, the message valid) is saved and
    emits [message:reaction:added] to the room, once, with the reactions as
    stored, and touches no other message, room or user.  When the user is
    already in the user set of the emoji, every reaction set of the message
    stays as it was.  When the emoji has an entry on the message, the same
    request sent again is served the same way and leaves every reaction
    set as the first request left it. *)
Theorem react_again_keeps_sets_and_still_fans_out
        (aliased : bool) (socket : Socket) (messageId e : string) (db : Db)
        (m : t) (room : Room.t) :
  messageId <> "" -> e <> "" ->
  findById _id messageId (db_messages db) = Some m ->
  findById Room._id (Message.room m) (db_rooms db) = Some room ->
  Room.isMember room (userId socket) = true ->
  validate m = true ->
  exists db' stored,
    ChatHandlers.message_react aliased socket messageId e db
    = (db', [mkEmit (ToRoom (Message.room m)) "message:reaction:added"
               (PReaction messageId e (userId socket) (username socket)
                  (reactions stored))])
    /\ findById _id messageId (db_messages db') = Some stored
    /\ (forall other, other <> messageId ->
          findById _id other (db_messages db')
          = findById _id other (db_messages db))
    /\ db_rooms db' = db_rooms db /\ db_users db' = db_users db
    /\ (forall r, findReaction m e = Some r ->
          includes (users r) (userId socket) = true ->
          reactionSets stored = reactionSets m)
    /\ (forall r, findReaction m e = Some r ->
          exists db'' stored',
            ChatHandlers.message_react aliased socket messageId e db'
            = (db'', [mkEmit (ToRoom (Message.room m))
                        "message:reaction:added"
                        (PReaction messageId e (userId socket)
                           (username socket) (reactions stored'))])
            /\ findById _id messageId (db_messages db'') = Some stored'
            /\ reactionSets stored' = reactionSets stored).
Proof.
  intros Hid He Hm Hroom Hmem Hv.
  destruct (@message_react_served aliased socket messageId e db m room
              Hid He Hm Hroom Hmem Hv) as (rs & Hrun & Hsame & Hin).
  pose proof (findById_some _ _ _ Hm) as [_ Hkey].
  assert (findById _id (_id m) (db_messages db) = Some m) as Hm'
      by now rewrite Hkey.
  destruct (written_with_reactions m rs) as (Hwid & Hwroom & Hwv & Hwsets).
  set (stored := written (with_reactions m rs)) in *.
  assert (findById _id messageId
            (replaceById _id stored (db_messages db)) = Some stored)
    as Hstored.
  { rewrite <- Hkey, <- Hwid.
    apply (@findById_replaceById _ _id stored m). now rewrite Hwid. }
  eexists. exists stored. split; [exact Hrun|]. simpl.
  split; [exact Hstored|].
  split.
  { intros other Hne. apply findById_replaceById_other.
    rewrite Hwid. congruence. }
  split; [reflexivity|]. split; [reflexivity|].
  split.
  { intros r Hr Hu. rewrite Hwsets, (Hsame r Hr Hu). reflexivity. }
  intros r Hr. destruct (Hin r Hr) as (r1 & Hr1 & Hu1).
  destruct (@findReaction_written m rs e (userId socket) r1 Hr1 Hu1)
    as (r2 & Hr2 & Hu2). fold stored in Hr2.
  set (db1 := mkDb (db_users db) (db_rooms db)
                (replaceById _id stored (db_messages db))).
  assert (findById Room._id (Message.room stored) (db_rooms db1) = Some room)
    as Hroom1 by (rewrite Hwroom; exact Hroom).
  assert (validate stored = true) as Hv1 by now rewrite Hwv.
  destruct (@message_react_served aliased socket messageId e db1 stored room
              Hid He Hstored Hroom1 Hmem Hv1) as (rs' & Hrun' & Hsame' & _).
  destruct (written_with_reactions stored rs')
    as (Hwid' & _ & _ & Hwsets').
  eexists. exists (written (with_reactions stored rs')).
  split; [rewrite Hrun', Hwroom; reflexivity|]. simpl.
  split.
  { rewrite <- Hkey, <- Hwid, <- Hwid'.
    apply (@findById_replaceById _ _id _ stored).
    rewrite Hwid', Hwid, Hkey. exact Hstored. }
  rewrite Hwsets', (Hsame' r2 Hr2 Hu2). reflexivity.
Qed.

(** Alice, whose thumbs-up is on the message, reacts with it again. *)
Lemma react_again_witness :
  exists db' stored,
    ChatHandlers.message_react false Sample.aliceSocket Sample.hello "+1"
      Sample.db0
    = (db', [mkEmit (ToRoom Sample.lobby) "message:reaction:added"
               (PReaction Sample.hello "+1" Sample.alice "alice"
                  (reactions stored))])
    /\ findById _id Sample.hello (db_messages db') = Some stored
    /\ reactionSets stored = [("+1", [Sample.alice])].
Proof.
  assert (Sample.hello <> "") as Hid by discriminate.
  assert ("+1" <> "") as He by discriminate.
  destruct (@react_again_keeps_sets_and_still_fans_out
              false Sample.aliceSocket Sample.hello "+1" Sample.db0
              Sample.hi Sample.lobbyRoom Hid He eq_refl eq_refl eq_refl
              eq_refl)
    as (db' & stored & H1 & H2 & _ & _ & _ & H3 & _).
  exists db', stored. split; [exact H1|]. split; [exact H2|].
  exact (H3 (mkReaction "+1" [Sample.alice] 1) eq_refl eq_refl).
Defined.

(** The first reaction with a new emoji, in the two readings of the push:
    with the variable aliasing the pushed element the entry gets the user;
    with the pushed element a copy the entry is stored without users, and
    the same request sent again puts the user in. *)
Lemma first_reaction_with_new_emoji :
  (exists c' m',
      addReaction true (db_messages Sample.db0) Sample.hi "heart" Sample.bob
      = Ok (c', m')
      /\ reactionSets m' = [("+1", [Sample.alice]); ("heart", [Sample.bob])])
  /\ (exists c' m' c'' m'',
        addReaction false (db_messages Sample.db0) Sample.hi "heart" Sample.bob
        = Ok (c', m')
        /\ reactionSets m' = [("+1", [Sample.alice]); ("heart", [])]
        /\ addReaction false c' m' "heart" Sample.bob = Ok (c'', m'')
        /\ reactionSets m''
           = [("+1", [Sample.alice]); ("heart", [Sample.bob])]).
Proof.
  split.
  - eexists. eexists. split; [vm_compute; reflexivity|reflexivity].
  - eexists. eexists. eexists. eexists.
    split; [vm_compute; reflexivity|]. split; [reflexivity|].
    split; [vm_compute; reflexivity|reflexivity].
Qed.

(** C4 as stated fails.  Alice already has her thumbs-up on the message;
    her second [message:react] changes no reaction set, and the event goes
    out to the room nevertheless.  And a second react after a first is not
    always a no-op: Bob's first react with a heart stores the entry without
    him, his second puts him in. *)
Lemma fan_out_without_change :
  ~ fanOutOnlyOnChange true Sample.aliceSocket Sample.hello "+1" Sample.db0
  /\ ~ fanOutOnlyOnChange false Sample.aliceSocket Sample.hello "+1"
       Sample.db0
  /\ ~ secondReactIsNoOp false Sample.bobSocket Sample.hello "heart"
       Sample.db0.
Proof.
  split; [|split]; intros H.
  - refine (H _ _ eq_refl _ _).
    + eexists. split; [left; reflexivity|reflexivity].
    + vm_compute. reflexivity.
  - refine (H _ _ eq_refl _ _).
    + eexists. split; [left; reflexivity|reflexivity].
    + vm_compute. reflexivity.
  - vm_compute in H. discriminate.
Qed.
End Reactions.

Section Unreact.
Import Message MessageFacts.

Lemma removeReaction_ok (c : list t) (m x : t) (e u : string) :
  validate m = true -> findById _id (_id m) c = Some x ->
  exists c' m', removeReaction c m e u = Ok (c', m')
                /\ Message.room m' = Message.room m /\ _id m' = _id m.
Proof.
  intros Hv Hx. unfold removeReaction.
  match goal with |- context [save c ?y] => set (changed := y) end.
  assert (validate changed = true) as Hv' by exact Hv.
  assert (findById _id (_id changed) c = Some x) as Hx' by exact Hx.
  rewrite (message_save_ok _ _ Hv' Hx'). eexists. eexists.
  split; [reflexivity|]. split; reflexivity.
Qed.

(** C9.  [message:unreact] on an existing message goes through for any
    authenticated user, whatever the rooms of the database say about
    membership: the handler runs [removeReaction] and emits
    [message:reaction:removed] to the room.  [message:react] on the same
    message by a user who is not a member of its room is refused with
    "You are not a member of this room". *)
Theorem unreact_has_no_membership_check
        (socket : Socket) (messageId e : string) (db : Db) (m : t) :
  messageId <> "" -> e <> "" ->
  findById _id messageId (db_messages db) = Some m ->
  validate m = true ->
  (exists c' m',
      removeReaction (db_messages db) m e (userId socket) = Ok (c', m')
      /\ ChatHandlers.message_unreact socket messageId e db
         = (mkDb (db_users db) (db_rooms db) c',
            [mkEmit (ToRoom (Message.room m)) "message:reaction:removed"
               (PReaction messageId e (userId socket) (username socket)
                  (reactions m'))]))
  /\ (forall aliased room,
        findById Room._id (Message.room m) (db_rooms db) = Some room ->
        Room.isMember room (userId socket) = false ->
        ChatHandlers.message_react aliased socket messageId e db
        = (db, [mkEmit ToSocket "error"
                  (PError "You are not a member of this room")])).
Proof.
  intros Hid He Hm Hv. destruct db as [us rs ms]. simpl in *.
  pose proof (findById_some _ _ _ Hm) as [_ Hkey].
  assert (findById _id (_id m) ms = Some m) as Hm' by now rewrite Hkey.
  split.
  - destruct (removeReaction_ok _ _ e (userId socket) Hv Hm')
      as (c' & m' & Hrm & Hroom & Hid').
    exists c', m'. split; [exact Hrm|].
    unfold ChatHandlers.message_unreact, socketHandler, socketHandlerWith, bind, error, emit,
      Message_findById, onMessages; simpl.
    rewrite (falsy_false Hid), (falsy_false He). simpl.
    rewrite Hm. simpl. rewrite Hrm. simpl.
    now rewrite Hroom, Hid', Hkey.
  - intros aliased room Hroom Hmem.
    unfold ChatHandlers.message_react, socketHandler, socketHandlerWith, bind, error, emit,
      Message_findById, Room_findById, deref, ret; simpl.
    rewrite (falsy_false Hid), (falsy_false He). simpl.
    rewrite Hm. simpl. rewrite Hroom. simpl. rewrite Hmem. reflexivity.
Qed.

(** Carol is not a member of the lobby: her [message:unreact] goes through,
    her [message:react] is refused. *)
Lemma unreact_by_outsider_witness :
  (exists c' m',
      removeReaction (db_messages Sample.db0) Sample.hi "+1" Sample.carol
      = Ok (c', m')
      /\ ChatHandlers.message_unreact Sample.carolSocket Sample.hello "+1"
           Sample.db0
         = (mkDb (db_users Sample.db0) (db_rooms Sample.db0) c',
            [mkEmit (ToRoom Sample.lobby) "message:reaction:removed"
               (PReaction Sample.hello "+1" Sample.carol "carol"
                  (reactions m'))]))
  /\ ChatHandlers.message_react false Sample.carolSocket Sample.hello "+1"
       Sample.db0
     = (Sample.db0, [mkEmit ToSocket "error"
                       (PError "You are not a member of this room")]).
Proof.
  destruct (@unreact_has_no_membership_check
              Sample.carolSocket Sample.hello "+1" Sample.db0 Sample.hi)
    as [H1 H2]; try reflexivity; try discriminate.
  split; [exact H1|].
  apply (H2 false Sample.lobbyRoom); reflexivity.
Defined.

(** After [removeReaction] drops the last user of an emoji, no entry of the
    message has that emoji. *)
Lemma removeReaction_drops_empty (c c' : list t) (m m' : t) (e u : string)
      (r : Reaction) :
  removeReaction c m e u = Ok (c', m') ->
  findReaction m e = Some r ->
  filter (fun u' => negb (u' =? u)) (users r) = [] ->
  forall r', In r' (reactions m') -> emoji r' <> e.
Proof.
  unfold removeReaction. intros H Hr Hempty r' Hr'.
  apply message_save_inv in H. destruct H as (_ & -> & _ & _).
  apply In_preSave in Hr'. destruct Hr' as (r0 & Hin & He & _).
  simpl in Hin. rewrite Hr, Hempty in Hin. simpl in Hin.
  apply filter_In in Hin. destruct Hin as [_ Hne].
  rewrite He. apply String.eqb_neq.
  now destruct (emoji r0 =? e).
Qed.

(** [removeReaction] introduces no entry without users. *)
Lemma removeReaction_no_empty (c c' : list t) (m m' : t) (e u : string) :
  removeReaction c m e u = Ok (c', m') ->
  (forall r, In r (reactions m) -> users r <> []) ->
  forall r', In r' (reactions m') -> users r' <> [].
Proof.
  unfold removeReaction. intros H Hall r' Hr'.
  apply message_save_inv in H. destruct H as (_ & -> & _ & _).
  apply In_preSave in Hr'. destruct Hr' as (r0 & Hin & _ & Hu).
  rewrite Hu. clear Hu r'. simpl in Hin.
  destruct (findReaction m e) as [r|] eqn:Hr; [|auto].
  set (users' := filter (fun u' => negb (u' =? u)) (users r)) in *.
  destruct (Z.of_nat (List.length users') =? 0)%Z eqn:Hz.
  - apply filter_In in Hin. destruct Hin as [Hin Hne].
    apply In_updateFirst in Hin.
    destruct Hin as [Hin | (x & _ & Hp & _ & ->)]; [auto|].
    simpl in Hne. rewrite Hp in Hne. discriminate.
  - apply In_updateFirst in Hin.
    destruct Hin as [Hin | (x & _ & _ & _ & ->)]; [auto|].
    simpl. intros Hnil. rewrite Hnil in Hz. discriminate.
Qed.

(** C10.  A completed [save], of a stored or of a new message, returns and
    stores the message with every reaction's [count] equal to the length of
    its [users], and [removeReaction] that takes the last user out of an
    emoji's entry leaves no entry for that emoji.  An entry without users
    can remain all the same: Bob's first react with a heart stores the
    heart entry without users, and when Alice then withdraws the only
    thumbs-up of the message, the saved message holds that one entry, its
    users empty and its count zero. *)
Theorem unreact_leaves_entry_without_users :
  (forall c c' m m',
      save c m = Ok (c', m') ->
      countsAgree m'
      /\ exists stored, findById _id (_id m) c' = Some stored
                        /\ reactions stored = reactions m'
                        /\ countsAgree stored)
  /\ (forall c c' m m',
        insert c m = Ok (c', m') ->
        countsAgree m' /\ Forall countsAgree (skipn (List.length c) c'))
  /\ (forall c c' m m' e u r,
        removeReaction c m e u = Ok (c', m') ->
        findReaction m e = Some r ->
        filter (fun u' => negb (u' =? u)) (users r) = [] ->
        forall r', In r' (reactions m') -> emoji r' <> e)
  /\ (exists db1 db2 stored,
        ChatHandlers.message_react false Sample.bobSocket Sample.hello
          "heart" Sample.db0
        = (db1, [mkEmit (ToRoom Sample.lobby) "message:reaction:added"
                   (PReaction Sample.hello "heart" Sample.bob "bob"
                      [mkReaction "+1" [Sample.alice] 1;
                       mkReaction "heart" [] 0])])
        /\ ChatHandlers.message_unreact Sample.aliceSocket Sample.hello "+1"
             db1
           = (db2, [mkEmit (ToRoom Sample.lobby) "message:reaction:removed"
                      (PReaction Sample.hello "+1" Sample.alice "alice"
                         [mkReaction "heart" [] 0])])
        /\ findById _id Sample.hello (db_messages db2) = Some stored
        /\ reactions stored = [mkReaction "heart" [] 0]
        /\ countsAgree stored).
Proof.
  split; [|split; [|split]].
  - intros c c' m m' H. apply message_save_inv in H.
    destruct H as (_ & -> & -> & x & Hx).
    split; [apply countsAgree_preSave|].
    exists (written m). split; [apply (written_found _ _ Hx)|].
    split; [reflexivity|apply countsAgree_preSave].
  - intros c c' m m'. unfold insert.
    destruct (negb (validate m && includes typeEnum (type m)));
      [discriminate|].
    destruct (findById _id (_id m) c); [discriminate|].
    intros H. inversion H. subst. split; [apply countsAgree_preSave|].
    rewrite skipn_app, skipn_all, Nat.sub_diag. simpl.
    constructor; [apply countsAgree_preSave|constructor].
  - intros c c' m m' e u r H Hr Hempty.
    eapply removeReaction_drops_empty; eauto.
  - eexists. eexists. eexists.
    split; [vm_compute; reflexivity|].
    split; [vm_compute; reflexivity|].
    split; [vm_compute; reflexivity|].
    split; [reflexivity|].
    repeat constructor.
Qed.
End Unreact.

(** ** Presence *)

Section Presence.




End Presence.

(** ** Rooms: what the model methods write *)

Module RoomFacts.
Import Room.

Lemma room_save_inv (isNew : bool) (now : Z) (c c' : list t) (r r' : t) :
  save isNew now c r = Ok (c', r') ->
  validate r = true /\ r' = with_lastActivity r now
  /\ ((isNew = true /\ findById _id (_id r) c = None /\ c' = c ++ [r'])
      \/ (isNew = false /\ (exists old, findById _id (_id r) c = Some old)
          /\ c' = replaceById _id r' c)).
Proof.
  unfold save. destruct (validate r); simpl; [|discriminate].
  destruct (findById _id (_id r) c) as [old|] eqn:E; destruct isNew;
    try discriminate.
  - destruct (indexConflict _ _); [discriminate|].
    intros H. inversion H. subst. repeat split. right. eauto.
  - destruct (indexConflict _ _); [discriminate|].
    intros H. inversion H. subst. repeat split. left. eauto.
Qed.

Lemma no_added_keys (l : list string) :
  filter (fun k => negb (includes l k)) l = [].
Proof.
  assert (forall l', (forall k, In k l' -> In k l) ->
                     filter (fun k => negb (includes l k)) l' = []) as H.
  { induction l' as [|k l' IH]; simpl; auto. intros Hin.
    assert (includes l k = true) as ->.
    { unfold includes. apply existsb_exists. exists k.
      split; [apply Hin; now left|apply String.eqb_refl]. }
    simpl. apply IH. intros k' Hk'. apply Hin. now right. }
  apply H. auto.
Qed.

Lemma indexConflict_nil (others : list t) : indexConflict others [] = false.
Proof. induction others; simpl; auto. Qed.

(** A write that leaves the members' users and the type alone adds no key
    to the index, so only the validators can refuse it. *)
Lemma save_ok_same_keys (now : Z) (c : list t) (r old : t) :
  validate r = true -> findById _id (_id r) c = Some old ->
  directKeys r = directKeys old ->
  save false now c r
  = Ok (replaceById _id (with_lastActivity r now) c, with_lastActivity r now).
Proof.
  intros Hv Hf Hk. unfold save. rewrite Hv. simpl. rewrite Hf.
  change (directKeys (with_lastActivity r now)) with (directKeys r).
  rewrite Hk, no_added_keys, indexConflict_nil. reflexivity.
Qed.

Lemma find_updateFirst {D : Type} (p : D -> bool) (f : D -> D) (c : list D) :
  (forall x, p (f x) = p x) ->
  find p (updateFirst p f c) = option_map f (find p c).
Proof.
  intros Hp. induction c as [|x c IH]; simpl; auto.
  destruct (p x) eqn:E; simpl.
  - now rewrite Hp, E.
  - now rewrite E.
Qed.

Lemma forallb_updateFirst {D : Type} (q p : D -> bool) (f : D -> D)
      (c : list D) :
  (forall x, q (f x) = q x) -> forallb q (updateFirst p f c) = forallb q c.
Proof.
  intros Hq. induction c as [|x c IH]; simpl; auto.
  destruct (p x); simpl; now rewrite ?Hq, ?IH.
Qed.

Lemma updateLastRead_ok (now : Z) (c : list t) (r : t) (u : string)
      (m : Member) :
  validate r = true -> findById _id (_id r) c = Some r ->
  findMember r u = Some m ->
  exists r', updateLastRead now c r u = Ok (replaceById _id r' c, r')
             /\ _id r' = _id r
             /\ findMember r' u
                = Some (mkMember (user m) (role m) (joinedAt m) now)
             /\ findById _id (_id r) (replaceById _id r' c) = Some r'.
Proof.
  intros Hv Hf Hm. unfold updateLastRead. rewrite Hm.
  match goal with |- context [save false now c ?x] => set (r1 := x) end.
  assert (map user (members r1) = map user (members r)) as Husers
      by (unfold r1; simpl; now apply map_updateFirst).
  assert (validate r1 = true) as Hv1.
  { rewrite <- Hv. unfold validate, r1. simpl.
    now rewrite forallb_updateFirst. }
  assert (directKeys r1 = directKeys r) as Hk
      by (unfold directKeys; rewrite Husers; reflexivity).
  assert (findById _id (_id r1) c = Some r) as Hf1 by exact Hf.
  rewrite (@save_ok_same_keys now _ _ _ Hv1 Hf1 Hk).
  eexists. split; [reflexivity|]. split; [reflexivity|]. split.
  - unfold findMember. simpl. unfold findMember in Hm.
    rewrite find_updateFirst by reflexivity. now rewrite Hm.
  - change (_id r) with (_id (with_lastActivity r1 now)).
    eapply findById_replaceById. exact Hf1.
Qed.
End RoomFacts.

(** ** Read watermark *)

Section Watermark.
Import Room RoomFacts.

Lemma isMember_findMember (r : t) (u : string) :
  isMember r u = true -> exists m, findMember r u = Some m.
Proof.
  unfold isMember, findMember. intros H. apply existsb_exists in H.
  destruct H as (m & Hin & Hm).
  destruct (find (fun m0 => user m0 =? u) (members r)) as [m'|] eqn:E;
    [eauto|].
  rewrite (find_none _ _ E m Hin) in Hm. discriminate.
Qed.

(** C7, amended.  A mark-read request carries no timestamp: for a member of
    the room, the socket handler and the REST controller both set the
    member's [lastReadAt] to the clock of the call, whatever it was before,
    and answer with success.  The watermark therefore does not decrease
    exactly when the clock of the call is not below it. *)
Theorem mark_read_sets_watermark_to_clock
        (now : Z) (socket : Socket) (roomId : string)
        (messageIds : list string) (db : Db) (room : t) :
  roomId <> "" ->
  findById _id roomId (db_rooms db) = Some room ->
  isMember room (userId socket) = true ->
  validate room = true ->
  (exists db',
      ChatHandlers.messages_mark_read now socket roomId messageIds db
      = (db', [mkEmit (ToRoomOthers roomId) "messages:read"
                 (PRead (userId socket) roomId now messageIds);
               mkEmit ToSocket "messages:mark_read:success" (PRoomId roomId)])
      /\ watermark db' roomId (userId socket) = Some now)
  /\ (exists db',
        MessageController.markAsRead now (userId socket) roomId messageIds db
        = (db', mkResponse 200 true "Messages marked as read" NoData)
        /\ watermark db' roomId (userId socket) = Some now).
Proof.
  intros Hid Hroom Hmem Hv. destruct db as [us rs ms]. simpl in Hroom.
  pose proof (findById_some _ _ _ Hroom) as [_ Hkey].
  assert (findById _id (_id room) rs = Some room) as Hroom'
      by now rewrite Hkey.
  destruct (isMember_findMember _ _ Hmem) as [m Hm].
  destruct (@updateLastRead_ok now rs room (userId socket) m Hv Hroom' Hm)
    as (r' & Hup & Hid' & Hm' & Hfound).
  rewrite Hkey in Hfound.
  assert (forall ms', watermark (mkDb us (replaceById _id r' rs) ms') roomId
                        (userId socket) = Some now) as Hw.
  { intros ms'. unfold watermark. simpl. rewrite Hfound, Hm'. reflexivity. }
  split.
  - unfold ChatHandlers.messages_mark_read, socketHandler, socketHandlerWith, bind, error, emit,
      Room_findById, onRooms, onMessages, ret; simpl.
    rewrite (falsy_false Hid). simpl. rewrite Hroom. simpl.
    rewrite Hmem. simpl. rewrite Hup. simpl.
    destruct messageIds; simpl; (eexists; split; [reflexivity|apply Hw]).
  - unfold MessageController.markAsRead, restHandler, bind, ret,
      Room_findById, onRooms, onMessages; simpl.
    rewrite Hroom. simpl. rewrite Hmem. simpl. rewrite Hup. simpl.
    destruct messageIds; simpl; (eexists; split; [reflexivity|apply Hw]).
Qed.

(** Alice marks the lobby read at clock [3000]. *)
Lemma mark_read_witness :
  exists db',
    ChatHandlers.messages_mark_read 3000 Sample.aliceSocket Sample.lobby []
      Sample.db0
    = (db', [mkEmit (ToRoomOthers Sample.lobby) "messages:read"
               (PRead Sample.alice Sample.lobby 3000 []);
             mkEmit ToSocket "messages:mark_read:success"
               (PRoomId Sample.lobby)])
    /\ watermark db' Sample.lobby Sample.alice = Some 3000%Z.
Proof.
  destruct (@mark_read_sets_watermark_to_clock
              3000 Sample.aliceSocket Sample.lobby [] Sample.db0
              Sample.lobbyRoom) as [H _];
    try reflexivity; try discriminate.
  exact H.
Defined.

(** C7 as stated fails: marked read at clock [5000] and then at clock
    [3000], Alice's watermark in the lobby is [3000]. *)
Lemma watermark_regresses :
  ~ watermarkNeverRegresses Sample.aliceSocket Sample.lobby Sample.db0
      5000 3000.
Proof.
  intros H. destruct H as (w & Hw & Hle); [lia|].
  vm_compute in Hw. inversion Hw. subst w. lia.
Qed.
End Watermark.

(** ** Direct rooms *)

Section DirectRooms.
Import Room RoomFacts.

Lemma isDirectBetween_sym (a b : string) (r : t) :
  isDirectBetween b a r = isDirectBetween a b r.
Proof.
  unfold isDirectBetween.
  destruct (type r =? "direct"), (isMember r a), (isMember r b); reflexivity.
Qed.

Lemma find_isDirectBetween_sym (a b : string) (c : list t) :
  find (isDirectBetween b a) c = find (isDirectBetween a b) c.
Proof.
  induction c as [|r c IH]; simpl; auto.
  now rewrite isDirectBetween_sym, IH.
Qed.

Lemma find_app_none {D : Type} (p : D -> bool) (c : list D) (d : D) :
  find p c = None -> p d = true -> find p (c ++ [d]) = Some d.
Proof.
  induction c as [|x c IH]; simpl; intros Hn Hd.
  - now rewrite Hd.
  - destruct (p x); [discriminate|auto].
Qed.

(** Once [createDirectRoom] has handed out a room for a pair, it hands out
    that room again, in either order of the pair, and writes nothing. *)
Lemma createDirectRoom_again (now1 now2 : Z) (id1 id2 a b : string)
      (c c1 : list t) (r1 : t) :
  createDirectRoom now1 id1 c a b = Ok (c1, r1) ->
  createDirectRoom now2 id2 c1 a b = Ok (c1, r1)
  /\ createDirectRoom now2 id2 c1 b a = Ok (c1, r1)
  /\ In r1 c1.
Proof.
  unfold createDirectRoom. rewrite (find_isDirectBetween_sym a b c1).
  destruct (find (isDirectBetween a b) c) as [existing|] eqn:E.
  - intros H. inversion H. subst. rewrite E.
    repeat split. now apply find_some in E.
  - intros H. apply room_save_inv in H.
    destruct H as (_ & -> & [(_ & _ & ->) | (Hnew & _)]); [|discriminate].
    match goal with |- context [c ++ [?x]] => set (r1 := x) end.
    assert (find (isDirectBetween a b) (c ++ [r1]) = Some r1) as ->.
    { apply find_app_none; [exact E|].
      unfold isDirectBetween, isMember. simpl.
      now rewrite !String.eqb_refl, orb_true_r. }
    repeat split. apply in_or_app. right. now left.
Qed.

(** When a direct-room request of A for B has been answered with a room, a
    second request of A for B gets the same answer and leaves the database
    as the first left it, and a request of B for A is answered with the
    same room (its id and members), again without a write. *)
Lemma served_direct_room_is_returned_again
        (now1 now2 : Z) (id1 id2 a b : string) (db db1 : Db) (resp1 : Response)
        (requester : User.t) :
  RoomController.createDirectRoom now1 id1 a b db = (db1, resp1) ->
  success resp1 = true ->
  isMongoId a = true ->
  findById User._id a (db_users db) = Some requester ->
  User.isActive requester = true ->
  exists room target,
    In room (db_rooms db1)
    /\ resp1 = mkResponse 200 true "Direct message room created successfully"
                 (DirectRoomData (_id room) (User.username target)
                    (members room))
    /\ RoomController.createDirectRoom now2 id2 a b db1 = (db1, resp1)
    /\ RoomController.createDirectRoom now2 id2 b a db1
       = (db1, mkResponse 200 true "Direct message room created successfully"
                 (DirectRoomData (_id room) (User.username requester)
                    (members room))).
Proof.
  intros H Hok Ha Hreq Hact. destruct db as [us rs ms]. simpl in Hreq.
  unfold RoomController.createDirectRoom, restHandler, bind, ret,
    User_findById, onRooms in H. simpl in H.
  destruct (isMongoId b) eqn:Hb; simpl in H;
    [|inversion H; subst; discriminate].
  destruct (b =? a) eqn:Hba; simpl in H; [inversion H; subst; discriminate|].
  destruct (findById User._id b us) as [target|] eqn:Htarget; simpl in H;
    [|inversion H; subst; discriminate].
  destruct (User.isActive target) eqn:Htact; simpl in H;
    [|inversion H; subst; discriminate].
  destruct (createDirectRoom now1 id1 rs a b) as [[c1 r1]|e] eqn:Hcreate;
    simpl in H; [|inversion H; subst; discriminate].
  inversion H. subst db1 resp1. clear H Hok.
  destruct (@createDirectRoom_again now1 now2 id1 id2 a b _ _ _ Hcreate)
    as (Hab & Hba' & Hin).
  exists r1, target.
  split; [exact Hin|]. split; [reflexivity|].
  unfold RoomController.createDirectRoom.
  rewrite Hb, Ha, (String.eqb_sym a b), Hba.
  unfold restHandler, bind, ret, User_findById, onRooms. simpl.
  rewrite Htarget, Hreq. simpl. rewrite Htact, Hact. simpl.
  rewrite Hab, Hba'. split; reflexivity.
Qed.

(** C5.  Alice asks for a direct room with Bob and gets it.  Her request
    for a direct room with Carol finds no room of the two and builds one;
    the unique index on [(type, members.user)] holds Alice's key already,
    for her room with Bob, and refuses the insert: the answer is 500 and
    nothing is written.  The same request again, and the request of Carol
    for Alice, end the same way: no room of Alice and Carol is ever
    returned or stored. *)
Theorem second_partner_gets_no_direct_room :
  RoomController.createDirectRoom 0 Fixture.chat Sample.alice Sample.bob
    Sample.db0
  = (Fixture.db2,
     mkResponse 200 true "Direct message room created successfully"
       (DirectRoomData Fixture.chat "bob"
          [mkMember Sample.alice "admin" 0 0;
           mkMember Sample.bob "admin" 0 0]))
  /\ RoomController.createDirectRoom 100 "f00000000000000000000001"
       Sample.alice Sample.carol Fixture.db2
     = (Fixture.db2,
        mkResponse 500 false "Failed to create direct message" NoData)
  /\ RoomController.createDirectRoom 200 "f00000000000000000000002"
       Sample.alice Sample.carol Fixture.db2
     = (Fixture.db2,
        mkResponse 500 false "Failed to create direct message" NoData)
  /\ RoomController.createDirectRoom 300 "f00000000000000000000003"
       Sample.carol Sample.alice Fixture.db2
     = (Fixture.db2,
        mkResponse 500 false "Failed to create direct message" NoData)
  /\ find (isDirectBetween Sample.alice Sample.carol) (db_rooms Fixture.db2)
     = None.
Proof. repeat split; vm_compute; reflexivity. Qed.
End DirectRooms.

(** ** Handlers, unfolded *)

Ltac plain x :=
  lazymatch x with
  | context [match _ with _ => _ end] => fail
  | _ => idtac
  end.

Ltac branch :=
  match goal with
  | |- context [match ?x with _ => _ end] => plain x; destruct x eqn:?
  end.

Ltac open_handler :=
  unfold restHandler, socketHandler, socketHandlerWith, bind, ret, error, emit, throw, deref,
    Room_findById, User_findById, Message_findById, onRooms, onUsers,
    onMessages, User_findByIdAndUpdate.

(** ** Rooms: the member limit and the creator *)

Section RoomRules.
Import Room Sample.

(** C2.  Alice creates the room "team" for at most three members, and Bob
    and Carol join: the room is at its limit.  Alice's [updateRoom] with
    [settings.maxMembers = 2] is answered 200 and stores the limit two on
    the room, which keeps its three members; a further user who asks to
    join is then refused by the limit check of [addMember]. *)
Theorem updateRoom_puts_limit_below_members :
  exists room db' room',
    db_rooms Scenario.filled = [room]
    /\ map user (members room) = [alice; bob; carol]
    /\ maxMembers (settings room) = 3
    /\ withinLimit room
    /\ RoomController.updateRoom Scenario.anyURL 40 alice Scenario.team
         None None None (Some Scenario.shrink) Scenario.filled
       = (db', mkResponse 200 true "Room updated successfully"
                 (RoomData room'))
    /\ db_rooms db' = [room']
    /\ map user (members room') = [alice; bob; carol]
    /\ maxMembers (settings room') = 2
    /\ ~ withinLimit room'
    /\ RoomController.joinRoom 50 "dddddddddddddddddddddddd" Scenario.team
         db'
       = (db', RoomController.memberLimitReached).
Proof.
  eexists. eexists. eexists.
  split; [vm_compute; reflexivity|].
  split; [reflexivity|]. split; [reflexivity|].
  split; [unfold withinLimit; simpl; lia|].
  split; [vm_compute; reflexivity|].
  split; [reflexivity|]. split; [reflexivity|]. split; [reflexivity|].
  split; [unfold withinLimit; simpl; lia|].
  vm_compute. reflexivity.
Qed.

(** C6.  In the lobby, created by Alice, Bob is an admin.  His request to
    remove Alice, with her id as a string, is refused, and so is his
    request to set her role, and hers to leave.  With her id as the one
    element of an array the creator guard, which compares with [===], lets
    the request through, and the model method, which compares through
    [toString()], finds her: over REST and over the socket she is removed
    from the members and the room from her joined rooms while she stays
    the creator, and her role is set to "member".  With her id in upper
    case [removeMember] answers 200, rewrites the room with its members as
    they were, and takes the room from her joined rooms. *)
Theorem creator_guard_passes_array_payload :
  let refused m := mkResponse 400 false m NoData in
  let served m := mkResponse 200 true m NoData in
  let withoutAlice :=
    Room.mk lobby "lobby" "" "group" None alice [mkMember bob "admin" 0 0]
      (mkSettings false true 100) None 50 true in
  let demoted :=
    Room.mk lobby "lobby" "" "group" None alice
      [mkMember alice "member" 0 0; mkMember bob "admin" 0 0]
      (mkSettings false true 100) None 50 true in
  let aliceOut := User.mk alice "alice" "online" 0 true [] in
  let users' := [aliceOut; account bob "bob"; account carol "carol"] in
  db_rooms Scenario.promoted
  = [Room.mk lobby "lobby" "" "group" None alice
       [mkMember alice "admin" 0 0; mkMember bob "admin" 0 0]
       (mkSettings false true 100) None 40 true]
  /\ RoomController.removeMember 50 bob lobby (Str alice) Scenario.promoted
     = (Scenario.promoted, refused "Cannot remove room creator")
  /\ RoomController.updateMemberRole 50 bob lobby (Str alice) "member"
       Scenario.promoted
     = (Scenario.promoted, refused "Cannot change creator role")
  /\ RoomController.leaveRoom 50 alice lobby Scenario.promoted
     = (Scenario.promoted,
        refused "Room creator cannot leave the room. Transfer ownership or delete the room instead.")
  /\ RoomController.removeMember 50 bob lobby (Arr alice) Scenario.promoted
     = (mkDb users' [withoutAlice] [hi], served "Member removed successfully")
  /\ ~ creatorIsMember withoutAlice
  /\ RoomHandlers.room_remove_member 50 bobSocket lobby (Arr alice)
       Scenario.promoted
     = (mkDb users' [withoutAlice] [hi],
        [mkEmit (ToRoom lobby) "room:member_removed"
           (PMemberRemoved lobby (Arr alice) "alice" bob "bob");
         mkEmit ToSocket "room:remove_member:success"
           (PRemoveSuccess lobby "alice")])
  /\ RoomController.updateMemberRole 50 bob lobby (Arr alice) "member"
       Scenario.promoted
     = (mkDb (db_users db0) [demoted] [hi],
        served "Member role updated successfully")
  /\ RoomHandlers.room_update_role 50 bobSocket lobby (Arr alice) "member"
       Scenario.promoted
     = (mkDb (db_users db0) [demoted] [hi],
        [mkEmit (ToRoom lobby) "room:role_updated"
           (PRoleUpdated lobby (Arr alice) "alice" "member" bob "bob");
         mkEmit ToSocket "room:update_role:success"
           (PRoleSuccess lobby "alice" "member")])
  /\ RoomController.removeMember 50 bob lobby
       (Str "AAAAAAAAAAAAAAAAAAAAAAAA") Scenario.promoted
     = (mkDb users'
          [Room.mk lobby "lobby" "" "group" None alice
             [mkMember alice "admin" 0 0; mkMember bob "admin" 0 0]
             (mkSettings false true 100) None 50 true] [hi],
        served "Member removed successfully").
Proof.
  cbv zeta. repeat split; try (vm_compute; reflexivity).
  unfold creatorIsMember. vm_compute. discriminate.
Qed.
End RoomRules.

(** * Further properties of the models and handlers *)

(** ** Joining and leaving a room *)

Section JoinLeave.
Import Room RoomFacts.

Lemma isMember_false_findMember (r : t) (u : string) :
  isMember r u = false -> findMember r u = None.
Proof.
  unfold isMember, findMember. intros H.
  destruct (find (fun m => user m =? u) (members r)) as [m|] eqn:E; auto.
  apply find_some in E. destruct E as [Hin Hu].
  assert (existsb (fun m0 => user m0 =? u) (members r) = true) as Hex
      by (apply existsb_exists; eauto).
  congruence.
Qed.

Lemma directKeys_not_direct (r : t) :
  type r <> "direct" -> directKeys r = [].
Proof.
  intros H. unfold directKeys. apply String.eqb_neq in H. now rewrite H.
Qed.

(** A room that is not a direct room has no key in the unique index: only
    the validators can refuse its write. *)
Lemma save_ok_not_direct (now : Z) (c : list t) (r old : t) :
  validate r = true -> findById _id (_id r) c = Some old ->
  type r <> "direct" ->
  save false now c r
  = Ok (replaceById _id (with_lastActivity r now) c, with_lastActivity r now).
Proof.
  intros Hv Hf Ht. unfold save. rewrite Hv. simpl. rewrite Hf.
  change (directKeys (with_lastActivity r now)) with (directKeys r).
  rewrite (directKeys_not_direct _ Ht). simpl.
  now rewrite indexConflict_nil.
Qed.

Lemma validate_with_members (r : t) (ms : list Member) :
  validate r = true ->
  forallb (fun m => includes roleEnum (role m)) ms = true ->
  validate (with_members r ms) = true.
Proof.
  unfold validate. simpl. intros H Hms.
  repeat (apply andb_prop in H; destruct H as [H ?]).
  repeat (apply andb_true_intro; split); auto.
Qed.

Lemma validate_roles (r : t) :
  validate r = true ->
  forallb (fun m => includes roleEnum (role m)) (members r) = true.
Proof.
  unfold validate. intros H.
  repeat (apply andb_prop in H; destruct H as [H ?]). assumption.
Qed.

(** X1.  A room that has reached [maxMembers] takes no further member:
    [addMember] throws the limit error for every user who is not a member,
    and [POST /api/rooms/:roomId/join] answers 400 "Room has reached maximum
    member limit" and writes nothing. *)
Theorem full_room_refuses_join (now : Z) (u roomId : string) (db : Db)
        (room : t) :
  findById _id roomId (db_rooms db) = Some room ->
  isActive room = true -> isPrivate (settings room) = false ->
  isMember room u = false ->
  (maxMembers (settings room) <= Z.of_nat (List.length (members room)))%Z ->
  (forall role', addMember now (db_rooms db) room u role' = Throw MemberLimit)
  /\ RoomController.joinRoom now u roomId db
     = (db, RoomController.memberLimitReached).
Proof.
  intros Hroom Hact Hpriv Hmem Hfull.
  assert (forall role' c, addMember now c room u role' = Throw MemberLimit)
    as Hadd.
  { intros role' c. unfold addMember.
    rewrite (isMember_false_findMember _ _ Hmem).
    assert ((Z.of_nat (List.length (members room))
             >=? maxMembers (settings room))%Z = true) as ->
        by (rewrite Z.geb_leb; apply Z.leb_le; lia).
    reflexivity. }
  split; [intros; apply Hadd|].
  destruct db as [us rs ms]. simpl in Hroom.
  unfold RoomController.joinRoom. open_handler. simpl.
  rewrite Hroom. simpl. rewrite Hact, Hpriv, Hmem. simpl.
  now rewrite Hadd.
Qed.

(** The room [addMember] writes for a user who joins as [role']. *)
Lemma addMember_ok (now : Z) (c : list t) (room old : t) (u role' : string) :
  validate room = true -> includes roleEnum role' = true ->
  findById _id (_id room) c = Some old -> type room <> "direct" ->
  isMember room u = false ->
  (Z.of_nat (List.length (members room)) < maxMembers (settings room))%Z ->
  addMember now c room u role'
  = Ok (replaceById _id
          (with_lastActivity
             (with_members room (members room ++ [mkMember u role' now now]))
             now) c,
        with_lastActivity
          (with_members room (members room ++ [mkMember u role' now now]))
          now).
Proof.
  intros Hv Hrole Hf Ht Hmem Hlt.
  unfold addMember. rewrite (isMember_false_findMember _ _ Hmem).
  assert ((Z.of_nat (List.length (members room))
           >=? maxMembers (settings room))%Z = false) as ->
      by (rewrite Z.geb_leb; apply Z.leb_gt; lia).
  eapply save_ok_not_direct; [|exact Hf|exact Ht].
  apply validate_with_members; [exact Hv|].
  rewrite forallb_app, (validate_roles _ Hv).
  cbn [forallb role andb]. now rewrite Hrole.
Qed.

Lemma joinRoom_accepts (now : Z) (u roomId : string) (db : Db) (room : t) :
  findById _id roomId (db_rooms db) = Some room ->
  isActive room = true -> isPrivate (settings room) = false ->
  isMember room u = false ->
  (Z.of_nat (List.length (members room)) < maxMembers (settings room))%Z ->
  validate room = true -> type room <> "direct" ->
  let room' := with_lastActivity
                 (with_members room
                    (members room ++ [mkMember u "member" now now])) now in
  RoomController.joinRoom now u roomId db
  = (mkDb (User.findByIdAndUpdate u (User.addJoinedRoom roomId)
             (db_users db))
          (replaceById _id room' (db_rooms db)) (db_messages db),
     mkResponse 200 true "Joined room successfully" (RoomData room')).
Proof.
  intros Hroom Hact Hpriv Hmem Hlt Hv Ht room'.
  destruct db as [us rs ms]. simpl in Hroom.
  pose proof (findById_some _ _ _ Hroom) as [_ Hkey].
  assert (findById _id (_id room) rs = Some room) as Hf by now rewrite Hkey.
  unfold RoomController.joinRoom. open_handler. simpl.
  rewrite Hroom. simpl. rewrite Hact, Hpriv, Hmem. simpl.
  rewrite (@addMember_ok now rs room room u "member" Hv eq_refl Hf Ht Hmem
             Hlt).
  simpl. now rewrite Hkey.
Qed.

(** X2.  Joining a public, active room below its limit adds the user at the
    end of the member list with role "member", [joinedAt] and [lastReadAt]
    at the clock of the call, leaves the other members, the creator and the
    settings as they were, and the stored room then has the user as a
    member. *)
Theorem join_adds_member (now : Z) (u roomId : string) (db : Db) (room : t) :
  findById _id roomId (db_rooms db) = Some room ->
  isActive room = true -> isPrivate (settings room) = false ->
  isMember room u = false ->
  (Z.of_nat (List.length (members room)) < maxMembers (settings room))%Z ->
  validate room = true -> type room <> "direct" ->
  exists db' room',
    RoomController.joinRoom now u roomId db
    = (db', mkResponse 200 true "Joined room successfully" (RoomData room'))
    /\ findById _id roomId (db_rooms db') = Some room'
    /\ members room' = members room ++ [mkMember u "member" now now]
    /\ settings room' = settings room /\ creator room' = creator room
    /\ isMember room' u = true
    /\ (forall other, other <> roomId ->
          findById _id other (db_rooms db') = findById _id other (db_rooms db))
    /\ db_messages db' = db_messages db.
Proof.
  intros Hroom Hact Hpriv Hmem Hlt Hv Ht.
  pose proof (@joinRoom_accepts now u roomId db room Hroom Hact Hpriv Hmem Hlt Hv Ht)
    as Hjoin.
  cbv zeta in Hjoin.
  pose proof (findById_some _ _ _ Hroom) as [_ Hkey].
  eexists. eexists. split; [exact Hjoin|]. simpl.
  repeat split.
  - rewrite <- Hkey.
    match goal with
    | |- context [replaceById _id ?r _] =>
        change (_id room) with (_id r); eapply findById_replaceById
    end.
    simpl. rewrite Hkey. exact Hroom.
  - unfold isMember. simpl. rewrite existsb_app. simpl.
    now rewrite String.eqb_refl, orb_true_r.
  - intros other Hother. apply findById_replaceById_other.
    simpl. now rewrite Hkey.
Qed.
End JoinLeave.

Lemma full_room_refuses_join_witness :
  RoomController.joinRoom 50 Sample.carol Fixture.duo Fixture.db1
  = (Fixture.db1, RoomController.memberLimitReached).
Proof.
  apply (@full_room_refuses_join 50 Sample.carol Fixture.duo Fixture.db1
           Fixture.duoRoom); try reflexivity; simpl; lia.
Defined.

Lemma join_adds_member_witness :
  exists db' room',
    RoomController.joinRoom 50 Sample.carol Sample.lobby Fixture.db1
    = (db', mkResponse 200 true "Joined room successfully" (RoomData room'))
    /\ Room.members room'
       = Room.members Sample.lobbyRoom
         ++ [Room.mkMember Sample.carol "member" 50 50].
Proof.
  destruct (@join_adds_member 50 Sample.carol Sample.lobby Fixture.db1
              Sample.lobbyRoom) as (db' & room' & H & _ & Hm & _);
    try reflexivity; try discriminate; try (simpl; lia).
  exists db', room'. split; [exact H|exact Hm].
Defined.

Section LeaveAfterJoin.
Import Room RoomFacts.

Lemma filter_all {A : Type} (p : A -> bool) (l : list A) :
  (forall x, In x l -> p x = true) -> filter p l = l.
Proof.
  induction l as [|x l IH]; simpl; intros H; auto.
  rewrite (H x) by now left. f_equal. apply IH. intros y Hy. apply H.
  now right.
Qed.

Lemma filter_other_members (r : t) (u : string) :
  isMember r u = false ->
  filter (fun m => negb (user m =? u)) (members r) = members r.
Proof.
  intros H. apply filter_all. intros m Hm.
  unfold isMember in H.
  destruct (user m =? u) eqn:E; auto.
  assert (existsb (fun m0 => user m0 =? u) (members r) = true)
    by (apply existsb_exists; eauto).
  congruence.
Qed.

(** X3.  Leaving right after joining gives the room back its member list:
    for a user who was neither a member nor the creator, [joinRoom] followed
    by [leaveRoom] succeeds and the stored room has the members, creator and
    settings it had before the join. *)
Theorem leave_after_join_restores_members
        (now1 now2 : Z) (u roomId : string) (db : Db) (room : t) :
  findById _id roomId (db_rooms db) = Some room ->
  isActive room = true -> isPrivate (settings room) = false ->
  isMember room u = false -> creator room <> u ->
  (Z.of_nat (List.length (members room)) < maxMembers (settings room))%Z ->
  validate room = true -> type room <> "direct" ->
  exists db2 room2,
    RoomController.leaveRoom now2 u roomId
      (fst (RoomController.joinRoom now1 u roomId db))
    = (db2, mkResponse 200 true "Left room successfully" NoData)
    /\ findById _id roomId (db_rooms db2) = Some room2
    /\ members room2 = members room
    /\ creator room2 = creator room /\ settings room2 = settings room
    /\ isMember room2 u = false.
Proof.
  intros Hroom Hact Hpriv Hmem Hcr Hlt Hv Ht.
  rewrite (@joinRoom_accepts now1 u roomId db room Hroom Hact Hpriv Hmem Hlt Hv
             Ht).
  simpl.
  destruct db as [us rs ms]. simpl in *.
  pose proof (findById_some _ _ _ Hroom) as [_ Hkey].
  remember (with_lastActivity
              (with_members room
                 (members room ++ [mkMember u "member" now1 now1])) now1)
    as room1 eqn:Hr1.
  assert (members room1 = members room ++ [mkMember u "member" now1 now1])
    as Hm1 by now rewrite Hr1.
  set (rs1 := replaceById _id room1 rs) in *.
  assert (findById _id roomId rs1 = Some room1) as Hf1.
  { assert (_id room1 = roomId) as <- by (rewrite Hr1; exact Hkey).
    unfold rs1. eapply findById_replaceById. rewrite Hr1. simpl.
    rewrite Hkey. exact Hroom. }
  assert (isMember room1 u = true) as Hin1.
  { unfold isMember. rewrite Hm1, existsb_app. simpl.
    now rewrite String.eqb_refl, orb_true_r. }
  set (gone := with_members room1
                 (filter (fun m => negb (user m =? u)) (members room1))).
  assert (members gone = members room) as Hml.
  { unfold gone. simpl. rewrite Hm1, filter_app. simpl.
    rewrite String.eqb_refl. simpl.
    now rewrite (filter_other_members _ _ Hmem), app_nil_r. }
  assert (validate gone = true) as Hvg.
  { unfold gone. apply validate_with_members.
    - rewrite Hr1.
      change (validate (with_members room
                (members room ++ [mkMember u "member" now1 now1])) = true).
      apply validate_with_members; [exact Hv|].
      rewrite forallb_app, (validate_roles _ Hv). reflexivity.
    - change (forallb (fun m => includes roleEnum (role m)) (members gone)
              = true).
      rewrite Hml. exact (validate_roles _ Hv). }
  assert (_id gone = roomId) as Hkg by (unfold gone; rewrite Hr1; exact Hkey).
  assert (findById _id (_id gone) rs1 = Some room1) as Hfg
      by (rewrite Hkg; exact Hf1).
  assert (type gone <> "direct") as Htg by (unfold gone; rewrite Hr1; exact Ht).
  assert (removeMember now2 rs1 room1 u
          = Ok (replaceById _id (with_lastActivity gone now2) rs1,
                with_lastActivity gone now2)) as Hrm.
  { unfold removeMember. fold gone.
    eapply save_ok_not_direct; [exact Hvg|exact Hfg|exact Htg]. }
  exists (mkDb (User.findByIdAndUpdate u (User.pullJoinedRoom roomId)
                  (User.findByIdAndUpdate u (User.addJoinedRoom roomId) us))
               (replaceById _id (with_lastActivity gone now2) rs1) ms),
         (with_lastActivity gone now2).
  split.
  - unfold RoomController.leaveRoom. open_handler. simpl.
    rewrite Hf1. simpl. rewrite Hin1. simpl.
    assert ((creator room1 =? u) = false) as ->
        by (rewrite Hr1; apply String.eqb_neq; exact Hcr).
    simpl. rewrite Hrm. simpl.
    change (_id room1) with (_id gone). now rewrite Hkg.
  - split.
    + rewrite <- Hkg.
      change (_id gone) with (_id (with_lastActivity gone now2)).
      eapply findById_replaceById. exact Hfg.
    + split; [exact Hml|]. split; [unfold gone; now rewrite Hr1|].
      split; [unfold gone; now rewrite Hr1|].
      unfold isMember.
      change (members (with_lastActivity gone now2)) with (members gone).
      rewrite Hml. exact Hmem.
Qed.

Lemma leave_after_join_witness :
  exists db2 room2,
    RoomController.leaveRoom 60 Sample.carol Sample.lobby
      (fst (RoomController.joinRoom 50 Sample.carol Sample.lobby Fixture.db1))
    = (db2, mkResponse 200 true "Left room successfully" NoData)
    /\ findById Room._id Sample.lobby (db_rooms db2) = Some room2
    /\ members room2 = members Sample.lobbyRoom.
Proof.
  destruct (@leave_after_join_restores_members 50 60 Sample.carol
              Sample.lobby Fixture.db1 Sample.lobbyRoom)
    as (db2 & room2 & H1 & H2 & H3 & _);
    try reflexivity; try discriminate; try (simpl; lia).
  exists db2, room2. split; [exact H1|]. split; [exact H2|exact H3].
Defined.
End LeaveAfterJoin.

(** ** Creating and deleting a room *)

Section RoomLifecycle.
Import Room RoomFacts.

Lemma includes_group_public (ty : option string) :
  optional (includes ["group"; "public"]) ty = true ->
  includes typeEnum (orDefault ty "group") = true
  /\ orDefault ty "group" <> "direct".
Proof.
  destruct ty as [s|]; simpl; [|split; [reflexivity|discriminate]].
  unfold includes. simpl. rewrite !orb_false_r. intros H.
  apply orb_prop in H. destruct H as [H|H]; apply String.eqb_eq in H;
    subst s; split; try reflexivity; discriminate.
Qed.

Lemma maxMembers_capped (mm : option Z) :
  optional RoomController.maxMembersRule mm = true ->
  (2 <= Z.min (orDefault mm 100) 1000 <= 1000)%Z.
Proof.
  destruct mm as [n|]; simpl; [|lia].
  unfold RoomController.maxMembersRule. intros H.
  apply andb_prop in H. destruct H as [H1 H2].
  apply Z.leb_le in H1. apply Z.leb_le in H2. lia.
Qed.

(** X4.  A [POST /api/rooms] request whose body holds a string as name,
    strings as description and type and an integer as limit where it has
    them, all within the rules of the route, is answered 201 when the id is
    fresh: the room is appended to the collection under the trimmed name,
    its creator is its only member and an admin, its limit lies between 2
    and 1000, and the stored rooms are otherwise as before.  (The strings
    are of code units below 256, where the validators, which count code
    points, and the schema, which counts code units, measure alike.) *)
Theorem validated_createRoom_succeeds
        (now : Z) (newId userId name : string)
        (description type : option string) (isPrivate : option bool)
        (maxMembers : option Z) (db : Db) :
  RoomController.createRoomValidation name description type maxMembers = true ->
  findById _id newId (db_rooms db) = None ->
  exists room,
    RoomController.createRoom now newId userId name description type
      isPrivate maxMembers db
    = (mkDb (User.findByIdAndUpdate userId (User.addJoinedRoom newId)
               (db_users db))
            (db_rooms db ++ [room]) (db_messages db),
       mkResponse 201 true "Room created successfully" (RoomData room))
    /\ _id room = newId /\ Room.name room = trim name
    /\ creator room = userId
    /\ members room = [mkMember userId "admin" now now]
    /\ isAdmin room userId = true
    /\ (2 <= Room.maxMembers (settings room) <= 1000)%Z
    /\ isActive room = true /\ validate room = true.
Proof.
  intros Hval Hfresh. destruct db as [us rs ms]. simpl in Hfresh.
  unfold RoomController.createRoomValidation in Hval.
  repeat (apply andb_prop in Hval; destruct Hval as [Hval ?]).
  destruct (includes_group_public _ H0) as [Hty Hnd].
  pose proof (maxMembers_capped _ H) as Hmm.
  set (room := mk newId (trim (trim name))
                 (match option_map trim description with
                  | Some d => trim d
                  | None => ""
                  end)
                 (orDefault type "group") None userId
                 [mkMember userId "admin" now now]
                 (mkSettings (orDefault isPrivate false) true
                    (Z.min (orDefault maxMembers 100) 1000))
                 None now true).
  assert (validate room = true) as Hv.
  { unfold validate, room. cbn [Room.name Room.description Room.type
      Room.members Room.settings Room.maxMembers].
    rewrite trim_idem, Hval, H2, Hty. cbn [andb forallb role].
    assert ((String.length
               (match option_map trim description with
                | Some d => trim d
                | None => ""
                end) <=? 200)%nat = true) as ->.
    { destruct description as [d|]; simpl; [|reflexivity].
      rewrite trim_idem. exact H1. }
    simpl.
    assert ((2 <=? Z.min (orDefault maxMembers 100) 1000)%Z = true) as ->
        by (apply Z.leb_le; lia).
    assert ((Z.min (orDefault maxMembers 100) 1000 <=? 1000)%Z = true) as ->
        by (apply Z.leb_le; lia).
    reflexivity. }
  assert (save true now rs room
          = Ok (rs ++ [with_lastActivity room now],
                with_lastActivity room now)) as Hsave.
  { unfold save. rewrite Hv. simpl negb. cbv iota.
    change (_id room) with newId. rewrite Hfresh.
    assert (directKeys (with_lastActivity room now) = []) as ->
        by (apply directKeys_not_direct; exact Hnd).
    now rewrite indexConflict_nil. }
  exists (with_lastActivity room now). split.
  - unfold RoomController.createRoom.
    unfold RoomController.createRoomValidation.
    rewrite Hval, H2, H1, H0, H. simpl negb. cbv iota.
    open_handler. cbv zeta. cbn [allRooms db_rooms].
    fold room. rewrite Hsave. reflexivity.
  - repeat split; try (simpl; lia); try now rewrite <- Hv.
    + simpl. apply trim_idem.
    + unfold isAdmin, findMember. simpl. now rewrite String.eqb_refl.
Qed.

Lemma includes_pull (roomId : string) (l : list string) :
  includes (filter (fun r => negb (r =? roomId)) l) roomId = false.
Proof.
  unfold includes. induction l as [|x l IH]; simpl; auto.
  destruct (x =? roomId) eqn:E; simpl; auto.
  rewrite String.eqb_sym, E. exact IH.
Qed.

Lemma deleteRoom_accepts (now : Z) (roomId : string) (db : Db) (room : t) :
  findById _id roomId (db_rooms db) = Some room ->
  validate room = true ->
  let closed := with_lastActivity (with_isActive room false) now in
  RoomController.deleteRoom now (creator room) roomId db
  = (mkDb (map (User.pullJoinedRoom roomId) (db_users db))
          (replaceById _id closed (db_rooms db)) (db_messages db),
     mkResponse 200 true "Room deleted successfully" NoData)
  /\ findById _id roomId (replaceById _id closed (db_rooms db)) = Some closed.
Proof.
  intros Hroom Hv closed. destruct db as [us rs ms]. simpl in Hroom.
  pose proof (findById_some _ _ _ Hroom) as [_ Hkey].
  assert (save false now rs (with_isActive room false)
          = Ok (replaceById _id closed rs, closed)) as Hsave.
  { apply (@save_ok_same_keys now rs (with_isActive room false) room);
      [exact Hv| |reflexivity].
    simpl. rewrite Hkey. exact Hroom. }
  split.
  - unfold RoomController.deleteRoom. open_handler. simpl.
    rewrite Hroom. simpl. rewrite String.eqb_refl. simpl.
    rewrite Hsave. reflexivity.
  - simpl. rewrite <- Hkey. change (_id room) with (_id closed).
    eapply findById_replaceById. simpl. rewrite Hkey. exact Hroom.
Qed.

(** X5.  [DELETE /api/rooms/:roomId] by the creator keeps the document and
    its members, marks it inactive and takes the room out of every user's
    [joinedRooms]; from then on [POST /api/rooms/:roomId/join] answers 404
    for every user and writes nothing. *)
Theorem deleted_room_is_closed_to_joiners
        (now : Z) (roomId : string) (db : Db) (room : t) :
  findById _id roomId (db_rooms db) = Some room ->
  validate room = true ->
  exists db' room',
    RoomController.deleteRoom now (creator room) roomId db
    = (db', mkResponse 200 true "Room deleted successfully" NoData)
    /\ findById _id roomId (db_rooms db') = Some room'
    /\ isActive room' = false /\ members room' = members room
    /\ Forall (fun usr => includes (User.joinedRooms usr) roomId = false)
              (db_users db')
    /\ db_messages db' = db_messages db
    /\ forall now' u,
        RoomController.joinRoom now' u roomId db'
        = (db', mkResponse 404 false "Room not found" NoData).
Proof.
  intros Hroom Hv.
  destruct (@deleteRoom_accepts now roomId db room Hroom Hv) as [Hdel Hf].
  eexists. eexists. split; [exact Hdel|]. split; [exact Hf|].
  split; [reflexivity|]. split; [reflexivity|]. split.
  - simpl. apply Forall_forall. intros usr Hin.
    apply in_map_iff in Hin. destruct Hin as (usr0 & <- & _).
    simpl. apply includes_pull.
  - split; [reflexivity|]. intros now' u.
    unfold RoomController.joinRoom. open_handler. simpl.
    simpl in Hf. rewrite Hf. reflexivity.
Qed.

(** X6.  Managing a room takes an admin: for a user who is not an admin of
    the room (not a member, or a member whose role is not "admin" and who is
    not the creator), the requests that change the room's profile, remove a
    member or change a role are refused, over REST with 403 and over the
    socket with an error event, and write nothing. *)
Theorem management_needs_admin
        (isURL : string -> bool) (roomId u : string) (db : Db) (room : t) :
  roomId <> "" ->
  findById _id roomId (db_rooms db) = Some room ->
  isAdmin room u = false ->
  (forall now name description avatar settings,
      RoomController.updateRoomValidation isURL name description avatar
        settings = true ->
      RoomController.updateRoom isURL now u roomId name description avatar
        settings db
      = (db, mkResponse 403 false "Admin privileges required" NoData))
  /\ (forall now (target : Field),
        RoomController.removeMember now u roomId target db
        = (db, mkResponse 403 false "Admin privileges required" NoData))
  /\ (forall now (target : Field) newRole,
        RoomController.updateRoleValidation target newRole = true ->
        RoomController.updateMemberRole now u roomId target newRole db
        = (db, mkResponse 403 false "Admin privileges required" NoData))
  /\ (forall now name (target : Field),
        falsyField target = false ->
        RoomHandlers.room_remove_member now (mkSocket u name) roomId target db
        = (db, [mkEmit ToSocket "error"
                  (PError "Admin privileges required")]))
  /\ (forall now name (target : Field) newRole,
        falsyField target = false -> includes roleEnum newRole = true ->
        RoomHandlers.room_update_role now (mkSocket u name) roomId target
          newRole db
        = (db, [mkEmit ToSocket "error"
                  (PError "Admin privileges required")])).
Proof.
  intros Hid Hroom Hadm. destruct db as [us rs ms]. simpl in Hroom.
  repeat split.
  - intros now name description avatar settings Hval.
    unfold RoomController.updateRoom. rewrite Hval. simpl negb. cbv iota.
    open_handler. simpl. rewrite Hroom. simpl. now rewrite Hadm.
  - intros now target.
    unfold RoomController.removeMember. open_handler. simpl.
    rewrite Hroom. simpl. now rewrite Hadm.
  - intros now target newRole Hval.
    unfold RoomController.updateMemberRole. rewrite Hval. simpl negb.
    cbv iota. open_handler. simpl. rewrite Hroom. simpl. now rewrite Hadm.
  - intros now name target Ht.
    unfold RoomHandlers.room_remove_member.
    rewrite (falsy_false Hid), Ht. simpl orb. cbv iota.
    open_handler. simpl. rewrite Hroom. simpl. now rewrite Hadm.
  - intros now name target newRole Ht Hrole.
    unfold RoomHandlers.room_update_role.
    assert (newRole <> "") as Hnr by (intros ->; discriminate).
    rewrite (falsy_false Hid), Ht, (falsy_false Hnr).
    simpl orb. cbv iota.
    change ["admin"; "moderator"; "member"] with roleEnum.
    rewrite Hrole. simpl negb. cbv iota.
    open_handler. simpl. rewrite Hroom. simpl. now rewrite Hadm.
Qed.
End RoomLifecycle.

Lemma validated_createRoom_witness :
  exists room,
    snd (RoomController.createRoom 100 "d00000000000000000000009"
           Sample.alice " team " None None None (Some 500%Z) Sample.db0)
    = mkResponse 201 true "Room created successfully" (RoomData room)
    /\ Room.name room = "team"
    /\ Room.members room = [Room.mkMember Sample.alice "admin" 100 100].
Proof.
  destruct (@validated_createRoom_succeeds 100 "d00000000000000000000009"
              Sample.alice " team " None None None (Some 500%Z) Sample.db0)
    as (room & H & _ & Hn & _ & Hm & _); try reflexivity.
  exists room. rewrite H. split; [reflexivity|].
  split; [exact Hn|exact Hm].
Defined.

Lemma deleted_room_witness :
  exists db',
    RoomController.deleteRoom 70 Sample.alice Sample.lobby Sample.db0
    = (db', mkResponse 200 true "Room deleted successfully" NoData)
    /\ RoomController.joinRoom 80 Sample.carol Sample.lobby db'
       = (db', mkResponse 404 false "Room not found" NoData).
Proof.
  destruct (@deleted_room_is_closed_to_joiners 70 Sample.lobby Sample.db0
              Sample.lobbyRoom)
    as (db' & room' & H & _ & _ & _ & _ & _ & Hjoin); try reflexivity.
  exists db'. split; [exact H|apply Hjoin].
Defined.

Lemma management_needs_admin_witness :
  RoomController.removeMember 10 Sample.bob Sample.lobby (Str Sample.alice)
    Sample.db0
  = (Sample.db0, mkResponse 403 false "Admin privileges required" NoData).
Proof.
  assert (Sample.lobby <> "") as Hid by discriminate.
  exact (proj1 (proj2 (@management_needs_admin (fun _ => true) Sample.lobby
                         Sample.bob Sample.db0 Sample.lobbyRoom Hid eq_refl
                         eq_refl))
           10%Z (Str Sample.alice)).
Defined.

(** ** Direct rooms and the unique index *)

Section DirectRooms.
Import Room RoomFacts.

Lemma includes_directKeys (r : t) (k : string) :
  includes (directKeys r) k = (type r =? "direct") && isMember r k.
Proof.
  unfold directKeys, includes, isMember.
  destruct (type r =? "direct"); simpl; [|reflexivity].
  induction (members r) as [|m ms IH]; simpl; [reflexivity|].
  now rewrite IH, String.eqb_sym.
Qed.

Lemma indexConflict_false (c : list t) (keys : list string) :
  (forall r k, In r c -> In k keys -> type r = "direct" ->
               isMember r k = false) ->
  indexConflict c keys = false.
Proof.
  intros H. unfold indexConflict.
  destruct (existsb _ c) eqn:E; [|reflexivity].
  apply existsb_exists in E. destruct E as (r & Hr & E).
  apply existsb_exists in E. destruct E as (k & Hk & E).
  rewrite includes_directKeys in E. apply andb_prop in E.
  destruct E as [Ht Hm]. apply String.eqb_eq in Ht.
  rewrite (H r k Hr Hk Ht) in Hm. discriminate.
Qed.

Lemma indexConflict_true (c : list t) (keys : list string) (r : t)
      (k : string) :
  In r c -> In k keys -> type r = "direct" -> isMember r k = true ->
  indexConflict c keys = true.
Proof.
  intros Hr Hk Ht Hm. unfold indexConflict.
  apply existsb_exists. exists r. split; [exact Hr|].
  apply existsb_exists. exists k. split; [exact Hk|].
  rewrite includes_directKeys, Hm. apply String.eqb_eq in Ht.
  now rewrite Ht.
Qed.

Lemma find_none_forall {A : Type} (p : A -> bool) (l : list A) :
  (forall x, In x l -> p x = false) -> find p l = None.
Proof.
  induction l as [|x l IH]; simpl; intros H; [reflexivity|].
  rewrite (H x) by now left. apply IH. intros y Hy. apply H. now right.
Qed.

(** X7.  When neither user is in a direct room yet, [POST /api/rooms/direct]
    creates one: a private room of type "direct" with the two users as
    admins and a limit of two.  That room takes no third member: [addMember]
    throws for every user, whatever the collection. *)
Theorem new_direct_room_is_closed
        (now : Z) (newId a b : string) (db : Db) (target : User.t) :
  isMongoId b = true -> b <> a ->
  findById User._id b (db_users db) = Some target ->
  User.isActive target = true ->
  findById _id newId (db_rooms db) = None ->
  (forall r, In r (db_rooms db) -> type r = "direct" ->
             isMember r a = false /\ isMember r b = false) ->
  RoomController.createDirectRoom now newId a b db
  = (mkDb (db_users db) (db_rooms db ++ [directRoomOf now newId a b])
          (db_messages db),
     mkResponse 200 true "Direct message room created successfully"
       (DirectRoomData newId (User.username target)
          [mkMember a "admin" now now; mkMember b "admin" now now]))
  /\ (forall now' c u role',
        addMember now' c (directRoomOf now newId a b) u role'
        = Throw AlreadyMember
        \/ addMember now' c (directRoomOf now newId a b) u role'
           = Throw MemberLimit).
Proof.
  intros Hid Hneq Htarget Hact Hfresh Hnone.
  destruct db as [us rs ms]. simpl in *. split.
  - assert (createDirectRoom now newId rs a b
            = Ok (rs ++ [directRoomOf now newId a b],
                  directRoomOf now newId a b)) as Hcreate.
    { unfold createDirectRoom.
      rewrite find_none_forall.
      - fold (directRoomOf now newId a b). unfold save.
        change (validate (directRoomOf now newId a b)) with true.
        simpl negb. cbv iota.
        change (_id (directRoomOf now newId a b)) with newId.
        rewrite Hfresh.
        rewrite indexConflict_false; [reflexivity|].
        intros r k Hr Hk Ht. destruct (Hnone r Hr Ht) as [Ha Hb].
        simpl in Hk. destruct Hk as [<-|[<-|[]]]; assumption.
      - intros r Hr. unfold isDirectBetween.
        destruct (type r =? "direct") eqn:Ht; [|reflexivity].
        apply String.eqb_eq in Ht. destruct (Hnone r Hr Ht) as [Ha _].
        now rewrite Ha. }
    unfold RoomController.createDirectRoom. rewrite Hid. simpl negb.
    cbv iota. apply String.eqb_neq in Hneq. rewrite Hneq.
    open_handler. simpl. rewrite Htarget. simpl. rewrite Hact. simpl.
    rewrite Hcreate. reflexivity.
  - intros now' c u role'. unfold addMember.
    destruct (findMember _ u); [now left|now right].
Qed.

(** X8.  The unique index on [(type, members.user)] of direct rooms holds one
    key per member, so a user who is in a direct room cannot get a second
    one: asking for a direct room with somebody else is answered 500, and
    nothing is written. *)
Theorem second_direct_room_is_refused
        (now : Z) (newId a b : string) (db : Db) (target : User.t)
        (held : t) :
  isMongoId b = true -> b <> a ->
  findById User._id b (db_users db) = Some target ->
  User.isActive target = true ->
  findById _id newId (db_rooms db) = None ->
  In held (db_rooms db) -> type held = "direct" ->
  isMember held a = true \/ isMember held b = true ->
  (forall r, In r (db_rooms db) -> isDirectBetween a b r = false) ->
  RoomController.createDirectRoom now newId a b db
  = (db, mkResponse 500 false "Failed to create direct message" NoData).
Proof.
  intros Hid Hneq Htarget Hact Hfresh Hheld Ht Hmem Hnone.
  destruct db as [us rs ms]. simpl in *.
  assert (createDirectRoom now newId rs a b = Throw DuplicateKey) as Hcreate.
  { unfold createDirectRoom. rewrite (find_none_forall _ _ Hnone).
    fold (directRoomOf now newId a b). unfold save.
    change (validate (directRoomOf now newId a b)) with true.
    simpl negb. cbv iota.
    change (_id (directRoomOf now newId a b)) with newId.
    rewrite Hfresh.
    destruct Hmem as [Hm|Hm].
    - rewrite (@indexConflict_true rs _ held a); auto. simpl. auto.
    - rewrite (@indexConflict_true rs _ held b); auto. simpl. auto. }
  unfold RoomController.createDirectRoom. rewrite Hid. simpl negb.
  cbv iota. apply String.eqb_neq in Hneq. rewrite Hneq.
  open_handler. simpl. rewrite Htarget. simpl. rewrite Hact. simpl.
  rewrite Hcreate. reflexivity.
Qed.
End DirectRooms.

Lemma new_direct_room_witness :
  RoomController.createDirectRoom 100 "f00000000000000000000001" Sample.alice
    Sample.carol Sample.db0
  = (mkDb (db_users Sample.db0)
          (db_rooms Sample.db0
           ++ [directRoomOf 100 "f00000000000000000000001" Sample.alice
                 Sample.carol])
          (db_messages Sample.db0),
     mkResponse 200 true "Direct message room created successfully"
       (DirectRoomData "f00000000000000000000001" "carol"
          [Room.mkMember Sample.alice "admin" 100 100;
           Room.mkMember Sample.carol "admin" 100 100])).
Proof.
  assert (Sample.carol <> Sample.alice) as Hneq by discriminate.
  assert (forall r, In r (db_rooms Sample.db0) -> Room.type r = "direct" ->
                    Room.isMember r Sample.alice = false
                    /\ Room.isMember r Sample.carol = false) as Hnone.
  { intros r [<-|[]] Ht. discriminate. }
  exact (proj1 (@new_direct_room_is_closed 100 "f00000000000000000000001"
                  Sample.alice Sample.carol Sample.db0
                  (Sample.account Sample.carol "carol")
                  eq_refl Hneq eq_refl eq_refl eq_refl Hnone)).
Defined.

Lemma second_direct_room_witness :
  RoomController.createDirectRoom 100 "f00000000000000000000001" Sample.alice
    Sample.carol Fixture.db2
  = (Fixture.db2,
     mkResponse 500 false "Failed to create direct message" NoData).
Proof.
  assert (Sample.carol <> Sample.alice) as Hneq by discriminate.
  assert (In Fixture.chatRoom (db_rooms Fixture.db2)) as Hin
      by (simpl; auto).
  assert (forall r, In r (db_rooms Fixture.db2) ->
                    Room.isDirectBetween Sample.alice Sample.carol r = false)
    as Hnone.
  { intros r [<-|[<-|[]]]; reflexivity. }
  exact (@second_direct_room_is_refused 100 "f00000000000000000000001"
           Sample.alice Sample.carol Fixture.db2
           (Sample.account Sample.carol "carol") Fixture.chatRoom
           eq_refl Hneq eq_refl eq_refl eq_refl Hin eq_refl
           (or_introl eq_refl) Hnone).
Defined.

(** ** Sending a message *)

Section Sending.
Import Message.

Lemma length_string_of_list_ascii (l : list ascii) :
  String.length (string_of_list_ascii l) = List.length l.
Proof. induction l; simpl; congruence. Qed.

Lemma length_list_ascii_of_string (s : string) :
  List.length (list_ascii_of_string s) = String.length s.
Proof. induction s; simpl; congruence. Qed.

Lemma dropWhile_length_le {A : Type} (p : A -> bool) (l : list A) :
  (List.length (dropWhile p l) <= List.length l)%nat.
Proof.
  induction l as [|x l IH]; simpl; [lia|]. destruct (p x); simpl; lia.
Qed.

Lemma trim_length_le (s : string) :
  (String.length (trim s) <= String.length s)%nat.
Proof.
  unfold trim, trimList.
  rewrite length_string_of_list_ascii, length_rev.
  etransitivity; [apply dropWhile_length_le|].
  rewrite length_rev.
  etransitivity; [apply dropWhile_length_le|].
  now rewrite length_list_ascii_of_string.
Qed.

Lemma trim_nonempty (s : string) : trim s <> "" -> s <> "".
Proof. intros H ->. now apply H. Qed.

(** The message [message:send] makes. *)
Lemma message_send_accepts
      (now : Z) (newId : string) (socket : Socket) (roomId content : string)
      (type : option string) (tempId : string) (db : Db) (room : Room.t) :
  roomId <> "" -> trim content <> "" ->
  (String.length content <= 2000)%nat ->
  optional (includes typeEnum) type = true ->
  findById Room._id roomId (db_rooms db) = Some room ->
  Room.isMember room (userId socket) = true -> Room.validate room = true ->
  findById _id newId (db_messages db) = None ->
  let msg := mk newId (trim content) (Unpopulated (userId socket)) roomId
                (orDefault type "text") None [] [] [] false None None now in
  let room' := Room.with_lastActivity (Room.with_lastMessage room newId) now in
  ChatHandlers.message_send now newId socket roomId content type tempId db
  = (mkDb (db_users db) (replaceById Room._id room' (db_rooms db))
          (db_messages db ++ [msg]),
     [mkEmit (ToRoom roomId) "message:new" (PMessage msg);
      mkEmit ToSocket "message:sent" (PMessageSent tempId msg)]).
Proof.
  intros Hid Hc Hlen Hty Hroom Hmem Hv Hfresh msg room'.
  destruct db as [us rs ms]. simpl in Hroom, Hfresh.
  pose proof (findById_some _ _ _ Hroom) as [_ Hkey].
  assert (insert ms msg = Ok (ms ++ [msg], msg)) as Hins.
  { unfold insert, validate.
    change (Message.content msg) with (trim content).
    change (Message.type msg) with (orDefault type "text").
    apply String.eqb_neq in Hc. rewrite Hc.
    assert ((String.length (trim content) <=? 2000)%nat = true) as ->.
    { apply Nat.leb_le. pose proof (trim_length_le content). lia. }
    assert (includes typeEnum (orDefault type "text") = true) as ->
        by (destruct type; [exact Hty|reflexivity]).
    simpl negb. cbv iota. change (_id msg) with newId. rewrite Hfresh.
    reflexivity. }
  assert (Room.save false now rs
            (Room.with_lastActivity (Room.with_lastMessage room newId) now)
          = Ok (replaceById Room._id room' rs, room')) as Hsave.
  { assert (findById Room._id
              (Room._id (Room.with_lastActivity
                           (Room.with_lastMessage room newId) now)) rs
            = Some room) as Hf by (simpl; rewrite Hkey; exact Hroom).
    exact (@RoomFacts.save_ok_same_keys now rs
             (Room.with_lastActivity (Room.with_lastMessage room newId) now)
             room Hv Hf eq_refl). }
  unfold ChatHandlers.message_send.
  rewrite (falsy_false Hid), (falsy_false (trim_nonempty Hc)).
  rewrite length_zero_empty.
  assert ((trim content =? "") = false) as -> by now apply String.eqb_neq.
  assert ((2000 <? String.length content)%nat = false) as ->
      by (apply Nat.ltb_ge; lia).
  simpl orb. cbv iota.
  open_handler. cbn [allRooms allMessages allUsers emitted db_rooms
                       db_users db_messages].
  rewrite Hroom. cbv iota beta. rewrite Hmem. cbn [negb]. cbv iota beta.
  cbn [allRooms allMessages allUsers emitted].
  fold msg. rewrite Hins. cbv iota beta.
  cbn [allRooms allMessages allUsers emitted].
  change (_id msg) with newId. rewrite Hsave. reflexivity.
Qed.

(** X9.  A member's [message:send] with content that is not blank and at
    most 2000 characters long stores one message more, with the trimmed
    content, the sender and the room of the request and no reactions or
    receipts; the room's [lastMessage] points at it; the room is sent
    [message:new] and the sender [message:sent], and nothing else. *)
Theorem sent_message_is_stored_and_announced
        (now : Z) (newId : string) (socket : Socket)
        (roomId content : string) (type : option string) (tempId : string)
        (db : Db) (room : Room.t) :
  roomId <> "" -> trim content <> "" ->
  (String.length content <= 2000)%nat ->
  optional (includes typeEnum) type = true ->
  findById Room._id roomId (db_rooms db) = Some room ->
  Room.isMember room (userId socket) = true -> Room.validate room = true ->
  findById _id newId (db_messages db) = None ->
  exists db' out msg room',
    ChatHandlers.message_send now newId socket roomId content type tempId db
    = (db', out)
    /\ db_messages db' = db_messages db ++ [msg]
    /\ _id msg = newId /\ Message.content msg = trim content
    /\ refId (sender msg) = userId socket /\ Message.room msg = roomId
    /\ createdAt msg = now /\ isDeleted msg = false
    /\ reactions msg = [] /\ readBy msg = []
    /\ findById Room._id roomId (db_rooms db') = Some room'
    /\ Room.lastMessage room' = Some newId
    /\ Room.members room' = Room.members room
    /\ map (fun e => (dest e, event e)) out
       = [(ToRoom roomId, "message:new"); (ToSocket, "message:sent")].
Proof.
  intros Hid Hc Hlen Hty Hroom Hmem Hv Hfresh.
  pose proof (@message_send_accepts now newId socket roomId content type
                tempId db room Hid Hc Hlen Hty Hroom Hmem Hv Hfresh) as H.
  cbv zeta in H.
  pose proof (findById_some _ _ _ Hroom) as [_ Hkey].
  do 4 eexists. split; [exact H|].
  cbn [db_messages db_rooms]. split; [reflexivity|].
  repeat (split; [reflexivity|]).
  split.
  - rewrite <- Hkey.
    match goal with
    | |- context [replaceById Room._id ?r _] =>
        change (Room._id room) with (Room._id r);
        eapply findById_replaceById
    end.
    simpl. rewrite Hkey. exact Hroom.
  - repeat split.
Qed.

(** X10.  [message:send] does not look at [isActive]: after the creator has
    deleted a room, its members still send messages to it, which are stored
    and announced like any other. *)
Theorem deleted_room_still_takes_messages
        (now1 now2 : Z) (newId : string) (socket : Socket)
        (roomId content tempId : string) (db : Db) (room : Room.t) :
  roomId <> "" -> trim content <> "" ->
  (String.length content <= 2000)%nat ->
  findById Room._id roomId (db_rooms db) = Some room ->
  Room.isMember room (userId socket) = true -> Room.validate room = true ->
  findById _id newId (db_messages db) = None ->
  exists db1 db2 msg closed,
    RoomController.deleteRoom now1 (Room.creator room) roomId db
    = (db1, mkResponse 200 true "Room deleted successfully" NoData)
    /\ findById Room._id roomId (db_rooms db1) = Some closed
    /\ Room.isActive closed = false
    /\ ChatHandlers.message_send now2 newId socket roomId content None tempId
         db1
       = (db2, [mkEmit (ToRoom roomId) "message:new" (PMessage msg);
                mkEmit ToSocket "message:sent" (PMessageSent tempId msg)])
    /\ db_messages db2 = db_messages db ++ [msg]
    /\ Message.content msg = trim content /\ Message.room msg = roomId.
Proof.
  intros Hid Hc Hlen Hroom Hmem Hv Hfresh.
  destruct (@deleteRoom_accepts now1 roomId db room Hroom Hv)
    as [Hdel Hf].
  set (closed := Room.with_lastActivity (Room.with_isActive room false) now1)
    in *.
  set (db1 := mkDb (map (User.pullJoinedRoom roomId) (db_users db))
                (replaceById Room._id closed (db_rooms db)) (db_messages db))
    in *.
  pose proof (@message_send_accepts now2 newId socket roomId content None
                tempId db1 closed Hid Hc Hlen eq_refl Hf Hmem Hv Hfresh)
    as Hsend.
  cbv zeta in Hsend.
  exists db1. do 2 eexists. exists closed.
  split; [exact Hdel|]. split; [exact Hf|].
  split; [reflexivity|]. split; [exact Hsend|].
  cbn [db_messages]. repeat split.
Qed.
End Sending.

Lemma sent_message_witness :
  exists db' out msg,
    ChatHandlers.message_send 2000 "e00000000000000000000009"
      Sample.bobSocket Sample.lobby "  hey " None "t1" Sample.db0
    = (db', out)
    /\ db_messages db' = db_messages Sample.db0 ++ [msg]
    /\ Message.content msg = "hey".
Proof.
  assert (Sample.lobby <> "") as Hid by discriminate.
  assert (trim "  hey " <> "") as Hc by discriminate.
  assert (String.length "  hey " <= 2000)%nat as Hlen by (simpl; lia).
  destruct (@sent_message_is_stored_and_announced 2000
              "e00000000000000000000009" Sample.bobSocket Sample.lobby
              "  hey " None "t1" Sample.db0 Sample.lobbyRoom
              Hid Hc Hlen eq_refl eq_refl eq_refl eq_refl eq_refl)
    as (db' & out & msg & room' & H & Hms & _ & Hcontent & _).
  exists db', out, msg. split; [exact H|]. split; [exact Hms|exact Hcontent].
Defined.

Lemma deleted_room_still_takes_messages_witness :
  exists db1 db2 msg,
    RoomController.deleteRoom 70 Sample.alice Sample.lobby Sample.db0
    = (db1, mkResponse 200 true "Room deleted successfully" NoData)
    /\ ChatHandlers.message_send 80 "e00000000000000000000009"
         Sample.bobSocket Sample.lobby "hey" None "t1" db1
       = (db2, [mkEmit (ToRoom Sample.lobby) "message:new" (PMessage msg);
                mkEmit ToSocket "message:sent" (PMessageSent "t1" msg)])
    /\ db_messages db2 = db_messages Sample.db0 ++ [msg].
Proof.
  assert (Sample.lobby <> "") as Hid by discriminate.
  assert (trim "hey" <> "") as Hc by discriminate.
  assert (String.length "hey" <= 2000)%nat as Hlen by (simpl; lia).
  destruct (@deleted_room_still_takes_messages 70 80
              "e00000000000000000000009" Sample.bobSocket Sample.lobby
              "hey" "t1" Sample.db0 Sample.lobbyRoom
              Hid Hc Hlen eq_refl eq_refl eq_refl eq_refl)
    as (db1 & db2 & msg & closed & Hdel & _ & _ & Hsend & Hms & _).
  exists db1, db2, msg. split; [exact Hdel|]. split; [exact Hsend|exact Hms].
Defined.

Section SendingGuards.
Import Message.

(** X11.  Whatever the request, [message:send] leaves the stored messages as
    they are or appends one; when it appends, the room of the request
    exists, the sender is a member of it, and the stored content is the
    trimmed content of the request, not blank and at most 2000 characters
    long. *)
Theorem only_members_store_messages
        (now : Z) (newId : string) (socket : Socket)
        (roomId content : string) (type : option string) (tempId : string)
        (db : Db) :
  let db' := fst (ChatHandlers.message_send now newId socket roomId content
                    type tempId db) in
  db_messages db' = db_messages db
  \/ exists room msg,
      findById Room._id roomId (db_rooms db) = Some room
      /\ Room.isMember room (userId socket) = true
      /\ db_messages db' = db_messages db ++ [msg]
      /\ _id msg = newId /\ Message.room msg = roomId
      /\ refId (sender msg) = userId socket
      /\ Message.content msg = trim content
      /\ trim content <> ""
      /\ (String.length (trim content) <= 2000)%nat.
Proof.
  destruct db as [us rs ms]. cbv zeta.
  unfold ChatHandlers.message_send.
  destruct (falsy roomId || falsy content
            || (String.length (trim content) =? 0)%nat) eqn:Hblank;
    [left; reflexivity|].
  destruct (2000 <? String.length content)%nat eqn:Hlong;
    [left; reflexivity|].
  open_handler. cbn [allRooms allMessages allUsers emitted db_rooms
                       db_users db_messages].
  destruct (findById Room._id roomId rs) as [room|] eqn:Hroom;
    [|left; reflexivity].
  destruct (Room.isMember room (userId socket)) eqn:Hmem;
    [|left; reflexivity].
  cbn [negb]. cbv iota beta.
  cbn [allRooms allMessages allUsers emitted].
  match goal with
  | |- context [insert ms ?m] => set (msg := m)
  end.
  unfold insert.
  destruct (validate msg && includes typeEnum (Message.type msg)) eqn:Hv;
    [|left; reflexivity].
  cbn [negb]. cbv iota.
  destruct (findById _id (_id msg) ms); [left; reflexivity|].
  right. exists room, msg.
  apply andb_prop in Hv. destruct Hv as [Hv _].
  unfold validate in Hv. apply andb_prop in Hv. destruct Hv as [Hne Hle].
  change (Message.content msg) with (trim content) in Hne, Hle.
  repeat split; try reflexivity; try exact Hmem; try exact Hroom.
  - cbv iota beta. cbn [allRooms allMessages allUsers emitted].
    match goal with
    | |- context [Room.save false now rs ?r] =>
        destruct (Room.save false now rs r) as [[c a1]|e]
    end; reflexivity.
  - apply negb_true_iff in Hne. now apply String.eqb_neq.
  - now apply Nat.leb_le.
Qed.
End SendingGuards.

(** ** Deleting a message *)

Section Deleting.
Import Message MessageFacts.

(** The document [softDelete] saves. *)
Lemma softDelete_ok (now : Z) (c : list t) (m : t) (u : string) :
  findById _id (_id m) c = Some m ->
  exists m' stored,
    softDelete now c m u = Ok (replaceById _id stored c, m')
    /\ findById _id (_id m) (replaceById _id stored c) = Some stored
    /\ _id m' = _id m /\ Message.room m' = Message.room m
    /\ deletedAt m' = Some now
    /\ content stored = deletedText /\ isDeleted stored = true
    /\ deletedAt stored = Some now /\ deletedBy stored = Some u
    /\ editHistory stored = editHistory m
    /\ reactionSets stored = reactionSets m
    /\ readBy stored = readBy m
    /\ refId (sender stored) = refId (sender m)
    /\ createdAt stored = createdAt m.
Proof.
  intros Hf. unfold softDelete.
  set (gone := mk (_id m) deletedText (sender m) (Message.room m)
                 (Message.type m) (editedAt m) (editHistory m) (reactions m)
                 (readBy m) true (Some now) (Some u) (createdAt m)).
  exists (preSave gone), (written gone). split.
  - apply (@message_save_ok c gone m); [reflexivity|exact Hf].
  - split.
    + apply (@written_found c gone m). exact Hf.
    + repeat split.
      rewrite reactionSets_written. reflexivity.
Qed.

(** X12.  [DELETE /api/messages/:messageId] by the sender, or by an admin of
    the message's room, replaces the content by the placeholder and records
    who deleted the message and when, and keeps the edit history (the
    earlier contents), the reaction sets and the receipts as they were; the
    same request afterwards is answered 404 and writes nothing. *)
Theorem rest_delete_redacts_content_only
        (now : Z) (u messageId : string) (db : Db) (m : t) :
  findById _id messageId (db_messages db) = Some m ->
  isDeleted m = false ->
  rendersAs (sender m) u = true
  \/ (exists room,
        findById Room._id (Message.room m) (db_rooms db) = Some room
        /\ Room.isAdmin room u = true) ->
  exists db' stored,
    MessageController.deleteMessage now u messageId db
    = (db', mkResponse 200 true "Message deleted successfully" NoData)
    /\ findById _id messageId (db_messages db') = Some stored
    /\ content stored = deletedText /\ isDeleted stored = true
    /\ deletedAt stored = Some now /\ deletedBy stored = Some u
    /\ editHistory stored = editHistory m
    /\ reactionSets stored = reactionSets m
    /\ readBy stored = readBy m
    /\ refId (sender stored) = refId (sender m)
    /\ db_rooms db' = db_rooms db /\ db_users db' = db_users db
    /\ forall now' u',
        MessageController.deleteMessage now' u' messageId db'
        = (db', mkResponse 404 false "Message not found" NoData).
Proof.
  intros Hm Hlive Hmay. destruct db as [us rs ms]. simpl in *.
  pose proof (findById_some _ _ _ Hm) as [_ Hkey].
  assert (findById _id (_id m) ms = Some m) as Hf by now rewrite Hkey.
  destruct (@softDelete_ok now ms m u Hf)
    as (m' & stored & Hdel & Hstored & _ & _ & _ & Hc & Hd & Hat & Hby & Hh
        & Hr & Hrb & Hs & _).
  rewrite Hkey in Hstored.
  exists (mkDb us rs (replaceById _id stored ms)), stored.
  split.
  - unfold MessageController.deleteMessage. open_handler. simpl.
    rewrite Hm. simpl. rewrite Hlive. simpl.
    destruct Hmay as [Hsender|(room & Hroom & Hadm)].
    + rewrite Hsender. simpl. rewrite Hdel. reflexivity.
    + rewrite Hroom. destruct (rendersAs (sender m) u); simpl;
        [|rewrite Hadm; simpl]; rewrite Hdel; reflexivity.
  - repeat (split; [assumption || reflexivity|]).
    intros now' u'.
    unfold MessageController.deleteMessage. open_handler. simpl.
    rewrite Hstored. simpl. rewrite Hd. reflexivity.
Qed.

(** X13.  A user who is neither the sender of a message nor an admin of its
    room cannot delete it: the REST request is answered 403, the socket
    request with an error event, and neither writes. *)
Theorem delete_needs_sender_or_admin
        (now : Z) (socket : Socket) (messageId : string) (db : Db) (m : t)
        (room : Room.t) :
  messageId <> "" ->
  findById _id messageId (db_messages db) = Some m ->
  rendersAs (sender m) (userId socket) = false ->
  findById Room._id (Message.room m) (db_rooms db) = Some room ->
  Room.isAdmin room (userId socket) = false ->
  ChatHandlers.message_delete now socket messageId db
  = (db, [mkEmit ToSocket "error"
            (PError "You can only delete your own messages")])
  /\ (isDeleted m = false ->
      MessageController.deleteMessage now (userId socket) messageId db
      = (db, mkResponse 403 false "You can only delete your own messages"
               NoData)).
Proof.
  intros Hid Hm Hsender Hroom Hadm. destruct db as [us rs ms]. simpl in *.
  split.
  - unfold ChatHandlers.message_delete. rewrite (falsy_false Hid).
    open_handler. simpl. rewrite Hm. simpl. rewrite Hroom, Hsender. simpl.
    rewrite Hadm. reflexivity.
  - intros Hlive.
    unfold MessageController.deleteMessage. open_handler. simpl.
    rewrite Hm. simpl. rewrite Hlive. simpl. rewrite Hroom, Hsender. simpl.
    rewrite Hadm. reflexivity.
Qed.

(** X14.  [message:delete] does not look at [isDeleted]: for every stored
    message of the socket's user, deleted before or not, the handler stamps
    [deletedAt] with the clock and [deletedBy] with the user and announces
    [message:deleted] to the room. *)
Theorem socket_delete_stamps_again
        (now : Z) (socket : Socket) (messageId : string) (db : Db) (m : t) :
  messageId <> "" ->
  findById _id messageId (db_messages db) = Some m ->
  rendersAs (sender m) (userId socket) = true ->
  exists db' stored,
    ChatHandlers.message_delete now socket messageId db
    = (db', [mkEmit (ToRoom (Message.room m)) "message:deleted"
               (PDeleted messageId (userId socket) (Some now));
             mkEmit ToSocket "message:delete:success"
               (PMessageId messageId)])
    /\ findById _id messageId (db_messages db') = Some stored
    /\ deletedAt stored = Some now
    /\ deletedBy stored = Some (userId socket)
    /\ content stored = deletedText.
Proof.
  intros Hid Hm Hsender. destruct db as [us rs ms]. simpl in *.
  pose proof (findById_some _ _ _ Hm) as [_ Hkey].
  assert (findById _id (_id m) ms = Some m) as Hf by now rewrite Hkey.
  destruct (@softDelete_ok now ms m (userId socket) Hf)
    as (m' & stored & Hdel & Hstored & Hid' & Hroom' & Hat' & Hc & _ & Hat
        & Hby & _).
  rewrite Hkey in Hstored, Hid'.
  exists (mkDb us rs (replaceById _id stored ms)), stored.
  split.
  - unfold ChatHandlers.message_delete. rewrite (falsy_false Hid).
    open_handler. simpl. rewrite Hm. simpl. rewrite Hsender. simpl.
    rewrite Hdel. simpl. rewrite Hid', Hroom', Hat'. reflexivity.
  - repeat (split; [assumption|]). assumption.
Qed.
End Deleting.

Lemma rest_delete_witness :
  exists db' stored,
    MessageController.deleteMessage 2000 Sample.alice Sample.hello Sample.db0
    = (db', mkResponse 200 true "Message deleted successfully" NoData)
    /\ findById Message._id Sample.hello (db_messages db') = Some stored
    /\ Message.content stored = Message.deletedText
    /\ Message.reactionSets stored = [("+1", [Sample.alice])].
Proof.
  destruct (@rest_delete_redacts_content_only 2000 Sample.alice Sample.hello
              Sample.db0 Sample.hi eq_refl eq_refl (or_introl eq_refl))
    as (db' & stored & H & Hf & Hc & _ & _ & _ & _ & Hr & _).
  exists db', stored. repeat (split; [assumption|]). exact Hr.
Defined.

Lemma delete_needs_sender_or_admin_witness :
  ChatHandlers.message_delete 2000 Sample.bobSocket Sample.hello Sample.db0
  = (Sample.db0, [mkEmit ToSocket "error"
                    (PError "You can only delete your own messages")]).
Proof.
  assert (Sample.hello <> "") as Hid by discriminate.
  exact (proj1 (@delete_needs_sender_or_admin 2000 Sample.bobSocket
                  Sample.hello Sample.db0 Sample.hi Sample.lobbyRoom
                  Hid eq_refl eq_refl eq_refl eq_refl)).
Defined.

Lemma socket_delete_again_witness :
  Message.isDeleted Sample.hi = false
  /\ (exists deleted,
        findById Message._id Sample.hello (db_messages Sample.dbDeleted)
        = Some deleted
        /\ Message.deletedAt deleted = Some 2000%Z)
  /\ exists db' stored,
      fst (ChatHandlers.message_delete 9000 Sample.aliceSocket Sample.hello
             Sample.dbDeleted) = db'
      /\ findById Message._id Sample.hello (db_messages db') = Some stored
      /\ Message.deletedAt stored = Some 9000%Z.
Proof.
  split; [reflexivity|]. split.
  - eexists. split; reflexivity.
  - assert (Sample.hello <> "") as Hid by discriminate.
    destruct (@socket_delete_stamps_again 9000 Sample.aliceSocket
                Sample.hello Sample.dbDeleted _ Hid eq_refl eq_refl)
      as (db' & stored & H & Hf & Hat & _).
    exists db', stored. rewrite H. split; [reflexivity|].
    split; [exact Hf|exact Hat].
Defined.

(** ** Reactions *)

Section Reactions.
Import Message MessageFacts.

Lemma includes_In (l : list string) (s : string) :
  includes l s = true <-> In s l.
Proof.
  unfold includes. rewrite existsb_exists. split.
  - intros (x & Hx & E). apply String.eqb_eq in E. now subst.
  - intros H. exists s. split; [exact H|apply String.eqb_refl].
Qed.

Lemma includes_false_not_In (l : list string) (s : string) :
  includes l s = false -> ~ In s l.
Proof.
  intros H Hin. apply includes_In in Hin. congruence.
Qed.

Lemma NoDup_snoc {A : Type} (l : list A) (x : A) :
  NoDup l -> ~ In x l -> NoDup (l ++ [x]).
Proof.
  intros Hl Hx. apply NoDup_app; [exact Hl|repeat constructor; auto|].
  intros y Hy [<-|[]]. exact (Hx Hy).
Qed.

Lemma NoDup_map_filter {A B : Type} (g : A -> B) (q : A -> bool)
      (l : list A) :
  NoDup (map g l) -> NoDup (map g (filter q l)).
Proof.
  induction l as [|x l IH]; simpl; intros H; [constructor|].
  inversion H as [|? ? Hx Hl]; subst.
  destruct (q x); simpl; [|now apply IH].
  constructor; [|now apply IH].
  intros Hin. apply Hx. apply in_map_iff in Hin.
  destruct Hin as (y & Hy & Hin). apply filter_In in Hin.
  apply in_map_iff. exists y. tauto.
Qed.

Lemma Forall_updateFirst {D : Type} (P : D -> Prop) (p : D -> bool)
      (f : D -> D) (c : list D) :
  Forall P c -> (forall x, find p c = Some x -> P (f x)) ->
  Forall P (updateFirst p f c).
Proof.
  intros Hc Hf. apply Forall_forall. intros y Hy.
  apply In_updateFirst in Hy.
  destruct Hy as [Hy|(x & _ & _ & Hx & ->)].
  - exact (proj1 (Forall_forall _ _) Hc y Hy).
  - exact (Hf x Hx).
Qed.

Lemma Forall_filter {A : Type} (P : A -> Prop) (q : A -> bool) (l : list A) :
  Forall P l -> Forall P (filter q l).
Proof.
  intros H. apply Forall_forall. intros x Hx. apply filter_In in Hx.
  exact (proj1 (Forall_forall _ _) H x (proj1 Hx)).
Qed.

Lemma findReaction_none (m : t) (e : string) :
  findReaction m e = None -> ~ In e (map emoji (reactions m)).
Proof.
  unfold findReaction. intros H Hin. apply in_map_iff in Hin.
  destruct Hin as (r & He & Hr).
  pose proof (find_none _ _ H r Hr) as Hn. simpl in Hn.
  rewrite He, String.eqb_refl in Hn. discriminate.
Qed.

Lemma wellFormed_preSave (m : t) :
  reactionsWellFormed m -> reactionsWellFormed (preSave m).
Proof.
  unfold reactionsWellFormed, preSave. simpl. intros [He Hu]. split.
  - rewrite map_map. simpl. exact He.
  - apply Forall_forall. intros r Hr. apply in_map_iff in Hr.
    destruct Hr as (r0 & <- & Hr0). simpl.
    exact (proj1 (Forall_forall _ _) Hu r0 Hr0).
Qed.

Lemma wellFormed_added (aliased : bool) (m : t) (e u : string) :
  reactionsWellFormed m ->
  reactionsWellFormed
    (with_reactions m
       match findReaction m e with
       | Some reaction =>
           if includes (users reaction) u then reactions m
           else updateFirst (fun r => emoji r =? e)
                  (fun r => mkReaction (emoji r) (users r ++ [u])
                              (Z.of_nat (List.length (users r ++ [u]))))
                  (reactions m)
       | None =>
           if aliased then reactions m ++ [mkReaction e [u] 1]
           else reactions m ++ [mkReaction e [] 0]
       end).
Proof.
  intros [He Hu]. unfold reactionsWellFormed. simpl.
  destruct (findReaction m e) as [r|] eqn:Hfind.
  - destruct (includes (users r) u) eqn:Hin; [split; assumption|].
    split.
    + rewrite map_updateFirst; [exact He|reflexivity].
    + apply Forall_updateFirst; [exact Hu|].
      intros x Hx. simpl. unfold findReaction in Hfind.
      rewrite Hx in Hfind. injection Hfind as ->.
      apply NoDup_snoc.
      * apply find_some in Hx.
        exact (proj1 (Forall_forall _ _) Hu r (proj1 Hx)).
      * now apply includes_false_not_In.
  - apply findReaction_none in Hfind.
    destruct aliased; split.
    + rewrite map_app. simpl. now apply NoDup_snoc.
    + apply Forall_app. split; [exact Hu|].
      repeat constructor. intros [].
    + rewrite map_app. simpl. now apply NoDup_snoc.
    + apply Forall_app. split; [exact Hu|]. repeat constructor.
Qed.

Lemma wellFormed_removed (m : t) (e u : string) :
  reactionsWellFormed m ->
  reactionsWellFormed
    (with_reactions m
       match findReaction m e with
       | Some reaction =>
           let users' := filter (fun u' => negb (u' =? u)) (users reaction) in
           let count' := Z.of_nat (List.length users') in
           let rs := updateFirst (fun r => emoji r =? e)
                       (fun r => mkReaction (emoji r) users' count')
                       (reactions m) in
           if (count' =? 0)%Z
           then filter (fun r => negb (emoji r =? e)) rs
           else rs
       | None => reactions m
       end).
Proof.
  intros [He Hu]. unfold reactionsWellFormed. simpl.
  destruct (findReaction m e) as [r|] eqn:Hfind; [|split; assumption].
  cbv zeta.
  set (rs := updateFirst _ _ (reactions m)).
  assert (NoDup (map emoji rs)) as He'
      by (unfold rs; rewrite map_updateFirst; [exact He|reflexivity]).
  assert (Forall (fun r0 => NoDup (users r0)) rs) as Hu'.
  { unfold rs. apply Forall_updateFirst; [exact Hu|].
    intros x Hx. simpl. apply NoDup_filter.
    unfold findReaction in Hfind. apply find_some in Hfind.
    exact (proj1 (Forall_forall _ _) Hu r (proj1 Hfind)). }
  destruct (_ =? 0)%Z; split; auto.
  - now apply NoDup_map_filter.
  - now apply Forall_filter.
Qed.

(** X15.  Reactions stay well formed: when no emoji has two entries on a
    message and no user is twice in an entry, the same holds of the message
    [addReaction] or [removeReaction] returns and of the document they
    store, whichever emoji and user they are called with. *)
Theorem reactions_stay_well_formed
        (aliased : bool) (c c' : list t) (m m' : t) (e u : string) :
  reactionsWellFormed m ->
  addReaction aliased c m e u = Ok (c', m')
  \/ removeReaction c m e u = Ok (c', m') ->
  reactionsWellFormed m'
  /\ exists stored, findById _id (_id m) c' = Some stored
                    /\ reactionsWellFormed stored.
Proof.
  intros Hwf [H|H].
  - unfold addReaction in H.
    pose proof (wellFormed_added aliased e u Hwf) as Hwf'.
    apply message_save_inv in H.
    destruct H as (_ & -> & -> & x & Hx). split.
    + now apply wellFormed_preSave.
    + eexists. split.
      * exact (written_found _ _ Hx).
      * apply wellFormed_preSave in Hwf'. exact Hwf'.
  - unfold removeReaction in H.
    pose proof (wellFormed_removed e u Hwf) as Hwf'.
    apply message_save_inv in H.
    destruct H as (_ & -> & -> & x & Hx). split.
    + now apply wellFormed_preSave.
    + eexists. split.
      * exact (written_found _ _ Hx).
      * apply wellFormed_preSave in Hwf'. exact Hwf'.
Qed.
End Reactions.

Lemma reactions_stay_well_formed_witness :
  exists c' m',
    Message.addReaction false (db_messages Sample.db0) Sample.hi "heart"
      Sample.bob = Ok (c', m')
    /\ reactionsWellFormed m'.
Proof.
  assert (reactionsWellFormed Sample.hi) as Hwf.
  { split; simpl; repeat constructor; simpl; intros []. }
  eexists. eexists. split; [reflexivity|].
  exact (proj1 (@reactions_stay_well_formed false (db_messages Sample.db0) _
                  Sample.hi _ "heart" Sample.bob Hwf (or_introl eq_refl))).
Defined.

Section ReactionRoundTrip.
Import Message MessageFacts.

Lemma filter_out_absent (u : string) (l : list string) :
  includes l u = false -> filter (fun u' => negb (u' =? u)) l = l.
Proof.
  intros H. apply filter_all. intros x Hx.
  destruct (x =? u) eqn:E; [|reflexivity].
  apply String.eqb_eq in E. subst x.
  apply includes_In in Hx. congruence.
Qed.

Lemma filter_out_added (u : string) (l : list string) :
  includes l u = false ->
  filter (fun u' => negb (u' =? u)) (l ++ [u]) = l.
Proof.
  intros H. rewrite filter_app, (filter_out_absent _ _ H). simpl.
  rewrite String.eqb_refl. simpl. apply app_nil_r.
Qed.

Lemma find_map_recount (e : string) (l : list Reaction) :
  find (fun r => emoji r =? e) (map recount l)
  = option_map recount (find (fun r => emoji r =? e) l).
Proof.
  induction l as [|x l IH]; simpl; [reflexivity|].
  destruct (emoji x =? e); [reflexivity|exact IH].
Qed.

(** Adding [u] to the first entry of [e] and taking it out again gives the
    sets back. *)
Lemma sets_restored_present (e u : string) (n : Z) (l : list Reaction)
      (r : Reaction) :
  find (fun x => emoji x =? e) l = Some r ->
  map setOf
    (updateFirst (fun x => emoji x =? e)
       (fun x => mkReaction (emoji x) (users r) n)
       (map recount
          (updateFirst (fun x => emoji x =? e)
             (fun x => mkReaction (emoji x) (users x ++ [u])
                         (Z.of_nat (List.length (users x ++ [u]))))
             l)))
  = map setOf l.
Proof.
  induction l as [|x l IH]; simpl; [discriminate|].
  destruct (emoji x =? e) eqn:E; simpl.
  - intros [= ->]. unfold recount at 1. simpl. rewrite E. simpl.
    unfold setOf at 1 3. simpl.
    f_equal. rewrite map_map. reflexivity.
  - intros H. unfold recount at 1. simpl. rewrite E. simpl.
    f_equal. exact (IH H).
Qed.

(** A new entry of [e] at the end, emptied, goes away with the filter. *)
Lemma sets_restored_absent (e : string) (us : list string) (n n' : Z)
      (l : list Reaction) :
  find (fun x => emoji x =? e) l = None ->
  find (fun x => emoji x =? e) (map recount (l ++ [mkReaction e us n]))
  = Some (recount (mkReaction e us n))
  /\ map setOf
       (filter (fun x => negb (emoji x =? e))
          (updateFirst (fun x => emoji x =? e)
             (fun x => mkReaction (emoji x) [] n')
             (map recount (l ++ [mkReaction e us n]))))
     = map setOf l.
Proof.
  induction l as [|x l IH]; simpl.
  - intros _. unfold recount. simpl. rewrite String.eqb_refl. simpl.
    rewrite String.eqb_refl. split; reflexivity.
  - destruct (emoji x =? e) eqn:E; [discriminate|].
    intros H. destruct (IH H) as [IH1 IH2].
    unfold recount at 1 3. simpl. rewrite E.
    split; [exact IH1|]. simpl. f_equal. exact IH2.
Qed.

(** X16.  Reacting and taking the reaction back is a round trip on the
    reaction sets: for a user who is not among the users of the emoji (whose
    entry, if there is one, is not empty), [addReaction] followed by
    [removeReaction] succeeds and leaves every emoji with the users it had,
    on the returned message and on the stored one, whether or not the
    pushed entry is aliased. *)
Theorem react_then_unreact_restores_sets
        (aliased : bool) (c : list t) (m x : t) (e u : string) :
  validate m = true -> findById _id (_id m) c = Some x ->
  match findReaction m e with
  | Some r => includes (users r) u = false /\ users r <> []
  | None => True
  end ->
  exists c1 m1 c2 m2 stored,
    addReaction aliased c m e u = Ok (c1, m1)
    /\ removeReaction c1 m1 e u = Ok (c2, m2)
    /\ reactionSets m2 = reactionSets m
    /\ findById _id (_id m) c2 = Some stored
    /\ reactionSets stored = reactionSets m.
Proof.
  intros Hv Hx Hfresh.
  unfold addReaction.
  match goal with
  | |- context [save c (with_reactions m ?rs)] => set (added := rs)
  end.
  assert (save c (with_reactions m added)
          = Ok (replaceById _id (written (with_reactions m added)) c,
                preSave (with_reactions m added))) as Hadd
      by (apply (@message_save_ok c _ x); [exact Hv|exact Hx]).
  set (m1 := preSave (with_reactions m added)) in *.
  set (c1 := replaceById _id (written (with_reactions m added)) c) in *.
  assert (findById _id (_id m1) c1 = Some (written (with_reactions m added)))
    as Hx1 by exact (@written_found c (with_reactions m added) x Hx).
  exists c1, m1. unfold removeReaction.
  match goal with
  | |- context [save c1 (with_reactions m1 ?rs)] => set (removed := rs)
  end.
  assert (save c1 (with_reactions m1 removed)
          = Ok (replaceById _id (written (with_reactions m1 removed)) c1,
                preSave (with_reactions m1 removed))) as Hrem
      by (apply (@message_save_ok c1 _ (written (with_reactions m added)));
          [exact Hv|exact Hx1]).
  assert (map setOf removed = reactionSets m) as Hsets.
  { unfold removed, findReaction.
    change (reactions m1) with (map recount added).
    unfold added, findReaction in *.
    destruct (find (fun r => emoji r =? e) (reactions m)) as [r|] eqn:Hfind.
    - destruct Hfresh as [Hnew Hne]. rewrite Hnew.
      rewrite find_map_recount.
      rewrite RoomFacts.find_updateFirst by reflexivity.
      rewrite Hfind. simpl.
      rewrite (filter_out_added _ _ Hnew).
      assert ((Z.of_nat (List.length (users r)) =? 0)%Z = false) as ->.
      { apply Z.eqb_neq. destruct (users r); [congruence|simpl; lia]. }
      exact (sets_restored_present e u _ _ Hfind).
    - assert (forall us n,
                 filter (fun u' => negb (u' =? u)) us = [] ->
                 map setOf
                   match
                     find (fun r => emoji r =? e)
                       (map recount (reactions m ++ [mkReaction e us n]))
                   with
                   | Some reaction =>
                       let users' :=
                         filter (fun u' => negb (u' =? u)) (users reaction) in
                       let count' := Z.of_nat (List.length users') in
                       let rs :=
                         updateFirst (fun r => emoji r =? e)
                           (fun r => mkReaction (emoji r) users' count')
                           (map recount (reactions m ++ [mkReaction e us n]))
                       in
                       if (count' =? 0)%Z
                       then filter (fun r => negb (emoji r =? e)) rs
                       else rs
                   | None =>
                       map recount (reactions m ++ [mkReaction e us n])
                   end = reactionSets m) as Hcase.
      { intros us n Hempty.
        destruct (sets_restored_absent e us n 0 _ Hfind) as [H1 H2].
        rewrite H1. cbv zeta. simpl users. rewrite Hempty. simpl.
        exact H2. }
      destruct aliased; apply Hcase; simpl;
        [now rewrite String.eqb_refl|reflexivity]. }
  do 3 eexists. split; [exact Hadd|]. split; [exact Hrem|].
  split.
  - rewrite reactionSets_preSave. exact Hsets.
  - split.
    + exact (@written_found c1 (with_reactions m1 removed) _ Hx1).
    + rewrite reactionSets_written. exact Hsets.
Qed.
End ReactionRoundTrip.

Lemma react_then_unreact_witness :
  exists c1 m1 c2 m2,
    Message.addReaction false (db_messages Sample.db0) Sample.hi "heart"
      Sample.bob = Ok (c1, m1)
    /\ Message.removeReaction c1 m1 "heart" Sample.bob = Ok (c2, m2)
    /\ Message.reactionSets m2 = [("+1", [Sample.alice])].
Proof.
  destruct (@react_then_unreact_restores_sets false (db_messages Sample.db0)
              Sample.hi Sample.hi "heart" Sample.bob eq_refl eq_refl I)
    as (c1 & m1 & c2 & m2 & stored & H1 & H2 & H3 & _).
  exists c1, m1, c2, m2. split; [exact H1|]. split; [exact H2|exact H3].
Defined.

(** ** Read receipts and unread counts *)

Section Receipts.
Import Message MessageFacts.

Lemma existsb_receipt_In (u : string) (rb : list Read) :
  existsb (fun rd => user rd =? u) rb = true <-> In u (map user rb).
Proof.
  rewrite existsb_exists, in_map_iff. split.
  - intros (rd & Hin & E). apply String.eqb_eq in E. eauto.
  - intros (rd & E & Hin). exists rd. split; [exact Hin|].
    now apply String.eqb_eq.
Qed.

(** X17.  Read receipts are pushed once: a second [updateMany] for the same
    user and room, at any later clock and for any of the same message ids,
    changes nothing, so the receipt keeps the time of the first one. *)
Theorem receipts_are_pushed_once
        (now1 now2 : Z) (ids1 ids2 : list string) (roomId u : string)
        (c : list t) :
  (forall id, includes ids2 id = true -> includes ids1 id = true) ->
  pushReadBy now2 ids2 roomId u (pushReadBy now1 ids1 roomId u c)
  = pushReadBy now1 ids1 roomId u c.
Proof.
  intros Hsub. unfold pushReadBy. rewrite map_map. apply map_ext.
  intros m.
  destruct (includes ids1 (_id m)) eqn:H1.
  - destruct (Message.room m =? roomId) eqn:Hr; simpl.
    + destruct (existsb (fun rd => user rd =? u) (readBy m)) eqn:Hrd; simpl.
      * rewrite Hr, Hrd, andb_false_r. reflexivity.
      * rewrite Hr, existsb_app. simpl. rewrite String.eqb_refl.
        rewrite orb_true_r, andb_false_r. reflexivity.
    + rewrite Hr, !andb_false_r. reflexivity.
  - simpl. destruct (includes ids2 (_id m)) eqn:H2; [|reflexivity].
    apply Hsub in H2. congruence.
Qed.

(** X18.  No user gets two receipts on a message: when the stored receipts
    of every message name each user once, they still do after the
    [updateMany] of a mark-read request, and after the [markAsRead] method
    of a message. *)
Theorem receipts_stay_distinct
        (now : Z) (ids : list string) (roomId u : string) (c : list t) :
  Forall receiptsDistinct c ->
  Forall receiptsDistinct (pushReadBy now ids roomId u c)
  /\ forall m c' m',
      In m c -> markAsRead now c m u = Ok (c', m') ->
      receiptsDistinct m' /\ Forall receiptsDistinct c'.
Proof.
  intros Hc. split.
  - unfold pushReadBy. apply Forall_forall. intros m' Hm'.
    apply in_map_iff in Hm'. destruct Hm' as (m & <- & Hm).
    pose proof (proj1 (Forall_forall _ _) Hc m Hm) as Hd.
    destruct (includes ids (_id m) && (Message.room m =? roomId)
              && negb (existsb (fun rd => user rd =? u) (readBy m))) eqn:E;
      [|exact Hd].
    apply andb_prop in E. destruct E as [_ E]. apply negb_true_iff in E.
    unfold receiptsDistinct. simpl. rewrite map_app. simpl.
    apply NoDup_snoc; [exact Hd|].
    intros Hin. apply existsb_receipt_In in Hin. congruence.
  - intros m c' m' Hm H.
    pose proof (proj1 (Forall_forall _ _) Hc m Hm) as Hd.
    unfold markAsRead in H.
    destruct (find (fun rd => user rd =? u) (readBy m)) as [rd|] eqn:Hfind.
    + injection H as <- <-. split; assumption.
    + assert (receiptsDistinct
                (with_readBy m (readBy m ++ [mkRead u now]))) as Hd'.
      { unfold receiptsDistinct. simpl. rewrite map_app. simpl.
        apply NoDup_snoc; [exact Hd|].
        intros Hin. apply in_map_iff in Hin.
        destruct Hin as (rd & E & Hin).
        pose proof (find_none _ _ Hfind rd Hin) as Hn. simpl in Hn.
        rewrite E, String.eqb_refl in Hn. discriminate. }
      apply message_save_inv in H. destruct H as (_ & -> & -> & _).
      split; [exact Hd'|].
      apply Forall_replaceById; [exact Hc|exact Hd'].
Qed.
End Receipts.

Lemma receipts_are_pushed_once_witness :
  Message.pushReadBy 20 [Sample.hello] Sample.lobby Sample.bob
    (Message.pushReadBy 10 [Sample.hello; Fixture.yoId] Sample.lobby
       Sample.bob (db_messages Fixture.db1))
  = Message.pushReadBy 10 [Sample.hello; Fixture.yoId] Sample.lobby
      Sample.bob (db_messages Fixture.db1).
Proof.
  apply receipts_are_pushed_once.
  intros id H. unfold includes in *. simpl in *.
  rewrite orb_false_r in H. now rewrite H.
Defined.

Lemma receipts_stay_distinct_witness :
  Forall receiptsDistinct
    (Message.pushReadBy 10 [Sample.hello] Sample.lobby Sample.bob
       (db_messages Fixture.db1)).
Proof.
  apply receipts_stay_distinct.
  repeat constructor.
Defined.

Section Unread.
Import Message MessageFacts.

Lemma filter_none {A : Type} (p : A -> bool) (l : list A) :
  (forall x, In x l -> p x = false) -> filter p l = [].
Proof.
  induction l as [|x l IH]; simpl; intros H; [reflexivity|].
  rewrite (H x) by now left. apply IH. intros y Hy. apply H. now right.
Qed.

Lemma findMember_isMember (r : Room.t) (u : string) (mem : Room.Member) :
  Room.findMember r u = Some mem -> Room.isMember r u = true.
Proof.
  unfold Room.findMember, Room.isMember. intros H.
  apply find_some in H. apply existsb_exists. eauto.
Qed.

Lemma unread_pushReadBy (now : Z) (ids : list string) (roomId' roomId u v : string)
      (since : Z) (c : list t) :
  MessageStatics.getUnreadCount (pushReadBy now ids roomId' u c) roomId v
    since
  = MessageStatics.getUnreadCount c roomId v since.
Proof.
  unfold MessageStatics.getUnreadCount, pushReadBy. f_equal.
  induction c as [|m c IH]; simpl; [reflexivity|].
  destruct (includes ids (_id m) && (Message.room m =? roomId')
            && negb (existsb (fun rd => user rd =? u) (readBy m)));
    simpl;
    destruct ((Message.room m =? roomId) && negb (refId (sender m) =? v)
              && (since <? createdAt m)%Z && negb (isDeleted m));
    simpl; now rewrite IH.
Qed.

(** What [POST /api/messages/room/:roomId/mark-read] writes for a member. *)
Lemma markAsRead_accepts (now : Z) (u roomId : string) (ids : list string)
      (db : Db) (room : Room.t) (mem : Room.Member) :
  findById Room._id roomId (db_rooms db) = Some room ->
  Room.findMember room u = Some mem -> Room.validate room = true ->
  exists room',
    MessageController.markAsRead now u roomId ids db
    = (mkDb (db_users db) (replaceById Room._id room' (db_rooms db))
            (match ids with
             | [] => db_messages db
             | _ :: _ => pushReadBy now ids roomId u (db_messages db)
             end),
       mkResponse 200 true "Messages marked as read" NoData)
    /\ findById Room._id roomId (replaceById Room._id room' (db_rooms db))
       = Some room'
    /\ Room.findMember room' u
       = Some (Room.mkMember (Room.user mem) (Room.role mem)
                 (Room.joinedAt mem) now).
Proof.
  intros Hroom Hmem Hv. destruct db as [us rs ms]. simpl in Hroom.
  pose proof (findById_some _ _ _ Hroom) as [_ Hkey].
  assert (findById Room._id (Room._id room) rs = Some room) as Hf
      by now rewrite Hkey.
  destruct (@RoomFacts.updateLastRead_ok now rs room u mem Hv Hf Hmem)
    as (room' & Hupd & Hid & Hmem' & Hf').
  rewrite Hkey in Hf'.
  exists room'. split; [|split; [exact Hf'|exact Hmem']].
  unfold MessageController.markAsRead. open_handler. simpl.
  rewrite Hroom. simpl. rewrite (findMember_isMember _ _ Hmem). simpl.
  rewrite Hupd. destruct ids; reflexivity.
Qed.

(** X19.  Marking a room read clears its unread count: after a member's
    [mark-read] request at clock [now], when no message of the room is dated
    after [now], [unread-count] answers zero unread messages since [now],
    whichever message ids the request named. *)
Theorem mark_read_clears_unread
        (now : Z) (u roomId : string) (ids : list string) (db : Db)
        (room : Room.t) :
  findById Room._id roomId (db_rooms db) = Some room ->
  Room.isMember room u = true -> Room.validate room = true ->
  (forall m, In m (db_messages db) -> Message.room m = roomId ->
             (createdAt m <= now)%Z) ->
  exists db',
    MessageController.markAsRead now u roomId ids db
    = (db', mkResponse 200 true "Messages marked as read" NoData)
    /\ getUnreadCount u roomId db' = Success (mkUnread roomId 0 now).
Proof.
  intros Hroom Hin Hv Hold.
  destruct (isMember_findMember _ _ Hin) as [mem Hmem].
  destruct (@markAsRead_accepts now u roomId ids db room mem Hroom Hmem Hv)
    as (room' & Hmark & Hf' & Hmem').
  eexists. split; [exact Hmark|].
  unfold getUnreadCount. cbn [db_rooms db_messages].
  rewrite Hf', (findMember_isMember _ _ Hmem'), Hmem'. simpl.
  do 2 f_equal.
  assert (MessageStatics.getUnreadCount (db_messages db) roomId u now = 0)
    as Hzero.
  { unfold MessageStatics.getUnreadCount.
    rewrite filter_none; [reflexivity|]. intros m Hm.
    destruct (Message.room m =? roomId) eqn:Hr; [|reflexivity].
    apply String.eqb_eq in Hr. pose proof (Hold m Hm Hr) as Hle.
    assert ((now <? createdAt m)%Z = false) as -> by (apply Z.ltb_ge; lia).
    now rewrite andb_false_r. }
  destruct ids; [exact Hzero|].
  rewrite unread_pushReadBy. exact Hzero.
Qed.
End Unread.

Section UnreadAfterSend.
Import Message.

(** X20.  A sent message is unread for the others: when [message:send]
    stores a message at clock [now], the unread count of a member of the
    room goes up by one if the member is not the sender and last read the
    room before [now], and stays as it was otherwise; the member's
    [lastReadAt] is not touched. *)
Theorem sent_message_is_unread_for_others
        (now : Z) (newId : string) (socket : Socket)
        (roomId content : string) (type : option string) (tempId : string)
        (db : Db) (room : Room.t) (v : string) (n since : Z) :
  roomId <> "" -> trim content <> "" ->
  (String.length content <= 2000)%nat ->
  optional (includes typeEnum) type = true ->
  findById Room._id roomId (db_rooms db) = Some room ->
  Room.isMember room (userId socket) = true -> Room.validate room = true ->
  findById _id newId (db_messages db) = None ->
  getUnreadCount v roomId db = Success (mkUnread roomId n since) ->
  getUnreadCount v roomId
    (fst (ChatHandlers.message_send now newId socket roomId content type
            tempId db))
  = Success
      (mkUnread roomId
         (n + (if v =? userId socket then 0
               else if (since <? now)%Z then 1 else 0))
         since).
Proof.
  intros Hid Hc Hlen Hty Hroom Hmem Hv Hfresh Hbefore.
  rewrite (@message_send_accepts now newId socket roomId content type tempId
             db room Hid Hc Hlen Hty Hroom Hmem Hv Hfresh).
  cbn [fst].
  pose proof (findById_some _ _ _ Hroom) as [_ Hkey].
  set (room' := Room.with_lastActivity (Room.with_lastMessage room newId) now).
  assert (findById Room._id roomId (replaceById Room._id room' (db_rooms db))
          = Some room') as Hf'.
  { rewrite <- Hkey. change (Room._id room) with (Room._id room').
    eapply findById_replaceById. simpl. rewrite Hkey. exact Hroom. }
  unfold getUnreadCount in *. cbn [db_rooms db_messages].
  rewrite Hf'. rewrite Hroom in Hbefore.
  change (Room.isMember room' v) with (Room.isMember room v).
  change (Room.findMember room' v) with (Room.findMember room v).
  destruct (Room.isMember room v); [|discriminate]. simpl in *.
  injection Hbefore as Hn Hsince.
  rewrite Hsince. f_equal. f_equal.
  unfold MessageStatics.getUnreadCount in *.
  rewrite filter_app, length_app, Nat2Z.inj_add, Hsince in *. rewrite Hn.
  f_equal. simpl. rewrite String.eqb_refl, (String.eqb_sym v). simpl.
  destruct (userId socket =? v); simpl; [reflexivity|].
  destruct (since <? now)%Z; reflexivity.
Qed.
End UnreadAfterSend.

Lemma mark_read_clears_unread_witness :
  getUnreadCount Sample.bob Sample.lobby Fixture.db1
  = Success (mkUnread Sample.lobby 1 0)
  /\ exists db',
      MessageController.markAsRead 3000 Sample.bob Sample.lobby []
        Fixture.db1
      = (db', mkResponse 200 true "Messages marked as read" NoData)
      /\ getUnreadCount Sample.bob Sample.lobby db'
         = Success (mkUnread Sample.lobby 0 3000).
Proof.
  split; [reflexivity|].
  apply (@mark_read_clears_unread 3000 Sample.bob Sample.lobby []
           Fixture.db1 Sample.lobbyRoom); try reflexivity.
  intros m [<-|[<-|[]]] _; simpl; lia.
Defined.

Lemma sent_message_is_unread_witness :
  getUnreadCount Sample.bob Sample.lobby
    (fst (ChatHandlers.message_send 2000 "e00000000000000000000009"
            Sample.aliceSocket Sample.lobby "news" None "t1" Fixture.db1))
  = Success (mkUnread Sample.lobby 2 0).
Proof.
  assert (Sample.lobby <> "") as Hid by discriminate.
  assert (trim "news" <> "") as Hc by discriminate.
  assert (String.length "news" <= 2000)%nat as Hlen by (simpl; lia).
  exact (@sent_message_is_unread_for_others 2000 "e00000000000000000000009"
           Sample.aliceSocket Sample.lobby "news" None "t1" Fixture.db1
           Sample.lobbyRoom Sample.bob 1 0 Hid Hc Hlen eq_refl eq_refl
           eq_refl eq_refl eq_refl eq_refl).
Defined.

Section ReceiptScope.
Import Message.

Lemma pushReadBy_keeps (now : Z) (ids : list string) (roomId u : string)
      (c : list t) (m : t) :
  In m c -> Message.room m <> roomId \/ includes ids (_id m) = false ->
  In m (pushReadBy now ids roomId u c).
Proof.
  intros Hin Hout. unfold pushReadBy. apply in_map_iff. exists m.
  split; [|exact Hin].
  destruct Hout as [Hr|Hl].
  - apply String.eqb_neq in Hr. now rewrite Hr, andb_false_r.
  - now rewrite Hl.
Qed.

Lemma markAsRead_messages (now : Z) (u roomId : string) (ids : list string)
      (db : Db) :
  let c := db_messages db in
  let c' := db_messages
              (fst (MessageController.markAsRead now u roomId ids db)) in
  c' = c \/ c' = pushReadBy now ids roomId u c.
Proof.
  destruct db as [us rs ms]. cbv zeta.
  unfold MessageController.markAsRead. open_handler. simpl.
  destruct (findById Room._id roomId rs) as [room|]; [|now left].
  destruct (Room.isMember room u); simpl; [|now left].
  destruct (Room.updateLastRead now rs room u) as [[c r]|e]; [|now left].
  destruct ids; simpl; [now left|now right].
Qed.

Lemma messages_mark_read_messages (now : Z) (socket : Socket)
      (roomId : string) (ids : list string) (db : Db) :
  let c := db_messages db in
  let c' := db_messages
              (fst (ChatHandlers.messages_mark_read now socket roomId ids
                      db)) in
  c' = c \/ c' = pushReadBy now ids roomId (userId socket) c.
Proof.
  destruct db as [us rs ms]. cbv zeta.
  unfold ChatHandlers.messages_mark_read.
  destruct (falsy roomId); [now left|].
  open_handler. simpl.
  destruct (findById Room._id roomId rs) as [room|]; [|now left].
  destruct (Room.isMember room (userId socket)); simpl; [|now left].
  destruct (Room.updateLastRead now rs room (userId socket)) as [[c r]|e];
    [|now left].
  destruct ids; simpl; [now left|now right].
Qed.

(** X21.  A mark-read request leaves receipts only on the messages it names
    in the room it names: every stored message of another room, and every
    message whose id is not in the request, is in the collection unchanged
    afterwards, over REST and over the socket, whatever the request and
    whoever sends it. *)
Theorem mark_read_stays_in_its_room
        (now : Z) (socket : Socket) (roomId : string) (ids : list string)
        (db : Db) (m : t) :
  In m (db_messages db) ->
  Message.room m <> roomId \/ includes ids (_id m) = false ->
  In m (db_messages
          (fst (MessageController.markAsRead now (userId socket) roomId ids
                  db)))
  /\ In m (db_messages
             (fst (ChatHandlers.messages_mark_read now socket roomId ids
                     db))).
Proof.
  intros Hin Hout. split.
  - destruct (markAsRead_messages now (userId socket) roomId ids db)
      as [-> | ->]; [exact Hin|now apply pushReadBy_keeps].
  - destruct (messages_mark_read_messages now socket roomId ids db)
      as [-> | ->]; [exact Hin|now apply pushReadBy_keeps].
Qed.
End ReceiptScope.

Lemma mark_read_stays_in_its_room_witness :
  In Sample.hi
     (db_messages
        (fst (MessageController.markAsRead 3000 Sample.bob Sample.lobby
                [Fixture.yoId] Fixture.db1))).
Proof.
  assert (In Sample.hi (db_messages Fixture.db1)) as Hin by (simpl; auto).
  exact (proj1 (@mark_read_stays_in_its_room 3000 Sample.bobSocket
                  Sample.lobby [Fixture.yoId] Fixture.db1 Sample.hi Hin
                  (or_intror eq_refl))).
Defined.

(** ** Handlers that read a room with its members populated *)

Section Populated.

Lemma populated_findMember (ms : PopulatedRoom.t) (u : string) :
  PopulatedRoom.findMember ms u = Ok None
  \/ PopulatedRoom.findMember ms u = Throw TypeError.
Proof.
  induction ms as [|[m [doc|]] ms IH]; simpl; auto.
Qed.

Lemma populated_findMember_all (users : list User.t) (room : Room.t)
      (u : string) :
  Forall (fun m => findById User._id (Room.user m) users <> None)
         (Room.members room) ->
  PopulatedRoom.findMember (PopulatedRoom.populate users room) u = Ok None.
Proof.
  unfold PopulatedRoom.populate.
  induction (Room.members room) as [|m ms IH]; simpl; intros H;
    [reflexivity|].
  inversion H as [|? ? Hm Hms]; subst.
  destruct (findById User._id (Room.user m) users); [|congruence].
  now apply IH.
Qed.

(** X22.  [GET /api/rooms/:roomId] tests membership on the room with its
    members populated, where [member.user.toString()] is the text of a user
    document and never an id: the request never answers with the room.  When
    the room exists and all its members' user documents do, the answer is
    403 "You are not a member of this room", for members as for
    strangers. *)
Theorem getRoomById_never_answers_room (u roomId : string) (db : Db) :
  (forall view, getRoomById u roomId db <> Success view)
  /\ (forall room,
        findById Room._id roomId (db_rooms db) = Some room ->
        Forall (fun m => findById User._id (Room.user m) (db_users db)
                         <> None) (Room.members room) ->
        getRoomById u roomId db
        = Refused 403 "You are not a member of this room").
Proof.
  unfold getRoomById, PopulatedRoom.isMember. split.
  - intros view.
    destruct (findById Room._id roomId (db_rooms db)) as [room|];
      [|discriminate].
    cbv zeta.
    destruct (populated_findMember
                (PopulatedRoom.populate (db_users db) room) u) as [-> | ->];
      discriminate.
  - intros room Hroom Hall. rewrite Hroom. cbv zeta.
    now rewrite (@populated_findMember_all (db_users db) room u Hall).
Qed.

(** X23.  [room:join] tests membership the same way: whatever the request,
    it writes nothing, sends nothing to the room and answers the socket with
    one error event. *)
Theorem room_join_never_joins
        (now : Z) (socket : Socket) (roomId : string) (db : Db) :
  exists text,
    room_join now socket roomId db
    = (db, [mkEmit ToSocket "error" (PError text)]).
Proof.
  destruct db as [us rs ms]. unfold room_join.
  destruct (falsy roomId); [eexists; reflexivity|].
  open_handler.
  cbn [allRooms allUsers allMessages emitted db_rooms db_users db_messages].
  destruct (findById Room._id roomId rs) as [room|];
    [|eexists; reflexivity].
  cbv beta iota.
  cbn [allRooms allUsers allMessages emitted db_rooms db_users db_messages].
  unfold PopulatedRoom.isMember.
  destruct (populated_findMember (PopulatedRoom.populate us room)
              (userId socket)) as [-> | ->]; eexists; reflexivity.
Qed.
End Populated.

Lemma getRoomById_witness :
  Room.isMember Sample.lobbyRoom Sample.alice = true
  /\ getRoomById Sample.alice Sample.lobby Sample.db0
     = Refused 403 "You are not a member of this room".
Proof.
  split; [reflexivity|].
  apply (proj2 (getRoomById_never_answers_room Sample.alice Sample.lobby
                  Sample.db0) Sample.lobbyRoom eq_refl).
  repeat constructor; discriminate.
Defined.

(** ** The connection registry *)

Section RegistryFacts.
Import Registry.

Lemma has_set (k k' : string) (v : Connection) (reg : t) :
  has k' (set k v reg) = (k' =? k) || has k' reg.
Proof.
  unfold has. induction reg as [|[k0 v0] reg IH]; simpl.
  - now rewrite (String.eqb_sym k k'), orb_false_r.
  - destruct (k0 =? k) eqn:E; simpl.
    + apply String.eqb_eq in E. subst k0.
      rewrite (String.eqb_sym k k').
      destruct (k' =? k); reflexivity.
    + rewrite IH. destruct (k0 =? k'); simpl;
        [now rewrite orb_true_r|reflexivity].
Qed.

Lemma get_set (k : string) (v : Connection) (reg : t) :
  get k (set k v reg) = Some v.
Proof.
  unfold get. induction reg as [|[k0 v0] reg IH]; simpl.
  - now rewrite String.eqb_refl.
  - destruct (k0 =? k) eqn:E; simpl.
    + now rewrite String.eqb_refl.
    + rewrite E. exact IH.
Qed.

Lemma has_delete (k : string) (reg : t) : has k (delete k reg) = false.
Proof.
  unfold has, delete. induction reg as [|[k0 v0] reg IH]; simpl; auto.
  destruct (k0 =? k) eqn:E; simpl; [exact IH|]. now rewrite E.
Qed.

Lemma get_none_has (k : string) (reg : t) :
  has k reg = false -> get k reg = None.
Proof.
  unfold has, get. induction reg as [|[k0 v0] reg IH]; simpl; auto.
  destruct (k0 =? k); simpl; [discriminate|exact IH].
Qed.

Lemma length_set_present (k : string) (v : Connection) (reg : t) :
  has k reg = true -> List.length (set k v reg) = List.length reg.
Proof.
  unfold has. induction reg as [|[k0 v0] reg IH]; simpl; [discriminate|].
  destruct (k0 =? k); simpl; [reflexivity|]. intros H. now rewrite IH.
Qed.

Lemma keys_set (k : string) (v : Connection) (reg : t) :
  NoDup (map fst reg) -> NoDup (map fst (set k v reg)).
Proof.
  induction reg as [|[k0 v0] reg IH]; simpl; intros H.
  - repeat constructor. intros [].
  - inversion H as [|? ? Hk0 Hreg]; subst.
    destruct (k0 =? k) eqn:E; simpl.
    + apply String.eqb_eq in E. subst k0. now constructor.
    + constructor; [|now apply IH].
      intros Hin. apply in_map_iff in Hin.
      destruct Hin as ([k1 v1] & Hk & Hin). simpl in Hk. subst k1.
      assert (has k0 (set k v reg) = true) as Hhas.
      { unfold has. apply existsb_exists. exists (k0, v1).
        split; [exact Hin|apply String.eqb_refl]. }
      rewrite has_set, E in Hhas. simpl in Hhas.
      apply Hk0. unfold has in Hhas. apply existsb_exists in Hhas.
      destruct Hhas as ([k2 v2] & Hin2 & E2). simpl in E2.
      apply String.eqb_eq in E2. subst k2.
      apply in_map_iff. exists (k0, v2). split; [reflexivity|exact Hin2].
Qed.

(** X24.  The registry holds one connection per user, the latest: when a
    user connects with a second socket, events sent with [sendToUser] go to
    the second socket and the number of connections stays the same; when
    either socket then disconnects, the user counts as offline and
    [sendToUser] reaches no socket, although the other socket is still
    open.  The keys of the registry stay distinct throughout. *)
Theorem registry_keeps_one_socket_per_user
        (t1 t2 : Z) (s1 s2 : string) (doc : User.t) (reg : t) :
  NoDup (map fst reg) ->
  let one := connect t1 s1 doc reg in
  let two := connect t2 s2 doc one in
  let gone := disconnect doc two in
  sendToUser (User._id doc) two = Some s2
  /\ List.length two = List.length one
  /\ isUserOnline (User._id doc) gone = false
  /\ sendToUser (User._id doc) gone = None
  /\ NoDup (map fst two) /\ NoDup (map fst gone).
Proof.
  intros Hkeys one two gone. unfold two, one, gone, connect, disconnect.
  split; [|split; [|split; [|split; [|split]]]].
  - unfold sendToUser, getActiveConnection. now rewrite get_set.
  - apply length_set_present. rewrite has_set, String.eqb_refl.
    reflexivity.
  - apply has_delete.
  - unfold sendToUser, getActiveConnection.
    now rewrite (get_none_has _ _ (has_delete _ _)).
  - now apply keys_set, keys_set.
  - unfold delete. apply NoDup_map_filter. now apply keys_set, keys_set.
Qed.

Lemma sendToUser_online (userId : string) (reg : t) :
  match sendToUser userId reg with Some _ => true | None => false end
  = isUserOnline userId reg.
Proof.
  unfold sendToUser, getActiveConnection, isUserOnline, get, has.
  induction reg as [|[k v] reg IH]; simpl; [reflexivity|].
  destruct (k =? userId); simpl; [reflexivity|exact IH].
Qed.

Lemma sendToUsers_from (reg : t) (userIds acc : list string) :
  fold_left (fun sentTo userId =>
               match sendToUser userId reg with
               | Some _ => sentTo ++ [userId]
               | None => sentTo
               end) userIds acc
  = acc ++ filter (fun u => isUserOnline u reg) userIds.
Proof.
  revert acc. induction userIds as [|u userIds IH]; intros acc; simpl.
  - now rewrite app_nil_r.
  - rewrite IH, <- sendToUser_online.
    destruct (sendToUser u reg); [now rewrite <- app_assoc|reflexivity].
Qed.

Lemma total_bump (k : string) (acc : list (string * Z)) :
  total (bump k acc) = total acc + 1.
Proof.
  unfold total. induction acc as [|[k' n] acc IH]; simpl; [lia|].
  destruct (k' =? k); simpl; [lia|]. rewrite IH. lia.
Qed.

Lemma total_counted (users : list ActiveUser) (acc : list (string * Z)) :
  total (fold_left (fun acc u => bump (activeStatus u) acc) users acc)
  = total acc + Z.of_nat (List.length users).
Proof.
  revert acc. induction users as [|u users IH]; intros acc.
  - simpl. lia.
  - cbn [fold_left List.length]. rewrite IH, total_bump. lia.
Qed.

(** X25.  [sendToUsers] returns the users of its list who are online, in the
    order of the list; and in the statistics of the registry the counts by
    status add up to the number of connections, which is the number of
    active users listed. *)
Theorem registry_reports_add_up (reg : t) (userIds : list string) :
  sendToUsers userIds reg = filter (fun u => isUserOnline u reg) userIds
  /\ total (connectionsByStatus (getConnectionStats reg))
     = totalConnections (getConnectionStats reg)
  /\ Z.of_nat (List.length (activeUsers (getConnectionStats reg)))
     = totalConnections (getConnectionStats reg).
Proof.
  split; [|split].
  - unfold sendToUsers. now rewrite sendToUsers_from.
  - simpl. rewrite total_counted. unfold getActiveUsers.
    rewrite length_map. reflexivity.
  - simpl. unfold getActiveUsers. now rewrite length_map.
Qed.
End RegistryFacts.

Lemma registry_witness :
  Registry.isUserOnline Sample.alice
    (Registry.disconnect (Sample.account Sample.alice "alice")
       (Registry.connect 20 "socket-2" (Sample.account Sample.alice "alice")
          (Registry.connect 10 "socket-1"
             (Sample.account Sample.alice "alice") [])))
  = false.
Proof.
  assert (NoDup (map fst (@nil (string * Registry.Connection)))) as Hkeys
      by constructor.
  exact (proj1 (proj2 (proj2
           (@registry_keeps_one_socket_per_user 10 20 "socket-1" "socket-2"
              (Sample.account Sample.alice "alice") [] Hkeys)))).
Defined.

(** ** Tokens *)

Section Tokens.
Import Auth.
Variable jwtVerify : string -> option string.

Lemma bearer_prefix (h : string) :
  startsWith "Bearer " h = true -> h = ("Bearer " ++ substringFrom 7 h)%string.
Proof.
  unfold startsWith.
  do 7 (destruct h as [|? h]; simpl; [discriminate|];
        match goal with
        | |- (if ?d then _ else _) = true -> _ =>
            destruct d; [subst|discriminate]
        end).
  reflexivity.
Qed.

Lemma prefix_append (p s : string) : String.prefix p (p ++ s)%string = true.
Proof.
  induction p as [|a p IH]; simpl; [now destruct s|].
  destruct (ascii_dec a a); [exact IH|congruence].
Qed.

Lemma extract_bearer (token : string) :
  extractTokenFromHeader (Some ("Bearer " ++ token)%string) = Some token.
Proof.
  unfold extractTokenFromHeader, startsWith.
  rewrite prefix_append. reflexivity.
Qed.

Lemma extract_inv (authHeader : option string) (token : string) :
  extractTokenFromHeader authHeader = Some token ->
  authHeader = Some ("Bearer " ++ token)%string.
Proof.
  unfold extractTokenFromHeader. destruct authHeader as [h|]; [|discriminate].
  destruct (falsy h); simpl; [discriminate|].
  destruct (startsWith "Bearer " h) eqn:E; simpl; [|discriminate].
  intros [= <-]. f_equal. now apply bearer_prefix.
Qed.

(** X26.  [authenticate] lets a request through, with a user attached,
    exactly when its header is "Bearer " followed by a token that is not
    empty, that [jwt.verify] accepts, and whose id is the id of a stored,
    active user, and then the user attached is that one. *)
Theorem authenticate_accepts_exactly_valid_bearers
        (authHeader : option string) (users : list User.t) (user : User.t) :
  authenticate jwtVerify authHeader users = Next user
  <-> exists token id,
      authHeader = Some ("Bearer " ++ token)%string /\ token <> ""
      /\ jwtVerify token = Some id
      /\ findById User._id id users = Some user
      /\ User.isActive user = true.
Proof.
  unfold authenticate, verifyToken. split.
  - destruct (extractTokenFromHeader authHeader) as [token|] eqn:Hx;
      [|discriminate].
    destruct (falsy token) eqn:Hf; [discriminate|].
    destruct (jwtVerify token) as [id|] eqn:Hv.
    + destruct (findById User._id id users) as [found|] eqn:Hu;
        [|discriminate].
      destruct (User.isActive found) eqn:Ha; simpl; [|discriminate].
      intros [= <-]. exists token, id.
      split; [now apply extract_inv|]. split.
      * intros ->. discriminate.
      * auto.
    + destruct (includesText "expired" "Invalid or expired token");
        discriminate.
  - intros (token & id & -> & Hne & Hv & Hu & Ha).
    rewrite extract_bearer, (falsy_false Hne), Hv, Hu, Ha. reflexivity.
Qed.

(** X27.  Every token that [jwt.verify] refuses, expired or not, is answered
    "Token has expired": [verifyToken] replaces the library's error by one
    whose message contains "expired", which is what [authenticate] looks
    for. *)
Theorem refused_token_is_reported_expired
        (token : string) (users : list User.t) :
  token <> "" -> jwtVerify token = None ->
  authenticate jwtVerify (Some ("Bearer " ++ token)%string) users
  = Denied "Token has expired".
Proof.
  intros Hne Hv. unfold authenticate, verifyToken.
  rewrite extract_bearer, (falsy_false Hne), Hv. reflexivity.
Qed.

(** X28.  The socket middleware accepts what the REST middleware accepts:
    for a token that is not empty and does not itself begin with "Bearer ",
    [socketAuth] with the token in [handshake.auth.token], bare or with the
    "Bearer " prefix, lets a connection through with a user exactly when
    [authenticate] lets the header "Bearer <token>" through with that
    user. *)
Theorem socket_and_rest_accept_the_same_tokens
        (token : string) (authHeader : option string) (users : list User.t)
        (user : User.t) :
  token <> "" -> startsWith "Bearer " token = false ->
  (socketAuth jwtVerify (Some token) authHeader users = Next user
   <-> authenticate jwtVerify (Some ("Bearer " ++ token)%string) users = Next user)
  /\ (socketAuth jwtVerify (Some ("Bearer " ++ token)%string) authHeader users
      = Next user
      <-> authenticate jwtVerify (Some ("Bearer " ++ token)%string) users
          = Next user).
Proof.
  intros Hne Hbare.
  assert (startsWith "Bearer " ("Bearer " ++ token)%string = true) as Hpre.
  { unfold startsWith. apply prefix_append. }
  assert (falsy ("Bearer " ++ token)%string = false) as Hfull
      by reflexivity.
  unfold socketAuth, authenticate, verifyToken.
  rewrite extract_bearer, (falsy_false Hne), Hfull. cbv zeta.
  rewrite (falsy_false Hne), Hfull, Hbare, Hpre.
  change (substringFrom 7 ("Bearer " ++ token)%string) with token.
  destruct (jwtVerify token) as [id|]; [split; reflexivity|].
  simpl. split; split; discriminate.
Qed.
End Tokens.

Lemma refused_token_witness :
  Auth.authenticate Fixture.verifier (Some "Bearer stale")
    (db_users Sample.db0)
  = Auth.Denied "Token has expired".
Proof.
  assert ("stale" <> "") as Hne by discriminate.
  exact (@refused_token_is_reported_expired Fixture.verifier "stale"
           (db_users Sample.db0) Hne eq_refl).
Defined.

Lemma socket_and_rest_witness :
  Auth.socketAuth Fixture.verifier (Some "alice-token") None
    (db_users Sample.db0)
  = Auth.Next (Sample.account Sample.alice "alice")
  /\ Auth.socketAuth Fixture.verifier (Some "Bearer alice-token") None
       (db_users Sample.db0)
     = Auth.Next (Sample.account Sample.alice "alice").
Proof.
  assert ("alice-token" <> "") as Hne by discriminate.
  destruct (@socket_and_rest_accept_the_same_tokens Fixture.verifier
              "alice-token" None (db_users Sample.db0)
              (Sample.account Sample.alice "alice") Hne eq_refl)
    as [Hbare Hprefixed].
  split; [apply (proj2 Hbare)|apply (proj2 Hprefixed)]; reflexivity.
Defined.

(** ** Friends and blocked users *)

Section ContactsFacts.
Import Contacts.

Lemma replaceById_map (d : t) (c : list t) :
  NoDup (map _id c) ->
  replaceById _id d c = map (fun x => if _id x =? _id d then d else x) c.
Proof.
  induction c as [|x c IH]; simpl; intros H; [reflexivity|].
  inversion H as [|? ? Hx Hc]; subst.
  destruct (_id x =? _id d) eqn:E.
  - f_equal. symmetry. erewrite map_ext_in; [apply map_id|].
    intros y Hy. simpl.
    destruct (_id y =? _id d) eqn:Ey; [|reflexivity].
    apply String.eqb_eq in E, Ey. exfalso. apply Hx.
    rewrite E, <- Ey. now apply in_map.
  - f_equal. now apply IH.
Qed.

Lemma updateFirst_map (i : string) (g : t -> t) (c : list t) :
  NoDup (map _id c) ->
  updateFirst (fun u => _id u =? i) g c
  = map (fun x => if _id x =? i then g x else x) c.
Proof.
  induction c as [|x c IH]; simpl; intros H; [reflexivity|].
  inversion H as [|? ? Hx Hc]; subst.
  destruct (_id x =? i) eqn:E.
  - f_equal. symmetry. erewrite map_ext_in; [apply map_id|].
    intros y Hy. simpl.
    destruct (_id y =? i) eqn:Ey; [|reflexivity].
    apply String.eqb_eq in E, Ey. exfalso. apply Hx.
    rewrite E, <- Ey. now apply in_map.
  - f_equal. now apply IH.
Qed.

Lemma unique_by_id (c : list t) (i : string) (d x : t) :
  NoDup (map _id c) -> findById _id i c = Some d -> In x c -> _id x = i ->
  x = d.
Proof.
  induction c as [|y c IH]; simpl; intros H Hf Hin Hid; [contradiction|].
  inversion H as [|? ? Hy Hc]; subst.
  unfold findById in Hf. simpl in Hf.
  destruct (_id y =? _id x) eqn:E.
  - injection Hf as <-. destruct Hin as [->|Hin]; [reflexivity|].
    apply String.eqb_eq in E. exfalso. apply Hy. rewrite E.
    now apply in_map.
  - destruct Hin as [->|Hin]; [now rewrite String.eqb_refl in E|].
    now apply IH.
Qed.

Lemma consistent_map (F : t -> t) (G : string -> list string -> list string)
      (c : list t) :
  consistent c ->
  (forall x, In x c ->
             _id (F x) = _id x
             /\ friendIds (F x) = G (_id x) (friendIds x)) ->
  (forall a, In a c -> NoDup (G (_id a) (friendIds a))) ->
  (forall a b, In a c -> In b c ->
               (In (_id b) (G (_id a) (friendIds a))
                <-> In (_id a) (G (_id b) (friendIds b)))) ->
  consistent (map F c).
Proof.
  intros (Hids & Hnd & Hmut) HF HG1 HG2. split; [|split].
  - rewrite map_map. erewrite map_ext_in; [exact Hids|].
    intros x Hx. apply HF, Hx.
  - apply Forall_forall. intros y Hy. apply in_map_iff in Hy.
    destruct Hy as (x & <- & Hx). rewrite (proj2 (HF x Hx)). now apply HG1.
  - intros a' b' Ha' Hb'. apply in_map_iff in Ha', Hb'.
    destruct Ha' as (a & <- & Ha). destruct Hb' as (b & <- & Hb).
    rewrite (proj1 (HF a Ha)), (proj1 (HF b Hb)).
    rewrite (proj2 (HF a Ha)), (proj2 (HF b Hb)). now apply HG2.
Qed.

Lemma isFriend_In (u : t) (i : string) :
  isFriend u i = true <-> In i (friendIds u).
Proof.
  unfold isFriend, friendIds. rewrite existsb_exists, in_map_iff. split.
  - intros (f & Hf & E). apply String.eqb_eq in E. eauto.
  - intros (f & E & Hf). exists f. split; [exact Hf|].
    now apply String.eqb_eq.
Qed.

Lemma friendIds_filter (i : string) (fs : list Friend) :
  map user (filter (fun f => negb (user f =? i)) fs)
  = filter (fun j => negb (j =? i)) (map user fs).
Proof.
  induction fs as [|f fs IH]; simpl; [reflexivity|].
  destruct (user f =? i); simpl; now rewrite IH.
Qed.

Lemma friendIds_removeFirst (i : string) (fs : list Friend) :
  NoDup (map user fs) ->
  map user (removeFirst (fun f => user f =? i) fs)
  = filter (fun j => negb (j =? i)) (map user fs).
Proof.
  induction fs as [|f fs IH]; simpl; intros H; [reflexivity|].
  inversion H as [|? ? Hf Hfs]; subst.
  destruct (user f =? i) eqn:E; simpl.
  - symmetry. apply filter_all. intros j Hj.
    destruct (j =? i) eqn:Ej; [|reflexivity].
    apply String.eqb_eq in E, Ej. subst. contradiction.
  - now rewrite IH.
Qed.

Lemma In_out (i j : string) (l : list string) :
  In j (filter (fun k => negb (k =? i)) l) <-> In j l /\ j <> i.
Proof.
  rewrite filter_In, negb_true_iff, String.eqb_neq. tauto.
Qed.

Lemma consistent_linked (now1 now2 : Z) (u v : string) (cu cv : t)
      (c : list t) :
  consistent c -> u <> v ->
  findById _id u c = Some cu -> findById _id v c = Some cv ->
  isFriend cu v = false ->
  consistent
    (save (save c (with_friends cu (friends cu ++ [mkFriend v now1])))
          (with_friends cv (friends cv ++ [mkFriend u now2]))).
Proof.
  intros Hc Hneq Hu Hv Hnot.
  pose proof Hc as (Hids & Hnd & Hmut).
  pose proof (findById_some _ _ _ Hu) as [Hincu Hidu].
  pose proof (findById_some _ _ _ Hv) as [Hincv Hidv].
  unfold save. rewrite (@replaceById_map _ _ Hids).
  rewrite replaceById_map.
  2:{ rewrite map_map. erewrite map_ext_in; [exact Hids|].
      intros x _. simpl. destruct (_id x =? _id cu) eqn:E; [|reflexivity].
      now apply String.eqb_eq in E. }
  rewrite map_map. simpl.
  apply (@consistent_map _ (linked u v)); [exact Hc| | |].
  - intros x Hx. unfold linked. rewrite Hidu, Hidv.
    destruct (_id x =? u) eqn:Exu.
    + apply String.eqb_eq in Exu.
      pose proof (@unique_by_id _ _ _ _ Hids Hu Hx Exu) as ->.
      simpl. rewrite Hidu. apply String.eqb_neq in Hneq. rewrite Hneq.
      split; [exact Hidu|]. unfold friendIds. simpl.
      now rewrite map_app.
    + destruct (_id x =? v) eqn:Exv; [|split; reflexivity].
      apply String.eqb_eq in Exv.
      pose proof (@unique_by_id _ _ _ _ Hids Hv Hx Exv) as ->.
      split; [reflexivity|]. unfold friendIds. simpl.
      now rewrite map_app.
  - intros a Ha. unfold linked.
    pose proof (proj1 (Forall_forall _ _) Hnd a Ha) as Hnda.
    destruct (_id a =? u) eqn:Eau.
    + apply String.eqb_eq in Eau.
      pose proof (@unique_by_id _ _ _ _ Hids Hu Ha Eau) as ->.
      apply NoDup_snoc; [exact Hnda|].
      intros Hin. apply isFriend_In in Hin. congruence.
    + destruct (_id a =? v) eqn:Eav; [|exact Hnda].
      apply String.eqb_eq in Eav.
      pose proof (@unique_by_id _ _ _ _ Hids Hv Ha Eav) as ->.
      apply NoDup_snoc; [exact Hnda|].
      intros Hin. rewrite <- Hidu in Hin.
      apply (Hmut cv cu Hincv Hincu) in Hin.
      rewrite Hidv in Hin. apply isFriend_In in Hin. congruence.
  - intros a b Ha Hb. unfold linked.
    pose proof (Hmut a b Ha Hb) as Hab.
    destruct (_id a =? u) eqn:Eau; destruct (_id b =? u) eqn:Ebu;
      destruct (_id a =? v) eqn:Eav; destruct (_id b =? v) eqn:Ebv;
      repeat match goal with
             | H : (_ =? _) = true |- _ => apply String.eqb_eq in H
             | H : (_ =? _) = false |- _ => apply String.eqb_neq in H
             end;
      rewrite ?in_app_iff; simpl; try congruence;
      try (rewrite Eau in * ); try (rewrite Ebu in * );
      try (rewrite Eav in * ); try (rewrite Ebv in * );
      intuition congruence.
Qed.
Lemma ids_saved (d : t) (c : list t) :
  NoDup (map _id c) -> NoDup (map _id (save c d)).
Proof.
  intros Hids. unfold save. rewrite (@replaceById_map d c Hids), map_map.
  erewrite map_ext_in; [exact Hids|].
  intros x _. simpl. destruct (_id x =? _id d) eqn:E; [|reflexivity].
  now apply String.eqb_eq in E.
Qed.

Lemma consistent_unlinked (u v : string) (cu cu' : t) (c : list t) :
  consistent c ->
  findById _id u c = Some cu -> _id cu' = u ->
  friendIds cu' = filter (fun j => negb (j =? v)) (friendIds cu) ->
  consistent (pullFriend v u (save c cu')).
Proof.
  intros Hc Hu Hid' Hfs'.
  pose proof Hc as (Hids & Hnd & Hmut).
  pose proof (findById_some _ _ _ Hu) as [Hincu Hidu].
  unfold pullFriend. rewrite (@updateFirst_map v _ _ (@ids_saved cu' c Hids)).
  unfold save. rewrite (@replaceById_map cu' c Hids), map_map.
  apply (@consistent_map _ (unlinked u v)); [exact Hc| | |].
  - intros x Hx. unfold unlinked. cbv zeta. rewrite Hid'.
    destruct (_id x =? u) eqn:Exu.
    + apply String.eqb_eq in Exu.
      pose proof (@unique_by_id _ _ _ _ Hids Hu Hx Exu) as ->.
      rewrite Hid', Hidu.
      destruct (u =? v); simpl; (split; [congruence|]).
      * unfold friendIds at 1. simpl. rewrite friendIds_filter.
        fold (friendIds cu'). now rewrite Hfs'.
      * exact Hfs'.
    + destruct (_id x =? v); simpl; (split; [reflexivity|]);
        [|reflexivity].
      unfold friendIds. simpl. apply friendIds_filter.
  - intros a Ha. unfold unlinked. cbv zeta.
    pose proof (proj1 (Forall_forall _ _) Hnd a Ha) as Hnda.
    destruct (_id a =? u); destruct (_id a =? v);
      repeat apply NoDup_filter; exact Hnda.
  - intros a b Ha Hb. unfold unlinked. cbv zeta.
    pose proof (Hmut a b Ha Hb) as Hab.
    destruct (_id a =? u) eqn:Eau; destruct (_id b =? u) eqn:Ebu;
      destruct (_id a =? v) eqn:Eav; destruct (_id b =? v) eqn:Ebv;
      repeat match goal with
             | H : (_ =? _) = true |- _ => apply String.eqb_eq in H
             | H : (_ =? _) = false |- _ => apply String.eqb_neq in H
             end;
      rewrite ?In_out; intuition congruence.
Qed.

Lemma consistent_same (u : string) (cu d : t) (c : list t) :
  consistent c ->
  findById _id u c = Some cu -> _id d = u -> friendIds d = friendIds cu ->
  consistent (save c d).
Proof.
  intros Hc Hu Hid' Hfs'.
  pose proof Hc as (Hids & Hnd & Hmut).
  pose proof (findById_some _ _ _ Hu) as [Hincu Hidu].
  unfold save. rewrite (@replaceById_map d c Hids).
  apply (@consistent_map _ (fun _ l => l)); [exact Hc| | |].
  - intros x Hx. rewrite Hid'.
    destruct (_id x =? u) eqn:Exu; [|split; reflexivity].
    apply String.eqb_eq in Exu.
    pose proof (@unique_by_id _ _ _ _ Hids Hu Hx Exu) as ->.
    split; congruence.
  - intros a Ha. exact (proj1 (Forall_forall _ _) Hnd a Ha).
  - exact Hmut.
Qed.

Lemma isFriend_false (u : t) (i : string) :
  isFriend u i = false -> ~ In i (friendIds u).
Proof. intros H Hin. apply isFriend_In in Hin. congruence. Qed.

(** X29.  Friendship stays mutual under requests that name a user by the
    rendering of an [ObjectId] (twenty-four hexadecimal digits in lower
    case, the text that a cast leaves as it is): when the stored users have
    distinct ids, name no friend twice and are friends of each other in both
    directions, the same holds after such a request on the friend and block
    lists, over REST ([addFriend], [removeFriend], [blockUser],
    [unblockUser]) and over the socket ([user:add_friend],
    [user:remove_friend], [user:block], [user:unblock]), accepted or
    refused. *)
Theorem friendship_stays_mutual (c : list t) (req : Request) :
  castObjectId (named req) = Some (named req) ->
  consistent c -> consistent (step c req).
Proof.
  intros _ Hc. pose proof Hc as (Hids & Hnd & Hmut).
  destruct req as [now u v|u v|u v|u v|now u v|u v|u v|u v]; unfold step.
  - unfold addFriend.
    destruct (isMongoId v); simpl; [|exact Hc].
    destruct (v =? u) eqn:Evu; [exact Hc|].
    destruct (findById _id v c) as [cv|] eqn:Hv; [|exact Hc].
    destruct (isActive cv); simpl; [|exact Hc].
    destruct (findById _id u c) as [cu|] eqn:Hu; [|exact Hc].
    destruct (isFriend cu v) eqn:Hf; [exact Hc|].
    destruct (includes (blockedUsers cu) v); [exact Hc|].
    simpl. apply String.eqb_neq in Evu.
    apply consistent_linked; auto.
  - unfold removeFriend.
    destruct (isMongoId v); simpl; [|exact Hc].
    destruct (findById _id u c) as [cu|] eqn:Hu; [|exact Hc].
    destruct (isFriend cu v); simpl; [|exact Hc].
    pose proof (findById_some _ _ _ Hu) as [Hincu Hidu].
    apply (@consistent_unlinked u v cu); auto.
    unfold friendIds. simpl. apply friendIds_removeFirst.
    exact (proj1 (Forall_forall _ _) Hnd cu Hincu).
  - unfold blockUser.
    destruct (isMongoId v); simpl; [|exact Hc].
    destruct (v =? u); [exact Hc|].
    destruct (findById _id v c) as [cv|]; [|exact Hc].
    destruct (findById _id u c) as [cu|] eqn:Hu; [|exact Hc].
    destruct (includes (blockedUsers cu) v); [exact Hc|]. simpl.
    pose proof (findById_some _ _ _ Hu) as [Hincu Hidu].
    apply (@consistent_unlinked u v cu); auto.
    unfold friendIds. simpl. apply friendIds_filter.
  - unfold unblockUser.
    destruct (isMongoId v); simpl; [|exact Hc].
    destruct (findById _id u c) as [cu|] eqn:Hu; [|exact Hc].
    destruct (includes (blockedUsers cu) v); simpl; [|exact Hc].
    pose proof (findById_some _ _ _ Hu) as [Hincu Hidu].
    apply (@consistent_same u cu); auto.
  - unfold user_add_friend.
    destruct (falsy v); [exact Hc|].
    destruct (v =? u) eqn:Evu; [exact Hc|].
    destruct (findById _id v c) as [cv|] eqn:Hv; [|exact Hc].
    destruct (isActive cv); simpl; [|exact Hc].
    destruct (findById _id u c) as [cu|] eqn:Hu; [|exact Hc].
    destruct (isFriend cu v) eqn:Hf; [exact Hc|].
    simpl. apply String.eqb_neq in Evu.
    apply consistent_linked; auto.
  - unfold user_remove_friend.
    destruct (falsy v); [exact Hc|].
    destruct (findById _id u c) as [cu|] eqn:Hu; [|exact Hc]. simpl.
    pose proof (findById_some _ _ _ Hu) as [Hincu Hidu].
    apply (@consistent_unlinked u v cu); auto.
    unfold friendIds. simpl. apply friendIds_filter.
  - unfold user_block.
    destruct (falsy v); [exact Hc|].
    destruct (v =? u); [exact Hc|].
    destruct (findById _id v c) as [cv|]; [|exact Hc].
    destruct (findById _id u c) as [cu|] eqn:Hu; [|exact Hc].
    destruct (includes (blockedUsers cu) v); [exact Hc|]. simpl.
    pose proof (findById_some _ _ _ Hu) as [Hincu Hidu].
    apply (@consistent_unlinked u v cu); auto.
    unfold friendIds. simpl. apply friendIds_filter.
  - unfold user_unblock.
    destruct (falsy v); [exact Hc|].
    destruct (findById _id u c) as [cu|] eqn:Hu; [|exact Hc]. simpl.
    pose proof (findById_some _ _ _ Hu) as [Hincu Hidu].
    apply (@consistent_same u cu); auto.
Qed.

Lemma linked_lookup (u v : string) (cu cv cu' cv' : t) (c : list t) :
  u <> v ->
  findById _id u c = Some cu -> findById _id v c = Some cv ->
  _id cu' = u -> _id cv' = v ->
  findById _id u (save (save c cu') cv') = Some cu'
  /\ findById _id v (save (save c cu') cv') = Some cv'.
Proof.
  intros Hneq Hu Hv Hidu Hidv. unfold save.
  assert (findById _id u (replaceById _id cu' c) = Some cu') as Hu1.
  { rewrite <- Hidu. eapply findById_replaceById. rewrite Hidu. exact Hu. }
  assert (findById _id v (replaceById _id cu' c) = Some cv) as Hv1.
  { rewrite findById_replaceById_other; [exact Hv|]. congruence. }
  split.
  - rewrite findById_replaceById_other; [exact Hu1|]. congruence.
  - rewrite <- Hidv. eapply findById_replaceById. rewrite Hidv. exact Hv1.
Qed.

(** X30.  The block list guards one request only.  When [a] has blocked [b]
    and they are not friends, [POST /api/users/friends] by [a] for [b] is
    refused with 400; but [user:add_friend] by [a] over the socket, which
    does not look at the block list, makes them friends, and so does
    [POST /api/users/friends] by [b] for [a], which looks only at the list
    of [b]: afterwards [a] has [b] both as a friend and as a blocked
    user. *)
Theorem block_list_guards_one_request
        (now : Z) (a b : string) (ca cb : t) (c : list t) :
  a <> b -> isMongoId a = true -> isMongoId b = true ->
  findById _id a c = Some ca -> findById _id b c = Some cb ->
  isActive ca = true -> isActive cb = true ->
  includes (blockedUsers ca) b = true ->
  includes (blockedUsers cb) a = false ->
  isFriend ca b = false -> isFriend cb a = false ->
  addFriend now a b c = (c, Rest 400 "Cannot add blocked user as friend")
  /\ (exists c' ca',
        user_add_friend now a b c
        = (c', SocketOk "user:add_friend:success"
                 (Some (b, "user:friend_added")))
        /\ findById _id a c' = Some ca'
        /\ isFriend ca' b = true /\ includes (blockedUsers ca') b = true)
  /\ (exists c' ca',
        addFriend now b a c = (c', Rest 200 "Friend added successfully")
        /\ findById _id a c' = Some ca'
        /\ isFriend ca' b = true /\ includes (blockedUsers ca') b = true).
Proof.
  intros Hneq Ha Hb Hca Hcb Hacta Hactb Hblocked Hfree Hfa Hfb.
  pose proof (findById_some _ _ _ Hca) as [_ Hida].
  pose proof (findById_some _ _ _ Hcb) as [_ Hidb].
  assert ((b =? a) = false) as Hba by (apply String.eqb_neq; congruence).
  assert ((a =? b) = false) as Hab by (apply String.eqb_neq; congruence).
  assert (b <> "") as Hbne by (intros ->; discriminate).
  assert (forall fs, isFriend (with_friends ca (fs ++ [mkFriend b now])) b
                     = true) as Hlinked.
  { intros fs. unfold isFriend. simpl. rewrite existsb_app. simpl.
    now rewrite String.eqb_refl, orb_true_r. }
  split; [|split].
  - unfold addFriend. rewrite Hb, Hba, Hcb, Hactb, Hca, Hfa, Hblocked.
    reflexivity.
  - eexists. exists (with_friends ca (friends ca ++ [mkFriend b now])).
    split.
    + unfold user_add_friend.
      rewrite (falsy_false Hbne), Hba, Hcb, Hactb, Hca, Hfa. reflexivity.
    + split; [|split; [apply Hlinked|exact Hblocked]].
      apply (@linked_lookup a b ca cb); auto.
  - eexists. exists (with_friends ca (friends ca ++ [mkFriend b now])).
    split.
    + unfold addFriend. rewrite Ha, Hab, Hca, Hacta, Hcb, Hfb, Hfree.
      reflexivity.
    + split; [|split; [apply Hlinked|exact Hblocked]].
      apply (@linked_lookup b a cb ca); auto.
Qed.
End ContactsFacts.

Lemma friendship_stays_mutual_witness :
  Contacts.consistent
    (Contacts.step Fixture.people
       (Contacts.AddFriend 10 Sample.alice Sample.bob)).
Proof.
  apply friendship_stays_mutual; [reflexivity|]. split; [|split].
  - repeat constructor; simpl; intuition discriminate.
  - repeat constructor.
  - intros x y [<-|[<-|[<-|[]]]] [<-|[<-|[<-|[]]]]; simpl; tauto.
Defined.

Lemma block_list_witness :
  exists c' ca',
    Contacts.addFriend 10 Sample.bob Sample.alice Fixture.peopleBlocked
    = (c', Contacts.Rest 200 "Friend added successfully")
    /\ findById Contacts._id Sample.alice c' = Some ca'
    /\ Contacts.isFriend ca' Sample.bob = true
    /\ includes (Contacts.blockedUsers ca') Sample.bob = true.
Proof.
  assert (Sample.alice <> Sample.bob) as Hneq by discriminate.
  exact (proj2 (proj2
           (@block_list_guards_one_request 10 Sample.alice Sample.bob
              (Contacts.mk Sample.alice "alice" true [] [Sample.bob])
              (Contacts.mk Sample.bob "bob" true [] [])
              Fixture.peopleBlocked Hneq eq_refl eq_refl eq_refl eq_refl
              eq_refl eq_refl eq_refl eq_refl eq_refl eq_refl))).
Defined.
